(** * temp_sensor.py: BME280 acquisition, compensation and Tuya cloud push

    A shallow embedding of [src/temp_sensor.py].  Python [int] is [Z],
    Python [float] is an IEEE-754 binary64 value ([spec_float] with
    precision 53 and maximal exponent 1024), a [try ... except] block is
    a computation in [option] whose [None] is the raised exception, and
    the module-level globals are fields of an explicit state record. *)

From Stdlib Require Import ZArith List Bool String Ascii Lia QArith Qabs Qround.
From Stdlib Require Import Floats.SpecFloat DecimalString.
Import ListNotations.

Local Open Scope Z_scope.

(** ** The raising fragment of Python: [None] is a raised exception *)

Definition bind {A B : Type} (c : option A) (k : A -> option B) : option B :=
  match c with
  | Some a => k a
  | None => None
  end.

Notation "x <- c ;; k" := (bind c (fun x => k))
  (at level 61, c at next level, right associativity).

(** [try: body except Exception: return dflt] *)
Definition try_except {A : Type} (body : option A) (dflt : A) : A :=
  match body with
  | Some a => a
  | None => dflt
  end.

(** ** Sensor configuration constants *)

Definition BME280_ADDRESS : Z := 0x77.
Definition BME280_REGISTER_CHIPID : Z := 0xD0.
Definition BME280_REGISTER_CTRL_HUM : Z := 0xF2.
Definition BME280_REGISTER_CTRL_MEAS : Z := 0xF4.
Definition BME280_REGISTER_CONFIG : Z := 0xF5.
Definition BME280_REGISTER_PRESS : Z := 0xF7.
Definition BME280_REGISTER_DIG_T1 : Z := 0x88.
Definition BME280_REGISTER_DIG_H1 : Z := 0xA1.
Definition BME280_REGISTER_DIG_H2 : Z := 0xE1.

(** ** The I2C bus

    The methods of [smbus2.SMBus] the program calls.  A result of [None]
    is a transport fault (the call raises). *)

Record SMBus : Type := {
  read_byte_data : Z -> Z -> option Z;
  read_i2c_block_data : Z -> Z -> Z -> option (list Z);
  write_byte_data : Z -> Z -> Z -> option unit
}.

(** [data[i]] for a constant non-negative index: [IndexError] when the
    list is too short. *)
Definition index (data : list Z) (i : nat) : option Z := nth_error data i.

(** ** Register codec *)

Definition read_unsigned_short (bus : SMBus) (address register : Z)
    (little_endian : bool) : Z :=
  try_except
    (data <- read_i2c_block_data bus address register 2 ;;
     d0 <- index data 0 ;;
     d1 <- index data 1 ;;
     if little_endian
     then Some (d0 + Z.shiftl d1 8)
     else Some (Z.lor (Z.shiftl d0 8) d1))
    0.

Definition read_signed_short (bus : SMBus) (address register : Z)
    (little_endian : bool) : Z :=
  try_except
    (data <- read_i2c_block_data bus address register 2 ;;
     d0 <- index data 0 ;;
     d1 <- index data 1 ;;
     let val := if little_endian
                then d0 + Z.shiftl d1 8
                else Z.lor (Z.shiftl d0 8) d1 in
     Some (if val <? 32768 then val else val - 65536))
    0.

(** ** Calibration loader *)

Record calib_data : Type := {
  calib_T : Z * Z * Z;
  calib_H : Z * Z * Z * Z * Z * Z
}.

Definition default_calib : calib_data :=
  {| calib_T := (27504, 26435, -1000);
     calib_H := (75, 360, 0, 300, 50, 30) |}.

Definition read_calibration_data (bus : SMBus) (address : Z) : calib_data :=
  try_except
    (let dig_T1 := read_unsigned_short bus address BME280_REGISTER_DIG_T1 true in
     let dig_T2 := read_signed_short bus address (BME280_REGISTER_DIG_T1 + 2) true in
     let dig_T3 := read_signed_short bus address (BME280_REGISTER_DIG_T1 + 4) true in
     dig_H1 <- read_byte_data bus address BME280_REGISTER_DIG_H1 ;;
     let dig_H2 := read_signed_short bus address BME280_REGISTER_DIG_H2 true in
     dig_H3 <- read_byte_data bus address (BME280_REGISTER_DIG_H2 + 2) ;;
     e4 <- read_byte_data bus address (BME280_REGISTER_DIG_H2 + 3) ;;
     e5 <- read_byte_data bus address (BME280_REGISTER_DIG_H2 + 4) ;;
     e6 <- read_byte_data bus address (BME280_REGISTER_DIG_H2 + 5) ;;
     let dig_H4 := Z.lor (Z.shiftl e4 4) (Z.land e5 0x0F) in
     let dig_H5 := Z.lor (Z.shiftl e6 4) (Z.shiftr e5 4) in
     dig_H6 <- read_byte_data bus address (BME280_REGISTER_DIG_H2 + 6) ;;
     let dig_H6 := if dig_H6 >? 127 then dig_H6 - 256 else dig_H6 in
     Some {| calib_T := (dig_T1, dig_T2, dig_T3);
             calib_H := (dig_H1, dig_H2, dig_H3, dig_H4, dig_H5, dig_H6) |})
    default_calib.

(** The six humidity coefficients, by position. *)
Definition H4_of (c : calib_data) : Z :=
  let '(_, _, _, h4, _, _) := calib_H c in h4.
Definition H5_of (c : calib_data) : Z :=
  let '(_, _, _, _, h5, _) := calib_H c in h5.
Definition H6_of (c : calib_data) : Z :=
  let '(_, _, _, _, _, h6) := calib_H c in h6.

(** ** Raw sample read *)

Definition read_raw_data (bus : SMBus) (address : Z) : Z * Z * Z :=
  try_except
    (data <- read_i2c_block_data bus address BME280_REGISTER_PRESS 8 ;;
     d0 <- index data 0 ;;
     d1 <- index data 1 ;;
     d2 <- index data 2 ;;
     let press_raw := Z.lor (Z.lor (Z.shiftl d0 12) (Z.shiftl d1 4)) (Z.shiftr d2 4) in
     d3 <- index data 3 ;;
     d4 <- index data 4 ;;
     d5 <- index data 5 ;;
     let temp_raw := Z.lor (Z.lor (Z.shiftl d3 12) (Z.shiftl d4 4)) (Z.shiftr d5 4) in
     d6 <- index data 6 ;;
     d7 <- index data 7 ;;
     let hum_raw := Z.lor (Z.shiftl d6 8) d7 in
     Some (temp_raw, press_raw, hum_raw))
    (0, 0, 0).

(** ** Python floats: IEEE-754 binary64 *)

Definition prec : Z := 53.
Definition emax : Z := 1024.

Definition float : Type := spec_float.

Definition fadd : float -> float -> float := SFadd prec emax.
Definition fsub : float -> float -> float := SFsub prec emax.
Definition fmul : float -> float -> float := SFmul prec emax.
Definition flt : float -> float -> bool := SFltb.
Definition fle : float -> float -> bool := SFleb.
Definition feq : float -> float -> bool := SFeqb.

(** The binary64 nearest to the integer [n] (ties to even). *)
Definition Z2F (n : Z) : float := binary_normalize prec emax n 0 false.

(** A decimal literal [n / 10^d] of the source text.  Both [n] and
    [10^d] are below [2^53], hence exact, and IEEE division rounds the
    exact quotient once: the result is the binary64 nearest to the
    literal, which is what Python's parser yields. *)
Definition dec (n : Z) (d : Z) : float :=
  SFdiv prec emax (Z2F n) (Z2F (10 ^ d)).

Definition is_finite (x : float) : bool :=
  match x with
  | S754_zero _ | S754_finite _ _ _ => true
  | _ => false
  end.

(** [float(n)] for a Python [int], as the mixed [int]/[float] operators
    do it: [OverflowError] when [n] is too large for a binary64. *)
Definition of_int (n : Z) : option float :=
  let x := Z2F n in
  if is_finite x then Some x else None.

(** [x / y] on floats: [ZeroDivisionError] when [y] is zero. *)
Definition truediv (x y : float) : option float :=
  if feq y (S754_zero false) then None else Some (SFdiv prec emax x y).

(** [x ** 2] on floats ([float_pow] with exponent [2.0]): NaN and the
    infinities pass through, a finite [x] whose square overflows raises
    [OverflowError].  The C library's [pow(x, 2.0)] is taken to be the
    correctly rounded square. *)
Definition pow2 (x : float) : option float :=
  let y := fmul x x in
  if is_finite x && negb (is_finite y) then None else Some y.

(** [int(x)]: the integer part of [x], truncated toward zero;
    [ValueError] on NaN and [OverflowError] on an infinity. *)
Definition py_int (x : float) : option Z :=
  match x with
  | S754_zero _ => Some 0
  | S754_finite s m e =>
      Some (cond_Zopp s
              (match e with
               | Zneg p => Z.shiftr (Zpos m) (Zpos p)
               | _ => Z.shiftl (Zpos m) e
               end))
  | _ => None
  end.

(** The builtins [min(a, b)] and [max(a, b)]: the first argument is kept
    unless the second compares strictly below (above) it. *)
Definition py_min (a b : float) : float := if flt b a then b else a.
Definition py_max (a b : float) : float := if flt a b then b else a.

(** ** Compensation engine *)

Definition compensate_temperature (raw_temp : Z) (calib_T : Z * Z * Z)
    : float * Z :=
  try_except
    (let '(dig_T1, dig_T2, dig_T3) := calib_T in
     raw <- of_int raw_temp ;;
     t1 <- of_int dig_T1 ;;
     a <- truediv raw (Z2F 16384) ;;
     b <- truediv t1 (Z2F 1024) ;;
     t2 <- of_int dig_T2 ;;
     let var1 := fmul (fsub a b) t2 in
     c <- truediv raw (Z2F 131072) ;;
     d <- truediv t1 (Z2F 8192) ;;
     sq <- pow2 (fsub c d) ;;
     t3 <- of_int dig_T3 ;;
     let var2 := fmul sq t3 in
     t_fine <- py_int (fadd var1 var2) ;;
     tf <- of_int t_fine ;;
     temperature <- truediv tf (Z2F 5120) ;;
     Some (temperature, t_fine))
    (Z2F 25, 0).

Definition compensate_humidity (raw_hum : Z) (calib_H : Z * Z * Z * Z * Z * Z)
    (t_fine : Z) : float :=
  try_except
    (let '(dig_H1, dig_H2, dig_H3, dig_H4, dig_H5, dig_H6) := calib_H in
     tf <- of_int t_fine ;;
     let var_h := fsub tf (Z2F 76800) in
     if negb (feq var_h (S754_zero false)) then
       raw <- of_int raw_hum ;;
       h4 <- of_int dig_H4 ;;
       h5 <- of_int dig_H5 ;;
       h5q <- truediv h5 (Z2F 16384) ;;
       let lhs := fsub raw (fadd (fmul h4 (Z2F 64)) (fmul h5q var_h)) in
       h2 <- of_int dig_H2 ;;
       h2q <- truediv h2 (Z2F 65536) ;;
       h6 <- of_int dig_H6 ;;
       h6q <- truediv h6 (Z2F 67108864) ;;
       h3 <- of_int dig_H3 ;;
       h3q <- truediv h3 (Z2F 67108864) ;;
       let inner := fadd (Z2F 1) (fmul h3q var_h) in
       let outer := fadd (Z2F 1) (fmul (fmul h6q var_h) inner) in
       let var_h := fmul lhs (fmul h2q outer) in
       h1 <- of_int dig_H1 ;;
       q <- truediv (fmul h1 var_h) (Z2F 524288) ;;
       let var_h := fmul var_h (fsub (Z2F 1) q) in
       Some (py_max (S754_zero false) (py_min (Z2F 100) var_h))
     else
       Some (S754_zero false))
    (Z2F 50).

(** The NOAA polynomial of [calculate_heat_index], with Python's
    precedence: [**] binds tighter than [*], products and the sum
    associate to the left. *)
Definition noaa_polynomial (T R : float) : option float :=
  T2 <- pow2 T ;;
  R2 <- pow2 R ;;
  Some
    (fsub
       (fadd
          (fadd
             (fsub
                (fsub
                   (fadd
                      (fadd
                         (fadd (dec 363445176 9) (fmul (dec 988622465 9) T))
                         (fmul (dec 8184780 9) R))
                      (fmul (fmul (dec 144105 9) T) R))
                   (fmul (dec 54777 9) T2))
                (fmul (dec 121227 8) R2))
             (fmul (fmul (dec 38646 9) T2) R))
          (fmul (fmul (dec 29039 9) T) R2))
       (fmul (fmul (dec 187 8) T2) R2)).

Definition calculate_heat_index (temperature humidity : float) : float :=
  try_except
    (if flt temperature (Z2F 26) then Some temperature
     else noaa_polynomial temperature humidity)
    temperature.

(** ** SHA-256 and HMAC ([hashlib.sha256], [hmac.new]), FIPS 180-4 and
    RFC 2104, on bytes and 32-bit words held in [Z] *)

Definition w32 (x : Z) : Z := Z.land x 0xFFFFFFFF.
Definition add32 (x y : Z) : Z := w32 (x + y).
Definition rotr (n x : Z) : Z := Z.lor (Z.shiftr x n) (w32 (Z.shiftl x (32 - n))).
Definition not32 (x : Z) : Z := Z.lxor x 0xFFFFFFFF.

Definition Ch (x y z : Z) : Z := Z.lxor (Z.land x y) (Z.land (not32 x) z).
Definition Maj (x y z : Z) : Z :=
  Z.lxor (Z.lxor (Z.land x y) (Z.land x z)) (Z.land y z).
Definition Sigma0 (x : Z) : Z := Z.lxor (Z.lxor (rotr 2 x) (rotr 13 x)) (rotr 22 x).
Definition Sigma1 (x : Z) : Z := Z.lxor (Z.lxor (rotr 6 x) (rotr 11 x)) (rotr 25 x).
Definition sigma0 (x : Z) : Z := Z.lxor (Z.lxor (rotr 7 x) (rotr 18 x)) (Z.shiftr x 3).
Definition sigma1 (x : Z) : Z := Z.lxor (Z.lxor (rotr 17 x) (rotr 19 x)) (Z.shiftr x 10).

(** The constants of FIPS 180-4, from their definition: the first 32
    bits of the fractional parts of the cube roots (round constants) and
    of the square roots (initial hash value) of the first primes. *)
Definition is_prime (n : Z) : bool :=
  forallb (fun d => negb (n mod d =? 0)) (map Z.of_nat (seq 2 (Z.to_nat n - 2))).

Definition primes : list Z := filter is_prime (map Z.of_nat (seq 2 310)).

(** The largest [r] below [2^bits] with [r^3 <= n], bit by bit. *)
Fixpoint cube_root (bits : nat) (n r : Z) : Z :=
  match bits with
  | O => r
  | S bits' =>
      let r' := r + 2 ^ Z.of_nat bits' in
      cube_root bits' n (if r' * r' * r' <=? n then r' else r)
  end.

Definition K256 : list Z :=
  Eval vm_compute in
    map (fun p => w32 (cube_root 35 (p * 2 ^ 96) 0)) (firstn 64 primes).

Definition hash_state : Type := (Z * Z * Z * Z * Z * Z * Z * Z)%type.

Definition frac_sqrt (p : Z) : Z := w32 (Z.sqrt (p * 2 ^ 64)).

Definition H256_init : hash_state :=
  Eval vm_compute in
    (frac_sqrt 2, frac_sqrt 3, frac_sqrt 5, frac_sqrt 7,
     frac_sqrt 11, frac_sqrt 13, frac_sqrt 17, frac_sqrt 19).

(** Big-endian words of a block. *)
Fixpoint be_words (bs : list Z) : list Z :=
  match bs with
  | b0 :: b1 :: b2 :: b3 :: rest =>
      Z.lor (Z.lor (Z.lor (Z.shiftl b0 24) (Z.shiftl b1 16)) (Z.shiftl b2 8)) b3
        :: be_words rest
  | _ => []
  end.

(** Message schedule, most recent word first. *)
Fixpoint schedule (n : nat) (w : list Z) : list Z :=
  match n with
  | O => w
  | S n' =>
      let new := add32 (add32 (add32 (sigma1 (nth 1 w 0)) (nth 6 w 0))
                          (sigma0 (nth 14 w 0))) (nth 15 w 0) in
      schedule n' (new :: w)
  end.

Definition round256 (st : hash_state) (kw : Z * Z) : hash_state :=
  let '(a, b, c, d, e, f, g, h) := st in
  let '(k, w) := kw in
  let t1 := add32 (add32 (add32 (add32 h (Sigma1 e)) (Ch e f g)) k) w in
  let t2 := add32 (Sigma0 a) (Maj a b c) in
  (add32 t1 t2, a, b, c, add32 d t1, e, f, g).

Definition compress (st : hash_state) (block : list Z) : hash_state :=
  let w := rev (schedule 48 (rev (be_words block))) in
  let '(a, b, c, d, e, f, g, h) := fold_left round256 (combine K256 w) st in
  let '(a0, b0, c0, d0, e0, f0, g0, h0) := st in
  (add32 a0 a, add32 b0 b, add32 c0 c, add32 d0 d,
   add32 e0 e, add32 f0 f, add32 g0 g, add32 h0 h).

Definition be_bytes8 (n : Z) : list Z :=
  map (fun i => Z.land (Z.shiftr n (8 * i)) 0xFF) [7; 6; 5; 4; 3; 2; 1; 0].

Definition pad (msg : list Z) : list Z :=
  let len := Z.of_nat (List.length msg) in
  msg ++ [0x80] ++ repeat 0 (Z.to_nat ((55 - len) mod 64)) ++ be_bytes8 (8 * len).

Fixpoint blocks (fuel : nat) (bs : list Z) : list (list Z) :=
  match fuel, bs with
  | S fuel', _ :: _ => firstn 64 bs :: blocks fuel' (skipn 64 bs)
  | _, _ => []
  end.

Definition word_bytes (w : Z) : list Z :=
  [Z.land (Z.shiftr w 24) 0xFF; Z.land (Z.shiftr w 16) 0xFF;
   Z.land (Z.shiftr w 8) 0xFF; Z.land w 0xFF].

Definition state_bytes (st : hash_state) : list Z :=
  let '(a, b, c, d, e, f, g, h) := st in
  word_bytes a ++ word_bytes b ++ word_bytes c ++ word_bytes d ++
  word_bytes e ++ word_bytes f ++ word_bytes g ++ word_bytes h.

Definition sha256 (msg : list Z) : list Z :=
  let p := pad msg in
  state_bytes (fold_left compress (blocks (List.length p) p) H256_init).

Definition xor_pad (c : Z) (key : list Z) : list Z := map (Z.lxor c) key.

Definition hmac_sha256 (key msg : list Z) : list Z :=
  let k := if (64 <? Z.of_nat (List.length key)) then sha256 key else key in
  let k := k ++ repeat 0 (64 - List.length k) in
  sha256 (xor_pad 0x5c k ++ sha256 (xor_pad 0x36 k ++ msg)).

(** ** Strings *)

Local Open Scope string_scope.

(** [s.encode('utf-8')]: a [string] is held as its UTF-8 bytes. *)
Definition encode (s : string) : list Z :=
  map (fun c => Z.of_N (N_of_ascii c)) (list_ascii_of_string s).

Definition hex_digit (n : Z) : ascii :=
  nth (Z.to_nat n) (list_ascii_of_string "0123456789abcdef") "0"%char.

(** [bytes.hex()] *)
Fixpoint hexdigest (bs : list Z) : string :=
  match bs with
  | [] => ""
  | b :: rest =>
      String (hex_digit (Z.shiftr b 4))
        (String (hex_digit (Z.land b 0x0F)) (hexdigest rest))
  end.

Definition upper_ascii (c : ascii) : ascii :=
  let n := N_of_ascii c in
  if ((97 <=? n) && (n <=? 122))%N then ascii_of_N (n - 32) else c.

(** [s.upper()] on ASCII text. *)
Fixpoint upper (s : string) : string :=
  match s with
  | EmptyString => EmptyString
  | String c rest => String (upper_ascii c) (upper rest)
  end.

(** [str(n)] for a Python [int]. *)
Definition str (n : Z) : string := DecimalString.NilZero.string_of_int (Z.to_int n).

(** Truth value of an optional string: [None] and [""] are false. *)
Definition truthy (s : option string) : bool :=
  match s with
  | Some (String _ _) => true
  | _ => false
  end.

(** The text of an optional string that is known to be present. *)
Definition text (s : option string) : string :=
  match s with
  | Some t => t
  | None => ""
  end.

(** ** Signature function

    The [body] parameter of the source is never read and is left out. *)

Definition generate_signature (client_id client_secret : string)
    (timestamp : Z) (access_token : option string) : string :=
  let string_to_sign := client_id in
  let string_to_sign :=
    if truthy access_token then string_to_sign ++ text access_token
    else string_to_sign in
  let string_to_sign := string_to_sign ++ str timestamp in
  upper (hexdigest (hmac_sha256 (encode client_secret) (encode string_to_sign))).

(** ** Cloud configuration and the outside world *)

Record config : Type := {
  TUYA_CLIENT_ID : string;
  TUYA_CLIENT_SECRET : string;
  TUYA_DEVICE_ID : string
}.

Definition TUYA_ENDPOINT : string := "https://openapi.tuyain.com".
Definition TUYA_TEMP_DP_ID : string := "101".
Definition TUYA_HUMID_DP_ID : string := "102".
Definition TUYA_HEAT_DP_ID : string := "103".
Definition tuya_update_interval : Z := 300.

(** A command entry [{"code": ..., "value": ...}]. *)
Definition command : Type := (string * Z)%type.

Record request : Type := {
  req_url : string;
  req_headers : list (string * string);
  req_commands : option (list command)
}.

(** Decoded body of the token endpoint's answer; a field that is [None]
    is absent from the JSON ([KeyError] when subscripted). *)
Record token_body : Type := {
  tb_success : bool;
  tb_access_token : option string;
  tb_expire_time : option Z
}.

(** What [requests.get] / [requests.post] give back: a raised fault
    (network error, timeout), or a status code with the body decoded by
    [response.json()], [None] when decoding raises. *)
Inductive reply (B : Type) : Type :=
  | Fault
  | Response (status_code : Z) (json : option B).
Arguments Fault {B}.
Arguments Response {B} status_code json.

Inductive event : Type :=
  | HttpGet (r : request)
  | HttpPost (r : request)
  | Sleep (milliseconds : Z).

(** The surroundings of one stretch of execution: the bus, the wall
    clock ([clock n] is what the [n]-th call of [time.time()] returns)
    and the cloud authority. *)
Record env : Type := {
  bus : SMBus;
  clock : nat -> float;
  http_get : request -> reply token_body;
  http_post : request -> reply bool
}.

(** ** Module globals *)

Record sensor_dict : Type := {
  temperature : option float;
  humidity : option float;
  heat_index : option float
}.

Record state : Type := {
  TUYA_ACCESS_TOKEN : option string;
  TUYA_TOKEN_EXPIRY : float;
  sensor_data : sensor_dict;
  last_tuya_update : float;
  ticks : nat;
  trace : list event
}.

Definition initial_state : state :=
  {| TUYA_ACCESS_TOKEN := None;
     TUYA_TOKEN_EXPIRY := S754_zero false;
     sensor_data := {| temperature := None; humidity := None; heat_index := None |};
     last_tuya_update := S754_zero false;
     ticks := O;
     trace := [] |}.

Definition set_token (tok : option string) (s : state) : state :=
  {| TUYA_ACCESS_TOKEN := tok;
     TUYA_TOKEN_EXPIRY := TUYA_TOKEN_EXPIRY s;
     sensor_data := sensor_data s;
     last_tuya_update := last_tuya_update s;
     ticks := ticks s;
     trace := trace s |}.

Definition set_expiry (x : float) (s : state) : state :=
  {| TUYA_ACCESS_TOKEN := TUYA_ACCESS_TOKEN s;
     TUYA_TOKEN_EXPIRY := x;
     sensor_data := sensor_data s;
     last_tuya_update := last_tuya_update s;
     ticks := ticks s;
     trace := trace s |}.

Definition set_sensor_data (d : sensor_dict) (s : state) : state :=
  {| TUYA_ACCESS_TOKEN := TUYA_ACCESS_TOKEN s;
     TUYA_TOKEN_EXPIRY := TUYA_TOKEN_EXPIRY s;
     sensor_data := d;
     last_tuya_update := last_tuya_update s;
     ticks := ticks s;
     trace := trace s |}.

Definition set_last_tuya_update (x : float) (s : state) : state :=
  {| TUYA_ACCESS_TOKEN := TUYA_ACCESS_TOKEN s;
     TUYA_TOKEN_EXPIRY := TUYA_TOKEN_EXPIRY s;
     sensor_data := sensor_data s;
     last_tuya_update := x;
     ticks := ticks s;
     trace := trace s |}.

(** ** Computations that read and write the globals and may raise *)

Definition M (A : Type) : Type := state -> option A * state.

Definition ret {A : Type} (a : A) : M A := fun s => (Some a, s).

Definition bindM {A B : Type} (c : M A) (k : A -> M B) : M B :=
  fun s =>
    match c s with
    | (Some a, s') => k a s'
    | (None, s') => (None, s')
    end.

Notation "x <~ c ;; k" := (bindM c (fun x => k))
  (at level 61, c at next level, right associativity).
Notation "c ;;; k" := (bindM c (fun _ => k))
  (at level 61, right associativity).

(** A pure step that may raise. *)
Definition lift {A : Type} (o : option A) : M A := fun s => (o, s).

(** A call of a function that handles its own exceptions. *)
Definition call {A : Type} (f : state -> A * state) : M A :=
  fun s => let '(a, s') := f s in (Some a, s').

Definition get {A : Type} (field : state -> A) : M A := fun s => (Some (field s), s).

Definition update (f : state -> state) : M unit := fun s => (Some tt, f s).

(** [try: body except Exception: return dflt]; what the body wrote to
    the globals before it raised stays written. *)
Definition catch {A : Type} (body : M A) (dflt : A) : state -> A * state :=
  fun s =>
    match body s with
    | (Some a, s') => (a, s')
    | (None, s') => (dflt, s')
    end.

Definition emit (e : event) : M unit :=
  update (fun s =>
    {| TUYA_ACCESS_TOKEN := TUYA_ACCESS_TOKEN s;
       TUYA_TOKEN_EXPIRY := TUYA_TOKEN_EXPIRY s;
       sensor_data := sensor_data s;
       last_tuya_update := last_tuya_update s;
       ticks := ticks s;
       trace := trace s ++ [e] |}).

(** [time.time()] *)
Definition time_time (w : env) : M float :=
  fun s =>
    (Some (clock w (ticks s)),
     {| TUYA_ACCESS_TOKEN := TUYA_ACCESS_TOKEN s;
        TUYA_TOKEN_EXPIRY := TUYA_TOKEN_EXPIRY s;
        sensor_data := sensor_data s;
        last_tuya_update := last_tuya_update s;
        ticks := S (ticks s);
        trace := trace s |}).

(** [time.sleep(seconds)], the duration kept in milliseconds. *)
Definition time_sleep (milliseconds : Z) : M unit := emit (Sleep milliseconds).

(** [requests.get] and [response.json()] *)
Definition requests_get (w : env) (r : request) : M (Z * option token_body) :=
  emit (HttpGet r) ;;;
  match http_get w r with
  | Fault => lift None
  | Response status body => ret (status, body)
  end.

Definition requests_post (w : env) (r : request) : M (Z * option bool) :=
  emit (HttpPost r) ;;;
  match http_post w r with
  | Fault => lift None
  | Response status body => ret (status, body)
  end.

(** ** Sensor initialisation *)

Definition bme280_init (b : SMBus) (address : Z) : state -> bool * state :=
  catch
    (chip_id <~ lift (read_byte_data b address BME280_REGISTER_CHIPID) ;;
     if negb (chip_id =? 0x60)%Z then ret false
     else
       lift (write_byte_data b address 0xE0 0xB6) ;;;
       time_sleep 500 ;;;
       lift (write_byte_data b address BME280_REGISTER_CTRL_HUM 0x01) ;;;
       time_sleep 100 ;;;
       lift (write_byte_data b address BME280_REGISTER_CTRL_MEAS 0x23) ;;;
       lift (write_byte_data b address BME280_REGISTER_CONFIG 0x00) ;;;
       time_sleep 500 ;;;
       ret true)
    false.

(** ** Token manager *)

Definition get_tuya_token (cfg : config) (w : env) : state -> bool * state :=
  catch
    (now <~ time_time w ;;
     t_ms <~ lift (py_int (fmul now (Z2F 1000))) ;;
     let url := TUYA_ENDPOINT ++ "/v1.0/token?grant_type=1" in
     let signature :=
       generate_signature (TUYA_CLIENT_ID cfg) (TUYA_CLIENT_SECRET cfg) t_ms None in
     let headers :=
       [("client_id", TUYA_CLIENT_ID cfg);
        ("sign", signature);
        ("sign_method", "HMAC-SHA256");
        ("t", str t_ms)] in
     response <~ requests_get w
       {| req_url := url; req_headers := headers; req_commands := None |} ;;
     let '(status_code, json) := response in
     if (status_code =? 200)%Z then
       data <~ lift json ;;
       if tb_success data then
         access_token <~ lift (tb_access_token data) ;;
         update (set_token (Some access_token)) ;;;
         now' <~ time_time w ;;
         expire_time <~ lift (tb_expire_time data) ;;
         lifetime <~ lift (of_int expire_time) ;;
         update (set_expiry (fsub (fadd now' lifetime) (Z2F 60))) ;;;
         ret true
       else ret false
     else ret false)
    false.

(** ** Cloud sync *)

(** [not TUYA_ACCESS_TOKEN or time.time() > TUYA_TOKEN_EXPIRY]; the
    clock is read only when a token is held. *)
Definition token_stale (w : env) : M bool :=
  token <~ get TUYA_ACCESS_TOKEN ;;
  if negb (truthy token) then ret true
  else
    now <~ time_time w ;;
    expiry <~ get TUYA_TOKEN_EXPIRY ;;
    ret (flt expiry now).

Definition send_to_tuya (cfg : config) (w : env)
    (temperature humidity heat_index : float) : state -> bool * state :=
  catch
    (stale <~ token_stale w ;;
     refreshed <~ (if stale then call (get_tuya_token cfg w) else ret true) ;;
     if negb refreshed then ret false
     else
       now <~ time_time w ;;
       t_ms <~ lift (py_int (fmul now (Z2F 1000))) ;;
       v_temp <~ lift (py_int (fmul temperature (Z2F 10))) ;;
       v_humid <~ lift (py_int (fmul humidity (Z2F 10))) ;;
       v_heat <~ lift (py_int (fmul heat_index (Z2F 10))) ;;
       let commands :=
         [(TUYA_TEMP_DP_ID, v_temp);
          (TUYA_HUMID_DP_ID, v_humid);
          (TUYA_HEAT_DP_ID, v_heat)] in
       let url :=
         TUYA_ENDPOINT ++ "/v1.0/devices/" ++ TUYA_DEVICE_ID cfg ++ "/commands" in
       token <~ get TUYA_ACCESS_TOKEN ;;
       let signature :=
         generate_signature (TUYA_CLIENT_ID cfg) (TUYA_CLIENT_SECRET cfg) t_ms token in
       let headers :=
         [("client_id", TUYA_CLIENT_ID cfg);
          ("access_token", text token);
          ("sign_method", "HMAC-SHA256");
          ("t", str t_ms);
          ("sign", signature)] in
       response <~ requests_post w
         {| req_url := url; req_headers := headers; req_commands := Some commands |} ;;
       let '(status_code, json) := response in
       if (status_code =? 200)%Z then
         result <~ lift json ;;
         ret result
       else ret false)
    false.

(** ** Acquisition loop *)

Definition unavailable : sensor_dict :=
  {| temperature := None; humidity := None; heat_index := None |}.

(** [x in [a, b]] on integers. *)
Definition in_pair (x a b : Z) : bool := ((x =? a) || (x =? b))%Z.

(** The periodic push at the end of a cycle (source lines 359-365). *)
Definition push_if_due (cfg : config) (w : env)
    (temperature humidity heat_index : float) : M unit :=
  current_time <~ time_time w ;;
  last <~ get last_tuya_update ;;
  if fle (Z2F tuya_update_interval) (fsub current_time last) then
    sent <~ call (send_to_tuya cfg w temperature humidity heat_index) ;;
    if sent then update (set_last_tuya_update current_time)
    else ret tt
  else ret tt.

(** One pass through the body of [while True]. *)
Definition loop_body (cfg : config) (calib : calib_data) (w : env) : M unit :=
  let '(temp_raw, _, hum_raw) := read_raw_data (bus w) BME280_ADDRESS in
  if in_pair temp_raw 0x80000 0xFFFFF || in_pair hum_raw 0x8000 0xFFFF then
    time_sleep 1000
  else
    let '(temperature, t_fine) := compensate_temperature temp_raw (calib_T calib) in
    let humidity := compensate_humidity hum_raw (calib_H calib) t_fine in
    let heat_index := calculate_heat_index temperature humidity in
    update (set_sensor_data
              {| temperature := Some temperature;
                 humidity := Some humidity;
                 heat_index := Some heat_index |}) ;;;
    push_if_due cfg w temperature humidity heat_index ;;;
    time_sleep 2000.

(** The first passes of the unbounded loop, one [env] per pass. *)
Fixpoint sampling (cfg : config) (calib : calib_data) (cycles : list env) : M unit :=
  match cycles with
  | [] => ret tt
  | w :: rest => loop_body cfg calib w ;;; sampling cfg calib rest
  end.

Definition update_sensor_data (cfg : config) (w0 : env) (cycles : list env)
    : state -> unit * state :=
  fun s =>
    match
      (ok <~ call (bme280_init (bus w0) BME280_ADDRESS) ;;
       if negb ok then update (set_sensor_data unavailable)
       else
         let calib_data := read_calibration_data (bus w0) BME280_ADDRESS in
         sampling cfg calib_data cycles) s
    with
    | (Some u, s') => (u, s')
    | (None, s') => (tt, set_sensor_data unavailable s')
    end.

(** ** Notions of the specification *)

(** A bus answer is a byte. *)
Definition is_byte (x : Z) : Prop := (0 <= x < 256)%Z.

(** Two bytes read as an unsigned 16-bit value in a stated endianness. *)
Definition unsigned16 (little_endian : bool) (d0 d1 : Z) : Z :=
  (if little_endian then d0 + 256 * d1 else 256 * d0 + d1)%Z.

(** Signed decoding as the specification words it: the unsigned value,
    less 65536 when it is at least 32768. *)
Definition signed16 (little_endian : bool) (d0 d1 : Z) : Z :=
  let u := unsigned16 little_endian d0 d1 in
  (if 32768 <=? u then u - 65536 else u)%Z.

(** The exact rational value of a finite float. *)
Definition F2Q (x : float) : option Q :=
  match x with
  | S754_zero _ => Some 0%Q
  | S754_finite s m e =>
      Some (match e with
            | Zneg p => Qmake (cond_Zopp s (Zpos m)) (2 ^ p)%positive
            | _ => inject_Z (cond_Zopp s (Zpos m) * 2 ^ e)%Z
            end)
  | _ => None
  end.

(** Truncation toward zero and rounding down of a rational. *)
Definition Qtrunc (q : Q) : Z := Z.quot (Qnum q) (Zpos (Qden q)).

(** [n] is an integer nearest to [q], whatever the rule for ties. *)
Definition nearest (q : Q) (n : Z) : Prop := (Qabs (q - inject_Z n) <= 1 # 2)%Q.

(** A percentage: a float between [0.0] and [100.0] inclusive. *)
Definition percent (x : float) : Prop :=
  fle (S754_zero false) x = true /\ fle x (Z2F 100) = true.

(** Requests of each kind in a trace. *)
Definition is_get (e : event) : bool :=
  match e with HttpGet _ => true | _ => false end.
Definition is_post (e : event) : bool :=
  match e with HttpPost _ => true | _ => false end.
Definition gets (tr : list event) : nat := List.length (filter is_get tr).
Definition posts (tr : list event) : nat := List.length (filter is_post tr).

(** The reference computation of the heat index: the nine-term
    polynomial with the decimal coefficients of the source, evaluated
    exactly over the rationals. *)
Definition noaa_reference (T R : Q) : Q :=
  ((363445176 # 1000000000) + (988622465 # 1000000000) * T
   + (8184780 # 1000000000) * R
   + (144105 # 1000000000) * T * R - (54777 # 1000000000) * (T * T)
   - (121227 # 100000000) * (R * R)
   + (38646 # 1000000000) * (T * T) * R + (29039 # 1000000000) * T * (R * R)
   - (187 # 100000000) * (T * T) * (R * R))%Q.

(** The float [x] is finite and within [eps] of the rational [q]. *)
Definition close_to (x : float) (q eps : Q) : bool :=
  match F2Q x with
  | Some v => Qle_bool (Qabs (v - q)) eps
  | None => false
  end.

(** Whole degrees from 26 to 50 and the percents 0, 10, ..., 100. *)
Definition degrees : list Z := map Z.of_nat (seq 26 25).
Definition percents : list Z := map (fun i => (10 * Z.of_nat i)%Z) (seq 0 11).

(** The state after one more reading of the clock. *)
Definition tick (s : state) : state :=
  {| TUYA_ACCESS_TOKEN := TUYA_ACCESS_TOKEN s;
     TUYA_TOKEN_EXPIRY := TUYA_TOKEN_EXPIRY s;
     sensor_data := sensor_data s;
     last_tuya_update := last_tuya_update s;
     ticks := S (ticks s);
     trace := trace s |}.

(** No token is held, or the one held has expired, when [send_to_tuya]
    starts in state [s]. *)
Definition stale (w : env) (s : state) : bool :=
  negb (truthy (TUYA_ACCESS_TOKEN s))
  || flt (TUYA_TOKEN_EXPIRY s) (clock w (ticks s)).

(** The state in which [send_to_tuya], started in [s], calls
    [get_tuya_token]: the expiry test has read the clock once if a token
    was held. *)
Definition refresh_point (s : state) : state :=
  if truthy (TUYA_ACCESS_TOKEN s) then tick s else s.

(** A raw sample carries a sentinel "invalid reading" code. *)
Definition invalid_sample (temp_raw hum_raw : Z) : Prop :=
  (temp_raw = 0x80000 \/ temp_raw = 0xFFFFF \/ hum_raw = 0x8000 \/ hum_raw = 0xFFFF)%Z.

(** The push attempt of [send_to_tuya] (source lines 276-314) on its
    own: what runs once a valid token is held. *)
Definition push_attempt (cfg : config) (w : env)
    (temperature humidity heat_index : float) : M bool :=
  now <~ time_time w ;;
  t_ms <~ lift (py_int (fmul now (Z2F 1000))) ;;
  v_temp <~ lift (py_int (fmul temperature (Z2F 10))) ;;
  v_humid <~ lift (py_int (fmul humidity (Z2F 10))) ;;
  v_heat <~ lift (py_int (fmul heat_index (Z2F 10))) ;;
  token <~ get TUYA_ACCESS_TOKEN ;;
  response <~ requests_post w
    {| req_url := TUYA_ENDPOINT ++ "/v1.0/devices/" ++ TUYA_DEVICE_ID cfg ++ "/commands";
       req_headers :=
         [("client_id", TUYA_CLIENT_ID cfg);
          ("access_token", text token);
          ("sign_method", "HMAC-SHA256");
          ("t", str t_ms);
          ("sign", generate_signature (TUYA_CLIENT_ID cfg) (TUYA_CLIENT_SECRET cfg)
                     t_ms token)];
       req_commands :=
         Some [(TUYA_TEMP_DP_ID, v_temp);
               (TUYA_HUMID_DP_ID, v_humid);
               (TUYA_HEAT_DP_ID, v_heat)] |} ;;
  let '(status_code, json) := response in
  if (status_code =? 200)%Z then
    result <~ lift json ;;
    ret result
  else ret false.

(** Running [f] from [s] adds the event [e] to the trace. *)
Definition emits {A : Type} (f : state -> A * state) (s : state) (e : event) : Prop :=
  exists before after, trace (snd (f s)) = (trace s ++ before ++ e :: after)%list.

(** The events a run of [f] from [s] adds to the trace. *)
Definition events_of {A : Type} (f : state -> A * state) (s : state) : list event :=
  skipn (List.length (trace s)) (trace (snd (f s))).

(** The published reading as exact values: temperature, humidity and
    heat index in lowest terms, [None] where no finite value is held. *)
Definition reading_values (d : sensor_dict) : list (option Q) :=
  map (fun field =>
         match field with
         | Some x => option_map Qred (F2Q x)
         | None => None
         end)
      [temperature d; humidity d; heat_index d].

(** The two terms of the temperature correction as the specification
    gives them, [var1 = (raw/16384 - T1/1024) * T2] and
    [var2 = ((raw/131072 - T1/8192)^2) * T3], in binary64, and their
    sum. *)
Definition var1 (raw T1 T2 : Z) : option float :=
  r <- of_int raw ;;
  t1 <- of_int T1 ;;
  a <- truediv r (Z2F 16384) ;;
  b <- truediv t1 (Z2F 1024) ;;
  t2 <- of_int T2 ;;
  Some (fmul (fsub a b) t2).

Definition var2 (raw T1 T3 : Z) : option float :=
  r <- of_int raw ;;
  t1 <- of_int T1 ;;
  c <- truediv r (Z2F 131072) ;;
  d <- truediv t1 (Z2F 8192) ;;
  sq <- pow2 (fsub c d) ;;
  t3 <- of_int T3 ;;
  Some (fmul sq t3).

Definition fine_sum (raw T1 T2 T3 : Z) : option float :=
  v1 <- var1 raw T1 T2 ;;
  v2 <- var2 raw T1 T3 ;;
  Some (fadd v1 v2).

(** The float [x] is finite and its magnitude is below [2^k]. *)
Definition bounded_by (k : Z) (x : float) : Prop :=
  match x with
  | S754_zero _ => True
  | S754_finite _ m e => (Z.pos m < 2 ^ (k - e))%Z
  | _ => False
  end.

(** The mantissa [m] at exponent [e] is non-negative and below [2^k]. *)
Definition fits (k m e : Z) : Prop := (0 <= m < 2 ^ (k - e) /\ e <= k)%Z.

(** Every character of [s] is an uppercase hexadecimal digit. *)
Definition uppercase_hex (s : string) : Prop :=
  Forall (fun c => In c (list_ascii_of_string "0123456789ABCDEF"))
         (list_ascii_of_string s).

(** ** Further notions: buses that answer in bytes, coefficient ranges *)

(** Every answer of the bus is made of bytes. *)
Definition byte_bus (b : SMBus) : Prop :=
  (forall a r x, read_byte_data b a r = Some x -> is_byte x) /\
  (forall a r n data,
     read_i2c_block_data b a r n = Some data -> Forall is_byte data).

(** The coefficients lie in the ranges the decoding can produce:
    [T1] unsigned 16-bit, [T2], [T3], [H2] signed 16-bit, [H1], [H3]
    bytes, [H4], [H5] 12-bit and [H6] a signed byte. *)
Definition calib_in_range (c : calib_data) : Prop :=
  let '(t1, t2, t3) := calib_T c in
  let '(h1, h2, h3, h4, h5, h6) := calib_H c in
  (0 <= t1 < 65536 /\ -32768 <= t2 < 32768 /\ -32768 <= t3 < 32768 /\
   0 <= h1 < 256 /\ -32768 <= h2 < 32768 /\ 0 <= h3 < 256 /\
   0 <= h4 < 4096 /\ 0 <= h5 < 4096 /\ -128 <= h6 < 128)%Z.

(** A block read came back with fewer than [n] bytes, or not at all. *)
Definition short_reply (reply : option (list Z)) (n : nat) : Prop :=
  match reply with
  | None => True
  | Some data => (List.length data < n)%nat
  end.

(** ** Further notions: the two requests and their answers *)

(** The GET that [get_tuya_token] sends at the millisecond time [t_ms]. *)
Definition token_request (cfg : config) (t_ms : Z) : request :=
  {| req_url := TUYA_ENDPOINT ++ "/v1.0/token?grant_type=1";
     req_headers :=
       [("client_id", TUYA_CLIENT_ID cfg);
        ("sign",
         generate_signature (TUYA_CLIENT_ID cfg) (TUYA_CLIENT_SECRET cfg) t_ms None);
        ("sign_method", "HMAC-SHA256");
        ("t", str t_ms)];
     req_commands := None |}.

(** The POST that [send_to_tuya] sends at [t_ms] while holding [token]. *)
Definition push_request (cfg : config) (t_ms : Z) (token : option string)
    (v_temp v_humid v_heat : Z) : request :=
  {| req_url := TUYA_ENDPOINT ++ "/v1.0/devices/" ++ TUYA_DEVICE_ID cfg ++ "/commands";
     req_headers :=
       [("client_id", TUYA_CLIENT_ID cfg);
        ("access_token", text token);
        ("sign_method", "HMAC-SHA256");
        ("t", str t_ms);
        ("sign",
         generate_signature (TUYA_CLIENT_ID cfg) (TUYA_CLIENT_SECRET cfg) t_ms token)];
     req_commands :=
       Some [(TUYA_TEMP_DP_ID, v_temp);
             (TUYA_HUMID_DP_ID, v_humid);
             (TUYA_HEAT_DP_ID, v_heat)] |}.

(** The cloud acknowledged a push: status 200 and a true success flag. *)
Definition acknowledged (answer : reply bool) : bool :=
  match answer with
  | Response status_code (Some true) => (status_code =? 200)%Z
  | _ => false
  end.

(** All three fields of the dictionary are [None], or all three hold a
    value with the humidity a percentage and the heat index equal to the
    temperature whenever the temperature is below [26.0]. *)
Definition reading_ok (d : sensor_dict) : Prop :=
  match temperature d, humidity d, heat_index d with
  | None, None, None => True
  | Some t, Some h, Some hi =>
      percent h /\ (flt t (Z2F 26) = true -> hi = t)
  | _, _, _ => False
  end.

(** The four configuration writes of [bme280_init] all succeed: the
    reset, the humidity oversampling, the measurement control and the
    standby/filter configuration. *)
Definition writes_succeed (b : SMBus) (address : Z) : Prop :=
  write_byte_data b address 0xE0 0xB6 = Some tt /\
  write_byte_data b address BME280_REGISTER_CTRL_HUM 0x01 = Some tt /\
  write_byte_data b address BME280_REGISTER_CTRL_MEAS 0x23 = Some tt /\
  write_byte_data b address BME280_REGISTER_CONFIG 0x00 = Some tt.

(** The chip identifies itself as a BME280 and accepts its configuration. *)
Definition sensor_ready (b : SMBus) (address : Z) : Prop :=
  read_byte_data b address BME280_REGISTER_CHIPID = Some 0x60%Z /\
  writes_succeed b address.

(** ** Concrete surroundings used by the examples *)

(** A bus whose every block read answers [data] and every byte read
    answers [byte]. *)
Definition constant_bus (data : list Z) (byte : Z) : SMBus :=
  {| read_byte_data := fun _ _ => Some byte;
     read_i2c_block_data := fun _ _ _ => Some data;
     write_byte_data := fun _ _ _ => Some tt |}.

(** A bus backed by a register file: a byte read answers the register,
    a block read answers consecutive registers. *)
Definition register_bus (regs : Z -> Z) : SMBus :=
  {| read_byte_data := fun _ r => Some (regs r);
     read_i2c_block_data := fun _ r n =>
       Some (map (fun i => regs (r + Z.of_nat i)%Z) (seq 0 (Z.to_nat n)));
     write_byte_data := fun _ _ _ => Some tt |}.

(** Calibration registers with [e4 = 0x12], [e5 = 0x34], [e6 = 0x56]
    and [0xE7] holding [0xF0]. *)
Definition packed_regs (r : Z) : Z :=
  (if r =? 0xE4 then 0x12
   else if r =? 0xE5 then 0x34
   else if r =? 0xE6 then 0x56
   else if r =? 0xE7 then 0xF0
   else 0)%Z.

(** The configuration defaults of the source. *)
Definition demo_cfg : config :=
  {| TUYA_CLIENT_ID := "your_client_id";
     TUYA_CLIENT_SECRET := "your_client_secret";
     TUYA_DEVICE_ID := "your_device_id" |}.

(** A clock that starts at 1700000000 s and advances one second per
    reading. *)
Definition demo_clock (n : nat) : float := Z2F (1700000000 + Z.of_nat n).

(** A bus on which every transaction fails. *)
Definition dead_bus : SMBus :=
  {| read_byte_data := fun _ _ => None;
     read_i2c_block_data := fun _ _ _ => None;
     write_byte_data := fun _ _ _ => None |}.

(** A cloud that cannot be reached, and one that grants a token for two
    hours and accepts every push. *)
Definition cloud_down (b : SMBus) : env :=
  {| bus := b;
     clock := demo_clock;
     http_get := fun _ => Fault;
     http_post := fun _ => Fault |}.

Definition cloud_up (b : SMBus) : env :=
  {| bus := b;
     clock := demo_clock;
     http_get := fun _ =>
       Response 200
         (Some {| tb_success := true;
                  tb_access_token := Some "tok";
                  tb_expire_time := Some 7200%Z |});
     http_post := fun _ => Response 200 (Some true) |}.

(** A state holding a token that expired at 1600000000 s. *)
Definition expired_state : state :=
  set_expiry (Z2F 1600000000) (set_token (Some "old") initial_state).

(** A burst read whose temperature field is the sentinel [0x80000]. *)
Definition sentinel_burst : list Z := [0x50; 0x00; 0x00; 0x80; 0x00; 0x00; 0x6E; 0x10]%Z.

(** A bus whose byte reads answer [byte] and whose block reads fail. *)
Definition byte_only_bus (byte : Z) : SMBus :=
  {| read_byte_data := fun _ _ => Some byte;
     read_i2c_block_data := fun _ _ _ => None;
     write_byte_data := fun _ _ _ => Some tt |}.

(** A register file in which reading the register [broken] alone faults. *)
Definition register_bus_except (regs : Z -> Z) (broken : Z) : SMBus :=
  {| read_byte_data := fun _ r => if (r =? broken)%Z then None else Some (regs r);
     read_i2c_block_data := fun _ r n =>
       Some (map (fun i => regs (r + Z.of_nat i)%Z) (seq 0 (Z.to_nat n)));
     write_byte_data := fun _ _ _ => Some tt |}.

(** A cloud that answers the token request with a token but no
    [expire_time]. *)
Definition cloud_no_expiry (b : SMBus) : env :=
  {| bus := b;
     clock := demo_clock;
     http_get := fun _ =>
       Response 200
         (Some {| tb_success := true;
                  tb_access_token := Some "tok";
                  tb_expire_time := None |});
     http_post := fun _ => Response 200 (Some true) |}.

(** A state holding a token that is good until 1800000000 s. *)
Definition fresh_state : state :=
  set_expiry (Z2F 1800000000) (set_token (Some "tok") initial_state).


(** A bus whose chip-identity register answers [chip_id], whose other
    reads fail and whose writes succeed. *)
Definition chip_bus (chip_id : Z) : SMBus :=
  {| read_byte_data := fun _ r =>
       if (r =? BME280_REGISTER_CHIPID)%Z then Some chip_id else None;
     read_i2c_block_data := fun _ _ _ => None;
     write_byte_data := fun _ _ _ => Some tt |}.

(** * Properties *)

Local Open Scope Z_scope.
Local Open Scope list_scope.

(** ** Register codec and calibration loader *)

Lemma lor_shiftl_add (a b n : Z) :
  0 <= n -> 0 <= b < 2 ^ n -> Z.lor (Z.shiftl a n) b = a * 2 ^ n + b.
Proof.
  intros Hn Hb.
  rewrite <- Z.shiftl_mul_pow2 by assumption.
  rewrite <- Z.lxor_lor, <- Z.add_nocarry_lxor; try reflexivity.
  all: apply Z.bits_inj'; intros i Hi; rewrite Z.land_spec, Z.bits_0.
  all: destruct (Z.lt_ge_cases i n) as [Hlt | Hge].
  all: try (rewrite Z.shiftl_spec_low by assumption; reflexivity).
  all: assert (Hbi : Z.testbit b i = false) by
         (destruct (Z.eq_dec b 0) as [-> | Hnz];
          [ apply Z.bits_0
          | apply Z.bits_above_log2; [lia |];
            apply Z.log2_lt_pow2; [lia |];
            apply Z.lt_le_trans with (2 ^ n); [lia |];
            apply Z.pow_le_mono_r; lia ]).
  all: rewrite Hbi; apply andb_false_r.
Qed.

Lemma read_unsigned_short_bytes b address register le d0 d1 :
  read_i2c_block_data b address register 2 = Some [d0; d1] ->
  is_byte d0 -> is_byte d1 ->
  read_unsigned_short b address register le = unsigned16 le d0 d1.
Proof.
  unfold is_byte, read_unsigned_short, unsigned16. intros -> H0 H1.
  destruct le; cbn [bind try_except index nth_error].
  - rewrite Z.shiftl_mul_pow2 by lia. change (2 ^ 8) with 256. lia.
  - rewrite lor_shiftl_add by (change (2 ^ 8) with 256; lia).
    change (2 ^ 8) with 256. lia.
Qed.

Lemma unsigned16_range le d0 d1 :
  is_byte d0 -> is_byte d1 -> 0 <= unsigned16 le d0 d1 < 65536.
Proof. unfold is_byte, unsigned16. destruct le; lia. Qed.

Lemma read_signed_short_signed16 b address register le d0 d1 :
  read_i2c_block_data b address register 2 = Some [d0; d1] ->
  is_byte d0 -> is_byte d1 ->
  read_signed_short b address register le = signed16 le d0 d1.
Proof.
  intros Hread H0 H1.
  pose proof (read_unsigned_short_bytes b address register le d0 d1 Hread H0 H1) as Hu.
  pose proof (unsigned16_range le d0 d1 H0 H1) as Hr.
  unfold read_signed_short, signed16. unfold read_unsigned_short in Hu.
  rewrite Hread in *. cbn [bind try_except index nth_error] in *.
  assert (Hv : (if le then d0 + Z.shiftl d1 8 else Z.lor (Z.shiftl d0 8) d1)
               = unsigned16 le d0 d1) by (destruct le; exact Hu).
  rewrite Hv.
  destruct (Z.ltb_spec (unsigned16 le d0 d1) 32768);
    destruct (Z.leb_spec 32768 (unsigned16 le d0 d1)); lia.
Qed.

(** C9: [read_signed_short] reads the two bytes as an unsigned 16-bit
    value in the requested endianness and subtracts 65536 when that value
    is at least 32768, so the result is the two's-complement reading, in
    [-32768, 32767]; little-endian, the bytes [0xFF, 0xFF] decode to [-1]
    and the bytes [0x00, 0x80] to [-32768]. *)
Theorem read_signed_short_decodes :
  (forall b address register le d0 d1,
     read_i2c_block_data b address register 2 = Some [d0; d1] ->
     is_byte d0 -> is_byte d1 ->
     read_signed_short b address register le = signed16 le d0 d1 /\
     -32768 <= read_signed_short b address register le < 32768 /\
     (read_signed_short b address register le) mod 65536 = unsigned16 le d0 d1) /\
  (forall b address register,
     read_i2c_block_data b address register 2 = Some [0xFF; 0xFF] ->
     read_signed_short b address register true = -1) /\
  (forall b address register,
     read_i2c_block_data b address register 2 = Some [0x00; 0x80] ->
     read_signed_short b address register true = -32768).
Proof.
  split; [| split].
  - intros b address register le d0 d1 Hread H0 H1.
    rewrite (read_signed_short_signed16 _ _ _ _ _ _ Hread H0 H1).
    pose proof (unsigned16_range le d0 d1 H0 H1) as Hr.
    unfold signed16.
    destruct (Z.leb_spec 32768 (unsigned16 le d0 d1)) as [Hge | Hlt].
    + repeat split; try lia.
      replace (unsigned16 le d0 d1 - 65536)
        with (unsigned16 le d0 d1 + (-1) * 65536) by lia.
      rewrite Z.mod_add by lia. apply Z.mod_small. lia.
    + repeat split; try lia. apply Z.mod_small. lia.
  - intros b address register Hread.
    rewrite (read_signed_short_signed16 _ _ _ true _ _ Hread)
      by (unfold is_byte; lia).
    reflexivity.
  - intros b address register Hread.
    rewrite (read_signed_short_signed16 _ _ _ true _ _ Hread)
      by (unfold is_byte; lia).
    reflexivity.
Qed.

Lemma read_signed_short_examples :
  read_signed_short (constant_bus [0xFF; 0xFF] 0) BME280_ADDRESS 0x8A true = -1 /\
  read_signed_short (constant_bus [0x00; 0x80] 0) BME280_ADDRESS 0x8A true = -32768 /\
  read_signed_short (constant_bus [0x34; 0x12] 0) BME280_ADDRESS 0x8A false = 0x3412.
Proof.
  destruct read_signed_short_decodes as [Hgen [Hff H80]].
  split; [| split].
  - apply Hff. reflexivity.
  - apply H80. reflexivity.
  - rewrite (proj1 (Hgen (constant_bus [0x34; 0x12] 0) BME280_ADDRESS 0x8A false
                      0x34 0x12 eq_refl
                      ltac:(unfold is_byte; lia) ltac:(unfold is_byte; lia))).
    reflexivity.
Defined.

Lemma read_calibration_data_H b address h1 h3 e4 e5 e6 raw6 :
  read_byte_data b address BME280_REGISTER_DIG_H1 = Some h1 ->
  read_byte_data b address (BME280_REGISTER_DIG_H2 + 2) = Some h3 ->
  read_byte_data b address (BME280_REGISTER_DIG_H2 + 3) = Some e4 ->
  read_byte_data b address (BME280_REGISTER_DIG_H2 + 4) = Some e5 ->
  read_byte_data b address (BME280_REGISTER_DIG_H2 + 5) = Some e6 ->
  read_byte_data b address (BME280_REGISTER_DIG_H2 + 6) = Some raw6 ->
  calib_H (read_calibration_data b address) =
    (h1, read_signed_short b address BME280_REGISTER_DIG_H2 true, h3,
     Z.lor (Z.shiftl e4 4) (Z.land e5 0xF),
     Z.lor (Z.shiftl e6 4) (Z.shiftr e5 4),
     if raw6 >? 127 then raw6 - 256 else raw6).
Proof.
  intros R1 R3 R4 R5 R6 R7. unfold read_calibration_data.
  rewrite R1, R3, R4, R5, R6, R7. reflexivity.
Qed.

(** C5 (counterexample): with [e4 = 0x12], [e5 = 0x34], [e6 = 0x56] the
    loader's [H4] is [0x124], not [0x123]: the low nibble of [e5] is 4. *)
Lemma read_calibration_data_H4_not_0x123 :
  ~ (H4_of (read_calibration_data (register_bus packed_regs) BME280_ADDRESS) = 0x123 /\
     H5_of (read_calibration_data (register_bus packed_regs) BME280_ADDRESS) = 0x563).
Proof. intros [H4 _]. vm_compute in H4. discriminate H4. Qed.

(** C5 (amended): the loader decodes [H4 = (e4<<4) | (e5 & 0xF)] and
    [H5 = (e6<<4) | (e5>>4)], two 12-bit fields sharing the nibbles of
    [e5], and reads [H6] as a signed byte ([raw - 256] when [raw > 127]);
    for [e4 = 0x12], [e5 = 0x34], [e6 = 0x56] this gives [H4 = 0x124] and
    [H5 = 0x563]. *)
Theorem read_calibration_data_packed_fields :
  (forall b address h1 h3 e4 e5 e6 raw6,
     read_byte_data b address BME280_REGISTER_DIG_H1 = Some h1 ->
     read_byte_data b address (BME280_REGISTER_DIG_H2 + 2) = Some h3 ->
     read_byte_data b address (BME280_REGISTER_DIG_H2 + 3) = Some e4 ->
     read_byte_data b address (BME280_REGISTER_DIG_H2 + 4) = Some e5 ->
     read_byte_data b address (BME280_REGISTER_DIG_H2 + 5) = Some e6 ->
     read_byte_data b address (BME280_REGISTER_DIG_H2 + 6) = Some raw6 ->
     is_byte e4 -> is_byte e5 -> is_byte e6 -> is_byte raw6 ->
     let c := read_calibration_data b address in
     (H4_of c = Z.lor (Z.shiftl e4 4) (Z.land e5 0xF) /\
      H5_of c = Z.lor (Z.shiftl e6 4) (Z.shiftr e5 4) /\
      H6_of c = (if raw6 >? 127 then raw6 - 256 else raw6)) /\
     (H4_of c = 16 * e4 + e5 mod 16 /\
      H5_of c = 16 * e6 + e5 / 16 /\
      0 <= H4_of c < 4096 /\ 0 <= H5_of c < 4096 /\
      -128 <= H6_of c < 128 /\ (H6_of c) mod 256 = raw6)) /\
  (forall b address h1 h3 raw6,
     read_byte_data b address BME280_REGISTER_DIG_H1 = Some h1 ->
     read_byte_data b address (BME280_REGISTER_DIG_H2 + 2) = Some h3 ->
     read_byte_data b address (BME280_REGISTER_DIG_H2 + 3) = Some 0x12 ->
     read_byte_data b address (BME280_REGISTER_DIG_H2 + 4) = Some 0x34 ->
     read_byte_data b address (BME280_REGISTER_DIG_H2 + 5) = Some 0x56 ->
     read_byte_data b address (BME280_REGISTER_DIG_H2 + 6) = Some raw6 ->
     H4_of (read_calibration_data b address) = 0x124 /\
     H5_of (read_calibration_data b address) = 0x563).
Proof.
  split.
  - intros b address h1 h3 e4 e5 e6 raw6 R1 R3 R4 R5 R6 R7 B4 B5 B6 B7 c.
    pose proof (read_calibration_data_H _ _ _ _ _ _ _ _ R1 R3 R4 R5 R6 R7) as Hc.
    fold c in Hc. unfold H4_of, H5_of, H6_of. rewrite Hc. clear Hc c.
    unfold is_byte in *.
    assert (Hland : Z.land e5 0xF = e5 mod 16)
      by (change 0xF with (Z.ones 4); rewrite Z.land_ones by lia; reflexivity).
    assert (Hshr : Z.shiftr e5 4 = e5 / 16)
      by (rewrite Z.shiftr_div_pow2 by lia; reflexivity).
    assert (Hm : 0 <= e5 mod 16 < 16) by (apply Z.mod_pos_bound; lia).
    assert (Hd : 0 <= e5 / 16 < 16)
      by (split; [apply Z.div_pos; lia | apply Z.div_lt_upper_bound; lia]).
    assert (H4 : Z.lor (Z.shiftl e4 4) (Z.land e5 0xF) = 16 * e4 + e5 mod 16)
      by (rewrite Hland, lor_shiftl_add by (change (2 ^ 4) with 16; lia);
          change (2 ^ 4) with 16; lia).
    assert (H5 : Z.lor (Z.shiftl e6 4) (Z.shiftr e5 4) = 16 * e6 + e5 / 16)
      by (rewrite Hshr, lor_shiftl_add by (change (2 ^ 4) with 16; lia);
          change (2 ^ 4) with 16; lia).
    split; [repeat split |].
    rewrite H4, H5.
    destruct (Z.gtb_spec raw6 127) as [Hgt | Hle].
    + repeat split; try lia.
      replace (raw6 - 256) with (raw6 + (-1) * 256) by lia.
      rewrite Z.mod_add by lia. apply Z.mod_small. lia.
    + repeat split; try lia. apply Z.mod_small. lia.
  - intros b address h1 h3 raw6 R1 R3 R4 R5 R6 R7.
    pose proof (read_calibration_data_H _ _ _ _ _ _ _ _ R1 R3 R4 R5 R6 R7) as Hc.
    unfold H4_of, H5_of. rewrite Hc. split; reflexivity.
Qed.

Lemma read_calibration_data_example :
  H4_of (read_calibration_data (register_bus packed_regs) BME280_ADDRESS) = 0x124 /\
  H5_of (read_calibration_data (register_bus packed_regs) BME280_ADDRESS) = 0x563 /\
  H6_of (read_calibration_data (register_bus packed_regs) BME280_ADDRESS) = -16.
Proof.
  destruct read_calibration_data_packed_fields as [Hgen Hex].
  pose proof (Hgen (register_bus packed_regs) BME280_ADDRESS 0 0 0x12 0x34 0x56 0xF0
                eq_refl eq_refl eq_refl eq_refl eq_refl eq_refl
                ltac:(unfold is_byte; lia) ltac:(unfold is_byte; lia)
                ltac:(unfold is_byte; lia) ltac:(unfold is_byte; lia)) as H.
  cbv zeta in H.
  destruct H as [[_ [_ H6]] _].
  destruct (Hex (register_bus packed_regs) BME280_ADDRESS 0 0 0xF0
              eq_refl eq_refl eq_refl eq_refl eq_refl eq_refl) as [H4 H5].
  rewrite H4, H5, H6. repeat split; reflexivity.
Defined.

(** ** Compensation engine: humidity *)

Ltac step_binds :=
  repeat match goal with
         | |- context [bind ?c _] => destruct c; cbn [bind try_except]
         end.

Lemma flt_fle (a b : float) : flt a b = true -> fle a b = true.
Proof.
  unfold flt, fle, SFltb, SFleb.
  destruct (SFcompare a b) as [[ | | ] | ]; intros H; try discriminate H; reflexivity.
Qed.

Lemma percent_zero : percent (S754_zero false).
Proof. split; reflexivity. Qed.

Lemma percent_fifty : percent (Z2F 50).
Proof. split; reflexivity. Qed.

Lemma percent_hundred : percent (Z2F 100).
Proof. split; reflexivity. Qed.

(** The clamp lands in [0.0, 100.0] whatever it is given, NaN and the
    infinities included. *)
Lemma clamp_percent (v : float) :
  percent (py_max (S754_zero false) (py_min (Z2F 100) v)).
Proof.
  unfold py_min, py_max.
  destruct (flt v (Z2F 100)) eqn:Hhi.
  - destruct (flt (S754_zero false) v) eqn:Hlo.
    + split; apply flt_fle; assumption.
    + apply percent_zero.
  - change (flt (S754_zero false) (Z2F 100)) with true. cbv iota.
    apply percent_hundred.
Qed.

Lemma clamp_nan : py_max (S754_zero false) (py_min (Z2F 100) S754_nan) = Z2F 100.
Proof. reflexivity. Qed.

(** C1: whatever the raw code, the coefficients and [t_fine],
    [compensate_humidity] returns a float between [0.0] and [100.0]
    inclusive; and when [t_fine - 76800.0] is zero, as it is for
    [t_fine = 76800], the result is exactly [0.0]. *)
Theorem compensate_humidity_percent raw_hum calib_H t_fine :
  percent (compensate_humidity raw_hum calib_H t_fine) /\
  (forall tf,
     of_int t_fine = Some tf ->
     feq (fsub tf (Z2F 76800)) (S754_zero false) = true ->
     compensate_humidity raw_hum calib_H t_fine = S754_zero false) /\
  compensate_humidity raw_hum calib_H 76800 = S754_zero false.
Proof.
  destruct calib_H as [[[[[dig_H1 dig_H2] dig_H3] dig_H4] dig_H5] dig_H6].
  split; [| split].
  - unfold compensate_humidity.
    destruct (of_int t_fine) as [tf |]; cbn [bind try_except];
      [| apply percent_fifty].
    destruct (negb (feq (fsub tf (Z2F 76800)) (S754_zero false)));
      [| apply percent_zero].
    step_binds; first [apply clamp_percent | apply percent_fifty].
  - intros tf Htf Hzero. unfold compensate_humidity.
    rewrite Htf. cbn [bind try_except]. rewrite Hzero. reflexivity.
  - reflexivity.
Qed.

Lemma compensate_humidity_degenerate :
  compensate_humidity 30000 (75, 360, 0, 300, 50, 30) 76800 = S754_zero false /\
  percent (compensate_humidity 30000 (75, 360, 0, 300, 50, 30) 128000) /\
  percent (compensate_humidity 65535 (75, 360, 0, 300, 50, 30) 128000) /\
  percent (compensate_humidity 0 (75, 360, 0, 300, 50, 30) 0).
Proof.
  split; [| split; [| split]].
  - apply (proj1 (proj2 (compensate_humidity_percent
                           30000 (75, 360, 0, 300, 50, 30) 76800))
             (Z2F 76800)); reflexivity.
  - apply (compensate_humidity_percent 30000 (75, 360, 0, 300, 50, 30) 128000).
  - apply (compensate_humidity_percent 65535 (75, 360, 0, 300, 50, 30) 128000).
  - apply (compensate_humidity_percent 0 (75, 360, 0, 300, 50, 30) 0).
Defined.

(** ** Compensation engine: heat index *)

(** C2 (counterexample): at [T = 1e200], which is not below [26.0],
    [T**2] overflows; the handler returns [T] itself, which is nowhere
    near the polynomial's value there. *)
Lemma calculate_heat_index_overflow :
  flt (Z2F (10 ^ 200)) (Z2F 26) = false /\
  calculate_heat_index (Z2F (10 ^ 200)) (Z2F 70) = Z2F (10 ^ 200) /\
  noaa_polynomial (Z2F (10 ^ 200)) (Z2F 70) = None /\
  close_to (calculate_heat_index (Z2F (10 ^ 200)) (Z2F 70))
    (noaa_reference (inject_Z (10 ^ 200)) 70) (1 # 1000000000) = false.
Proof. repeat split; vm_compute; reflexivity. Qed.

(** C2 (amended): below [26.0] the temperature is returned unchanged
    ([calculate_heat_index 25.9 80.0 = 25.9]); otherwise the result is
    the nine-term polynomial whenever neither [T**2] nor [R**2]
    overflows, and the temperature unchanged when one of them does.  At
    [(30.0, 70.0)], and on every whole degree from 26 to 50 with every
    tenth percent from 0 to 100, the result is within [1e-9] of the
    reference computation. *)
Theorem calculate_heat_index_cases :
  (forall t h, flt t (Z2F 26) = true -> calculate_heat_index t h = t) /\
  (forall t h p,
     flt t (Z2F 26) = false -> noaa_polynomial t h = Some p ->
     calculate_heat_index t h = p) /\
  (forall t h,
     flt t (Z2F 26) = false ->
     (noaa_polynomial t h = None <-> pow2 t = None \/ pow2 h = None) /\
     (noaa_polynomial t h = None -> calculate_heat_index t h = t)) /\
  calculate_heat_index (dec 259 1) (Z2F 80) = dec 259 1 /\
  close_to (calculate_heat_index (Z2F 30) (Z2F 70))
    (noaa_reference 30 70) (1 # 1000000000) = true /\
  forallb (fun T =>
    forallb (fun R =>
      close_to (calculate_heat_index (Z2F T) (Z2F R))
        (noaa_reference (inject_Z T) (inject_Z R)) (1 # 1000000000))
      percents) degrees = true.
Proof.
  repeat apply conj.
  - intros t h Hlt. unfold calculate_heat_index. rewrite Hlt. reflexivity.
  - intros t h p Hge Hp. unfold calculate_heat_index. rewrite Hge, Hp. reflexivity.
  - intros t h Hge. split.
    + unfold noaa_polynomial.
      destruct (pow2 t); cbn [bind]; [destruct (pow2 h); cbn [bind] |].
      * split; [discriminate | intros [H | H]; discriminate H].
      * split; [right; reflexivity | reflexivity].
      * split; [left; reflexivity | reflexivity].
    + intros Hnone. unfold calculate_heat_index. rewrite Hge, Hnone. reflexivity.
  - vm_compute. reflexivity.
  - vm_compute. reflexivity.
  - vm_compute. reflexivity.
Qed.

Lemma calculate_heat_index_examples :
  calculate_heat_index (dec 259 1) (Z2F 80) = dec 259 1 /\
  F2Q (calculate_heat_index (Z2F 30) (Z2F 70))
    = Some (6576658024940724 # 281474976710656)%Q /\
  calculate_heat_index (Z2F (10 ^ 200)) (Z2F 70) = Z2F (10 ^ 200).
Proof.
  destruct calculate_heat_index_cases as (Hlow & Hpoly & Hover & _).
  split; [| split].
  - apply Hlow. reflexivity.
  - rewrite (Hpoly (Z2F 30) (Z2F 70) (S754_finite false 6576658024940724 (-48)));
      [reflexivity | reflexivity | vm_compute; reflexivity].
  - apply (proj2 (Hover (Z2F (10 ^ 200)) (Z2F 70) eq_refl)).
    vm_compute. reflexivity.
Defined.

(** ** Truncation of a float to an integer *)

Lemma Qtrunc_inject_Z (z : Z) : Qtrunc (inject_Z z) = z.
Proof. unfold Qtrunc, inject_Z. cbn [Qnum Qden]. apply Z.quot_1_r. Qed.

(** [int(x)] is the value of [x] truncated toward zero. *)
Lemma py_int_Qtrunc (x : float) (n : Z) :
  py_int x = Some n -> exists q, F2Q x = Some q /\ n = Qtrunc q.
Proof.
  destruct x as [s | s | | s m e]; cbn [py_int F2Q]; intros H; try discriminate H.
  - injection H as <-. exists 0%Q. split; reflexivity.
  - injection H as <-. eexists. split; [reflexivity |].
    destruct e as [| p | p].
    + rewrite Qtrunc_inject_Z. rewrite Z.shiftl_0_r. lia.
    + rewrite Qtrunc_inject_Z. rewrite Z.shiftl_mul_pow2 by lia.
      destruct s; cbn [cond_Zopp]; lia.
    + unfold Qtrunc. cbn [Qnum Qden].
      rewrite Z.shiftr_div_pow2 by lia. rewrite Pos2Z.inj_pow.
      assert (Hpow : 0 < 2 ^ Z.pos p) by (apply Z.pow_pos_nonneg; lia).
      destruct s; cbn [cond_Zopp].
      * rewrite Z.quot_opp_l by lia. rewrite Z.quot_div_nonneg by lia. reflexivity.
      * rewrite Z.quot_div_nonneg by lia. reflexivity.
Qed.

(** Truncation toward zero rounds down on non-negative values and up on
    negative ones. *)
Lemma Qtrunc_floor_ceiling (q : Q) :
  Qtrunc q = if Qle_bool 0 q then Qfloor q else Qceiling q.
Proof.
  destruct q as [n d]. unfold Qtrunc, Qle_bool, Qceiling, Qfloor, Qopp.
  cbn [Qnum Qden]. rewrite Z.mul_1_r. change (0 * Z.pos d) with 0.
  destruct (Z.leb_spec 0 n) as [Hn | Hn].
  - apply Z.quot_div_nonneg; lia.
  - rewrite <- (Z.opp_involutive n) at 1.
    rewrite Z.quot_opp_l by lia. rewrite Z.quot_div_nonneg by lia. reflexivity.
Qed.


(** ** Token manager and cloud sync *)

Ltac monad_cbv :=
  cbv beta iota zeta delta
      [bindM ret lift call get update catch emit time_time time_sleep
       requests_get requests_post token_stale tick
       set_token set_expiry set_sensor_data set_last_tuya_update];
  cbn [TUYA_ACCESS_TOKEN TUYA_TOKEN_EXPIRY sensor_data last_tuya_update ticks trace].

Ltac branch :=
  match goal with
  | |- context [match ?x with _ => _ end] =>
      lazymatch x with
      | context [match _ with _ => _ end] => fail
      | _ => destruct x eqn:?
      end
  end.

Ltac run := repeat (monad_cbv; try branch).

Lemma events_of_app {A : Type} (f : state -> A * state) s evs :
  trace (snd (f s)) = trace s ++ evs -> events_of f s = evs.
Proof.
  unfold events_of. intros ->. rewrite skipn_app, skipn_all, Nat.sub_diag. reflexivity.
Qed.

(** Every way [get_tuya_token] can end: at most one GET and nothing
    else is sent, and the reading and the time of the last push are left
    alone. *)
Lemma get_tuya_token_outcome cfg w s ok s1 :
  get_tuya_token cfg w s = (ok, s1) ->
  exists evs,
    trace s1 = trace s ++ evs /\
    (evs = [] \/ exists r, evs = [HttpGet r]) /\
    (py_int (fmul (clock w (ticks s)) (Z2F 1000)) <> None ->
     exists r, evs = [HttpGet r]) /\
    sensor_data s1 = sensor_data s /\
    last_tuya_update s1 = last_tuya_update s.
Proof.
  unfold get_tuya_token. run.
  all: intros E; injection E as <- <-; cbn [trace sensor_data last_tuya_update].
  all: try (exists []; rewrite app_nil_r; repeat split; auto; intros H; congruence).
  all: eexists; repeat split; [right | intros _]; eexists; reflexivity.
Qed.

(** With a stale token, [send_to_tuya] calls [get_tuya_token] once and
    goes on to the push attempt only if that call succeeded. *)
Lemma send_to_tuya_when_stale cfg w t h hi s :
  stale w s = true ->
  send_to_tuya cfg w t h hi s =
    (let '(ok, s1) := get_tuya_token cfg w (refresh_point s) in
     if ok then catch (push_attempt cfg w t h hi) false s1 else (false, s1)).
Proof.
  unfold stale, refresh_point, send_to_tuya, push_attempt. intros Hstale.
  destruct (truthy (TUYA_ACCESS_TOKEN s)) eqn:Htok; cbn [negb orb] in Hstale.
  - monad_cbv. rewrite Htok. cbn [negb]. monad_cbv. rewrite Hstale.
    destruct (get_tuya_token cfg w _) as [[|] s1]; cbn [negb]; [| reflexivity].
    run; reflexivity.
  - monad_cbv. rewrite Htok. cbn [negb]. monad_cbv.
    destruct (get_tuya_token cfg w _) as [[|] s1]; cbn [negb]; [| reflexivity].
    run; reflexivity.
Qed.

(** With a valid token it goes straight to the push attempt. *)
Lemma send_to_tuya_when_fresh cfg w t h hi s :
  stale w s = false ->
  send_to_tuya cfg w t h hi s = catch (push_attempt cfg w t h hi) false (tick s).
Proof.
  unfold stale, send_to_tuya, push_attempt. intros Hstale.
  apply orb_false_elim in Hstale. destruct Hstale as [Htok Hexp].
  apply negb_false_iff in Htok.
  monad_cbv. rewrite Htok. cbn [negb]. monad_cbv. rewrite Hexp. monad_cbv. cbn [negb].
  run; reflexivity.
Qed.

(** Every way the push attempt can end: at most one POST, carrying the
    three truncated values, and no global but the trace and the clock
    count is touched. *)
Lemma push_attempt_outcome cfg w t h hi s sent s' :
  catch (push_attempt cfg w t h hi) false s = (sent, s') ->
  exists evs,
    trace s' = trace s ++ evs /\
    (evs = [] \/
     exists r vt vh vi,
       evs = [HttpPost r] /\
       py_int (fmul t (Z2F 10)) = Some vt /\
       py_int (fmul h (Z2F 10)) = Some vh /\
       py_int (fmul hi (Z2F 10)) = Some vi /\
       req_commands r =
         Some [(TUYA_TEMP_DP_ID, vt); (TUYA_HUMID_DP_ID, vh); (TUYA_HEAT_DP_ID, vi)]) /\
    sensor_data s' = sensor_data s /\
    last_tuya_update s' = last_tuya_update s /\
    TUYA_ACCESS_TOKEN s' = TUYA_ACCESS_TOKEN s /\
    TUYA_TOKEN_EXPIRY s' = TUYA_TOKEN_EXPIRY s.
Proof.
  unfold push_attempt. run.
  all: intros E; injection E as <- <-;
       cbn [trace sensor_data last_tuya_update TUYA_ACCESS_TOKEN TUYA_TOKEN_EXPIRY].
  all: try (exists []; rewrite app_nil_r; repeat split; auto; fail).
  all: eexists; repeat split; right; do 4 eexists; repeat split.
Qed.

Lemma refresh_point_frame s :
  trace (refresh_point s) = trace s /\
  sensor_data (refresh_point s) = sensor_data s /\
  last_tuya_update (refresh_point s) = last_tuya_update s.
Proof. unfold refresh_point. destruct (truthy _); repeat split. Qed.

(** Every way [send_to_tuya] can end. *)
Lemma send_to_tuya_outcome cfg w t h hi s sent s' :
  send_to_tuya cfg w t h hi s = (sent, s') ->
  exists refresh push,
    trace s' = trace s ++ refresh ++ push /\
    (refresh = [] \/ exists r, refresh = [HttpGet r]) /\
    (push = [] \/
     exists r vt vh vi,
       push = [HttpPost r] /\
       py_int (fmul t (Z2F 10)) = Some vt /\
       py_int (fmul h (Z2F 10)) = Some vh /\
       py_int (fmul hi (Z2F 10)) = Some vi /\
       req_commands r =
         Some [(TUYA_TEMP_DP_ID, vt); (TUYA_HUMID_DP_ID, vh); (TUYA_HEAT_DP_ID, vi)]) /\
    sensor_data s' = sensor_data s /\
    last_tuya_update s' = last_tuya_update s.
Proof.
  destruct (stale w s) eqn:Hstale.
  - rewrite (send_to_tuya_when_stale _ _ _ _ _ _ Hstale).
    destruct (get_tuya_token cfg w (refresh_point s)) as [ok s1] eqn:Hget.
    destruct (get_tuya_token_outcome _ _ _ _ _ Hget)
      as (refresh & Htr & Hshape & _ & Hsd & Hlast).
    destruct (refresh_point_frame s) as (Ftr & Fsd & Flast).
    rewrite Ftr in Htr. rewrite Fsd in Hsd. rewrite Flast in Hlast.
    destruct ok.
    + intros Hpush.
      destruct (push_attempt_outcome _ _ _ _ _ _ _ _ Hpush)
        as (push & Htr' & Hshape' & Hsd' & Hlast' & _).
      exists refresh, push. rewrite Htr', Htr, <- app_assoc.
      repeat split; auto; congruence.
    + intros E; injection E as <- <-.
      exists refresh, []. rewrite app_nil_r. repeat split; auto.
  - rewrite (send_to_tuya_when_fresh _ _ _ _ _ _ Hstale). intros Hpush.
    destruct (push_attempt_outcome _ _ _ _ _ _ _ _ Hpush)
      as (push & Htr' & Hshape' & Hsd' & Hlast' & _).
    exists [], push. repeat split; auto.
Qed.

Lemma time_time_tick w s : time_time w s = (Some (clock w (ticks s)), tick s).
Proof. reflexivity. Qed.

(** The periodic push leaves the published reading alone, and moves the
    time of the last push only when [send_to_tuya] reports success. *)
Lemma push_if_due_outcome cfg w t h hi s :
  exists s',
    push_if_due cfg w t h hi s = (Some tt, s') /\
    sensor_data s' = sensor_data s /\
    ((s' = tick s /\
      fle (Z2F tuya_update_interval)
          (fsub (clock w (ticks s)) (last_tuya_update s)) = false) \/
     (fle (Z2F tuya_update_interval)
          (fsub (clock w (ticks s)) (last_tuya_update s)) = true /\
      s' = (if fst (send_to_tuya cfg w t h hi (tick s))
            then set_last_tuya_update (clock w (ticks s))
                   (snd (send_to_tuya cfg w t h hi (tick s)))
            else snd (send_to_tuya cfg w t h hi (tick s))))).
Proof.
  unfold push_if_due, bindM. rewrite time_time_tick.
  unfold get. cbn [last_tuya_update tick].
  destruct (fle _ _) eqn:Hdue.
  - unfold call. fold (tick s).
    destruct (send_to_tuya cfg w t h hi (tick s)) as [sent s1] eqn:Hsend.
    destruct (send_to_tuya_outcome _ _ _ _ _ _ _ _ Hsend)
      as (refresh & push & _ & _ & _ & Hsd & _).
    cbn [fst snd]. destruct sent.
    + eexists. split; [reflexivity |]. split; [exact Hsd |].
      right. split; reflexivity.
    + eexists. split; [reflexivity |]. split; [exact Hsd |].
      right. split; reflexivity.
  - eexists. split; [reflexivity |]. split; [reflexivity |].
    left. split; reflexivity.
Qed.

(** C6: started with no token or an expired one, [send_to_tuya] calls
    [get_tuya_token] exactly once, before the push attempt: it sends at
    most one GET (exactly one when the clock reading converts to
    milliseconds) and only then at most one POST.  If that refresh fails,
    [send_to_tuya] returns [False] (Deferred) having sent no POST, and the
    cycle that called it leaves [last_tuya_update] as it was. *)
Theorem cloud_sync_refreshes_once cfg w t h hi s :
  stale w s = true ->
  let refresh := get_tuya_token cfg w (refresh_point s) in
  send_to_tuya cfg w t h hi s =
    (if fst refresh
     then catch (push_attempt cfg w t h hi) false (snd refresh)
     else (false, snd refresh)) /\
  (exists gets_sent posts_sent,
     events_of (get_tuya_token cfg w) (refresh_point s) = gets_sent /\
     events_of (send_to_tuya cfg w t h hi) s = gets_sent ++ posts_sent /\
     (gets gets_sent <= 1)%nat /\ posts gets_sent = 0%nat /\
     gets posts_sent = 0%nat /\ (posts posts_sent <= 1)%nat /\
     (py_int (fmul (clock w (ticks (refresh_point s))) (Z2F 1000)) <> None ->
      gets gets_sent = 1%nat)) /\
  (fst refresh = false ->
     fst (send_to_tuya cfg w t h hi s) = false /\
     posts (events_of (send_to_tuya cfg w t h hi) s) = 0%nat /\
     last_tuya_update (snd (send_to_tuya cfg w t h hi s)) = last_tuya_update s /\
     forall s0, tick s0 = s ->
       exists s',
         push_if_due cfg w t h hi s0 = (Some tt, s') /\
         last_tuya_update s' = last_tuya_update s0 /\
         posts (events_of (push_if_due cfg w t h hi) s0) = 0%nat).
Proof.
  intros Hstale refresh.
  pose proof (send_to_tuya_when_stale cfg w t h hi s Hstale) as Hsend.
  fold refresh in Hsend.
  destruct refresh as [ok s1] eqn:Hget. cbn [fst snd].
  destruct (get_tuya_token_outcome _ _ _ _ _ Hget)
    as (g_evs & Htr & Hshape & Hone & Hsd & Hlast).
  destruct (refresh_point_frame s) as (Ftr & Fsd & Flast).
  assert (Hg : events_of (get_tuya_token cfg w) (refresh_point s) = g_evs).
  { apply events_of_app. unfold refresh in Hget. rewrite Hget. exact Htr. }
  assert (Hgc : (gets g_evs <= 1)%nat /\ posts g_evs = 0%nat).
  { destruct Hshape as [-> | [r ->]]; split; cbn; lia. }
  split; [exact Hsend |]. split.
  - destruct ok.
    + destruct (catch (push_attempt cfg w t h hi) false s1) as [sent s'] eqn:Hpush.
      destruct (push_attempt_outcome _ _ _ _ _ _ _ _ Hpush)
        as (p_evs & Htr' & Hshape' & _).
      exists g_evs, p_evs. split; [exact Hg |]. split.
      * apply events_of_app. rewrite Hsend. cbn [snd].
        rewrite Htr', Htr, Ftr, <- app_assoc. reflexivity.
      * destruct Hgc as [Hg1 Hg2]. repeat split; auto.
        -- destruct Hshape' as [-> | (r & ? & ? & ? & -> & _)]; reflexivity.
        -- destruct Hshape' as [-> | (r & ? & ? & ? & -> & _)]; cbn; lia.
        -- intros Hfin. destruct (Hone Hfin) as [r ->]. reflexivity.
    + exists g_evs, []. split; [exact Hg |]. split.
      * apply events_of_app. rewrite Hsend. cbn [snd].
        rewrite Htr, Ftr, app_nil_r. reflexivity.
      * destruct Hgc as [Hg1 Hg2]. repeat split; auto.
        intros Hfin. destruct (Hone Hfin) as [r ->]. reflexivity.
  - intros ->. rewrite Hsend. cbn [fst snd].
    assert (Hev : events_of (send_to_tuya cfg w t h hi) s = g_evs).
    { apply events_of_app. rewrite Hsend. cbn [snd]. rewrite Htr, Ftr. reflexivity. }
    repeat split.
    + rewrite Hev. apply Hgc.
    + rewrite Hlast. exact Flast.
    + intros s0 <-.
      destruct (push_if_due_outcome cfg w t h hi s0) as (s' & Hrun & _ & Hcases).
      exists s'. split; [exact Hrun |].
      destruct Hcases as [[-> Hnot] | [Hdue ->]].
      * split; [reflexivity |].
        unfold events_of. rewrite Hrun. cbn [snd tick trace].
        rewrite skipn_all. reflexivity.
      * rewrite Hsend in *. cbn [fst snd] in *.
        split; [rewrite Hlast; exact Flast |].
        unfold events_of. rewrite Hrun. cbn [snd].
        rewrite Htr, Ftr. cbn [tick trace].
        rewrite skipn_app, skipn_all, Nat.sub_diag. cbn [skipn app]. apply Hgc.
Qed.


Lemma cloud_sync_refresh_examples :
  (fst (send_to_tuya demo_cfg (cloud_down dead_bus) (Z2F 25) (Z2F 50) (Z2F 25)
          initial_state) = false /\
   gets (events_of (send_to_tuya demo_cfg (cloud_down dead_bus)
                      (Z2F 25) (Z2F 50) (Z2F 25)) initial_state) = 1%nat /\
   posts (events_of (send_to_tuya demo_cfg (cloud_down dead_bus)
                       (Z2F 25) (Z2F 50) (Z2F 25)) initial_state) = 0%nat) /\
  (fst (send_to_tuya demo_cfg (cloud_up dead_bus) (Z2F 25) (Z2F 50) (Z2F 25)
          expired_state) = true /\
   map is_get (events_of (send_to_tuya demo_cfg (cloud_up dead_bus)
                            (Z2F 25) (Z2F 50) (Z2F 25)) expired_state)
     = [true; false] /\
   map is_post (events_of (send_to_tuya demo_cfg (cloud_up dead_bus)
                             (Z2F 25) (Z2F 50) (Z2F 25)) expired_state)
     = [false; true]).
Proof.
  split.
  - destruct (cloud_sync_refreshes_once demo_cfg (cloud_down dead_bus)
                (Z2F 25) (Z2F 50) (Z2F 25) initial_state eq_refl)
      as (_ & (g & p & Hg & Hev & _ & _ & _ & _ & Hone) & Hfail).
    destruct (Hfail eq_refl) as (Hsent & Hposts & _).
    split; [exact Hsent |]. split; [| exact Hposts].
    vm_compute. reflexivity.
  - destruct (cloud_sync_refreshes_once demo_cfg (cloud_up dead_bus)
                (Z2F 25) (Z2F 50) (Z2F 25) expired_state eq_refl)
      as (Hsend & _).
    cbv zeta in Hsend. unfold events_of. rewrite Hsend.
    vm_compute. repeat split.
Defined.

(** ** Cloud sync: the command values *)

(** C4 (counterexample): pushing a reading of 25.96 degrees sends the
    temperature value 259, although [25.96 * 10] is within one half of
    260 and not of 259: the value is not a rounding of [metric * 10]. *)
Lemma pushed_value_is_not_rounded :
  exists r q,
    emits (send_to_tuya demo_cfg (cloud_up dead_bus)
             (dec 2596 2) (dec 5555 2) (dec 2596 2)) initial_state (HttpPost r) /\
    req_commands r =
      Some [(TUYA_TEMP_DP_ID, 259); (TUYA_HUMID_DP_ID, 555); (TUYA_HEAT_DP_ID, 259)] /\
    F2Q (fmul (dec 2596 2) (Z2F 10)) = Some q /\
    ~ nearest q 259 /\ nearest q 260.
Proof.
  eexists. eexists. split; [| split; [| split; [| split]]].
  - unfold emits. eexists [_]. exists []. vm_compute. reflexivity.
  - reflexivity.
  - vm_compute. reflexivity.
  - unfold nearest. intros H. apply Qle_bool_iff in H. vm_compute in H. discriminate H.
  - unfold nearest. apply Qle_bool_iff. vm_compute. reflexivity.
Qed.

(** C4 (amended): every POST that [send_to_tuya] sends carries, for the
    temperature, the humidity and the heat index in this order and under
    the data-point codes 101, 102 and 103, the integer [int(metric * 10)]:
    the float product truncated toward zero. *)
Theorem pushed_values_are_truncated cfg w t h hi s r :
  emits (send_to_tuya cfg w t h hi) s (HttpPost r) ->
  exists qt qh qi,
    F2Q (fmul t (Z2F 10)) = Some qt /\
    F2Q (fmul h (Z2F 10)) = Some qh /\
    F2Q (fmul hi (Z2F 10)) = Some qi /\
    req_commands r =
      Some [(TUYA_TEMP_DP_ID, Qtrunc qt);
            (TUYA_HUMID_DP_ID, Qtrunc qh);
            (TUYA_HEAT_DP_ID, Qtrunc qi)].
Proof.
  intros (before & after & Hemit).
  destruct (send_to_tuya cfg w t h hi s) as [sent s'] eqn:Hsend.
  destruct (send_to_tuya_outcome _ _ _ _ _ _ _ _ Hsend)
    as (refresh & push & Htr & Hshape & Hpush & _).
  cbn [snd] in Hemit. rewrite Htr in Hemit. apply app_inv_head in Hemit.
  assert (Hin : In (HttpPost r) (refresh ++ push))
    by (rewrite Hemit; apply in_or_app; right; left; reflexivity).
  apply in_app_or in Hin. destruct Hin as [Hin | Hin].
  - destruct Hshape as [-> | [g ->]]; [destruct Hin |].
    destruct Hin as [Hin | []]. discriminate Hin.
  - destruct Hpush as [-> | (r' & vt & vh & vi & -> & Ht & Hh & Hi & Hcmd)];
      [destruct Hin |].
    destruct Hin as [Hin | []]. injection Hin as ->.
    destruct (py_int_Qtrunc _ _ Ht) as (qt & Hqt & ->).
    destruct (py_int_Qtrunc _ _ Hh) as (qh & Hqh & ->).
    destruct (py_int_Qtrunc _ _ Hi) as (qi & Hqi & ->).
    exists qt, qh, qi. repeat split; assumption.
Qed.

Lemma pushed_values_example :
  exists r,
    emits (send_to_tuya demo_cfg (cloud_up dead_bus)
             (dec 2596 2) (dec 5555 2) (Z2F (-3))) initial_state (HttpPost r) /\
    req_commands r =
      Some [(TUYA_TEMP_DP_ID, 259); (TUYA_HUMID_DP_ID, 555); (TUYA_HEAT_DP_ID, -30)].
Proof.
  assert (Hemit : exists r,
             emits (send_to_tuya demo_cfg (cloud_up dead_bus)
                      (dec 2596 2) (dec 5555 2) (Z2F (-3))) initial_state (HttpPost r)).
  { eexists. unfold emits. eexists [_]. exists []. vm_compute. reflexivity. }
  destruct Hemit as [r Hemit]. exists r. split; [exact Hemit |].
  destruct (pushed_values_are_truncated _ _ _ _ _ _ _ Hemit)
    as (qt & qh & qi & Hqt & Hqh & Hqi & ->).
  vm_compute in Hqt, Hqh, Hqi.
  injection Hqt as <-. injection Hqh as <-. injection Hqi as <-.
  reflexivity.
Defined.

(** ** Acquisition loop *)

Lemma in_pair_true x a b : in_pair x a b = true <-> x = a \/ x = b.
Proof. unfold in_pair. rewrite orb_true_iff, !Z.eqb_eq. reflexivity. Qed.

(** C8: when the decoded sample carries a sentinel code ([temp_raw] is
    [0x80000] or [0xFFFFF], or [hum_raw] is [0x8000] or [0xFFFF]) the pass
    through the loop body publishes nothing, sends nothing and raises
    nothing: it sleeps one second, and the loop goes on to read the next
    sample. *)
Theorem loop_body_skips_invalid_sample cfg calib w s temp_raw press_raw hum_raw :
  read_raw_data (bus w) BME280_ADDRESS = (temp_raw, press_raw, hum_raw) ->
  invalid_sample temp_raw hum_raw ->
  let s' := snd (loop_body cfg calib w s) in
  fst (loop_body cfg calib w s) = Some tt /\
  sensor_data s' = sensor_data s /\
  last_tuya_update s' = last_tuya_update s /\
  TUYA_ACCESS_TOKEN s' = TUYA_ACCESS_TOKEN s /\
  TUYA_TOKEN_EXPIRY s' = TUYA_TOKEN_EXPIRY s /\
  ticks s' = ticks s /\
  trace s' = trace s ++ [Sleep 1000] /\
  (forall rest,
     sampling cfg calib (w :: rest) s = sampling cfg calib rest s').
Proof.
  intros Hraw Hinv s'.
  assert (Hskip : in_pair temp_raw 0x80000 0xFFFFF || in_pair hum_raw 0x8000 0xFFFF = true).
  { apply orb_true_iff. rewrite !in_pair_true. unfold invalid_sample in Hinv. tauto. }
  assert (Hbody : loop_body cfg calib w s = time_sleep 1000 s).
  { unfold loop_body. rewrite Hraw, Hskip. reflexivity. }
  subst s'. rewrite Hbody. repeat split.
  intros rest. cbn [sampling]. unfold bindM at 1. rewrite Hbody. reflexivity.
Qed.

Lemma loop_body_skip_example :
  fst (loop_body demo_cfg default_calib
         (cloud_up (constant_bus sentinel_burst 0)) initial_state) = Some tt /\
  sensor_data (snd (loop_body demo_cfg default_calib
                      (cloud_up (constant_bus sentinel_burst 0)) initial_state))
    = unavailable /\
  trace (snd (loop_body demo_cfg default_calib
                (cloud_up (constant_bus sentinel_burst 0)) initial_state))
    = [Sleep 1000].
Proof.
  pose proof (loop_body_skips_invalid_sample demo_cfg default_calib
                (cloud_up (constant_bus sentinel_burst 0)) initial_state
                0x80000 0x50000 0x6E10 eq_refl (or_introl eq_refl)) as H.
  cbv zeta in H. destruct H as (Hfst & Hsd & _ & _ & _ & _ & Htr & _).
  split; [exact Hfst |]. split; [rewrite Hsd | rewrite Htr]; reflexivity.
Defined.

(** C10: when the 8-byte burst read fails, [read_raw_data] yields
    [(0, 0, 0)]; zero is no sentinel, so the pass through the loop body
    does not skip: it compensates the all-zero sample and publishes the
    resulting reading. *)
Theorem failed_burst_read_is_published cfg calib w s :
  read_i2c_block_data (bus w) BME280_ADDRESS BME280_REGISTER_PRESS 8 = None ->
  let t := compensate_temperature 0 (calib_T calib) in
  let h := compensate_humidity 0 (calib_H calib) (snd t) in
  read_raw_data (bus w) BME280_ADDRESS = (0, 0, 0) /\
  ~ invalid_sample 0 0 /\
  fst (loop_body cfg calib w s) = Some tt /\
  sensor_data (snd (loop_body cfg calib w s)) =
    {| temperature := Some (fst t);
       humidity := Some h;
       heat_index := Some (calculate_heat_index (fst t) h) |} /\
  exists before, trace (snd (loop_body cfg calib w s)) = trace s ++ before ++ [Sleep 2000].
Proof.
  intros Hfault t h.
  assert (Hraw : read_raw_data (bus w) BME280_ADDRESS = (0, 0, 0)).
  { unfold read_raw_data. rewrite Hfault. reflexivity. }
  split; [exact Hraw |]. split.
  { unfold invalid_sample. lia. }
  unfold loop_body. rewrite Hraw.
  change (in_pair 0 524288 1048575 || in_pair 0 32768 65535) with false. cbv iota.
  fold t. destruct t as [temperature t_fine] eqn:Ht. cbn [fst snd] in *. fold h.
  cbv beta iota delta [bindM update].
  destruct (push_if_due_outcome cfg w temperature h (calculate_heat_index temperature h)
              (set_sensor_data
                 {| temperature := Some temperature;
                    humidity := Some h;
                    heat_index := Some (calculate_heat_index temperature h) |} s))
    as (s1 & Hrun & Hsd & Hcases).
  assert (Htr : exists evs, trace s1 = trace s ++ evs).
  { destruct Hcases as [[-> _] | [_ ->]].
    - exists []. rewrite app_nil_r. reflexivity.
    - destruct (send_to_tuya cfg w temperature h _ _) as [sent s2] eqn:Hsend.
      destruct (send_to_tuya_outcome _ _ _ _ _ _ _ _ Hsend)
        as (refresh & push & Htr & _).
      exists (refresh ++ push). cbn [fst snd].
      destruct sent; cbn [set_last_tuya_update trace]; exact Htr. }
  rewrite Hrun. cbv beta iota delta [time_sleep emit update].
  cbn [fst snd sensor_data trace].
  split; [reflexivity |]. split; [exact Hsd |].
  destruct Htr as [evs ->]. exists evs. rewrite app_assoc. reflexivity.
Qed.

Lemma failed_burst_read_example :
  read_raw_data dead_bus BME280_ADDRESS = (0, 0, 0) /\
  reading_values (sensor_data (snd (loop_body demo_cfg default_calib
                                      (cloud_down dead_bus) initial_state)))
    = [Some (-2478364492510003 # 17592186044416)%Q; Some 0%Q;
       Some (-2478364492510003 # 17592186044416)%Q].
Proof.
  destruct (failed_burst_read_is_published demo_cfg default_calib
              (cloud_down dead_bus) initial_state eq_refl)
    as (Hraw & _ & _ & Hsd & _).
  split; [exact Hraw |]. rewrite Hsd. vm_compute. reflexivity.
Defined.

(** ** Magnitude bounds for binary64 operations *)

Lemma digits2_pos_size p : digits2_pos p = Pos.size p.
Proof. induction p; cbn; congruence. Qed.

Lemma Zdigits2_le m j : 0 <= m < 2 ^ j -> Zdigits2 m <= j.
Proof.
  intros [Hm Hlt].
  assert (Hj : 0 <= j).
  { destruct (Z.lt_ge_cases j 0) as [Hneg | ]; [| assumption].
    rewrite Z.pow_neg_r in Hlt by assumption. lia. }
  destruct m as [| p | p]; cbn [Zdigits2]; [assumption | | lia].
  assert (Hlog : Z.log2 (Z.pos p) < j) by (apply Z.log2_lt_pow2; lia).
  rewrite digits2_pos_size.
  destruct p; cbn [Pos.size Z.log2] in *; lia.
Qed.

Lemma pow2_pos j : 0 <= j -> 0 < 2 ^ j.
Proof. intros. apply Z.pow_pos_nonneg; lia. Qed.

Lemma shr_1_bound mrs :
  0 <= shr_m mrs -> 0 <= shr_m (shr_1 mrs) /\ 2 * shr_m (shr_1 mrs) <= shr_m mrs.
Proof.
  destruct mrs as [m r s]. cbn [shr_m]. intros Hm.
  destruct m as [| [p | p |] | p]; cbn [shr_1 shr_m]; lia.
Qed.

Lemma iter_shr_1_bound p : forall mrs,
  0 <= shr_m mrs ->
  0 <= shr_m (iter_pos shr_1 p mrs) /\
  2 ^ Z.pos p * shr_m (iter_pos shr_1 p mrs) <= shr_m mrs.
Proof.
  induction p as [p IH | p IH |]; intros mrs Hm; cbn [iter_pos].
  - destruct (shr_1_bound mrs Hm) as [H0 H1].
    destruct (IH _ H0) as [H2 H3]. destruct (IH _ H2) as [H4 H5].
    split; [assumption |].
    replace (Z.pos p~1) with (Z.pos p + Z.pos p + 1) by lia.
    rewrite !Z.pow_add_r by lia. change (2 ^ 1) with 2.
    assert (Hp := pow2_pos (Z.pos p) ltac:(lia)). nia.
  - destruct (IH _ Hm) as [H2 H3]. destruct (IH _ H2) as [H4 H5].
    split; [assumption |].
    replace (Z.pos p~0) with (Z.pos p + Z.pos p) by lia.
    rewrite !Z.pow_add_r by lia.
    assert (Hp := pow2_pos (Z.pos p) ltac:(lia)). nia.
  - change (2 ^ 1) with 2. apply shr_1_bound. assumption.
Qed.

Lemma shr_m_of_loc m l : shr_m (shr_record_of_loc m l) = m.
Proof. destruct l as [| []]; reflexivity. Qed.

Lemma fexp_le k j : j <= k -> -1074 <= k -> fexp prec emax j <= k.
Proof. unfold fexp, emin, prec, emax. lia. Qed.

(** Shifting a mantissa to its canonical exponent keeps it below [2^k]. *)
Lemma shr_fexp_fits k m e l :
  fits k m e -> -1074 <= k ->
  let '(mrs, e') := shr_fexp prec emax m e l in
  fits k (shr_m mrs) e' /\
  e' <= Z.max e (Z.max (k - 53) (-1074)).
Proof.
  intros [[Hm Hlt] He] Hk. unfold shr_fexp, shr.
  pose proof (Zdigits2_le m (k - e) (conj Hm Hlt)) as Hd.
  destruct (fexp prec emax (Zdigits2 m + e) - e) as [| p | p] eqn:Hn.
  - rewrite shr_m_of_loc. repeat split; try assumption; lia.
  - destruct (iter_shr_1_bound p (shr_record_of_loc m l)) as [H0 H1];
      [rewrite shr_m_of_loc; assumption |].
    rewrite shr_m_of_loc in H1.
    assert (He' : e + Z.pos p <= Z.max (k - 53) (-1074))
      by (unfold fexp, emin, prec, emax in Hn; lia).
    assert (Hk' : e + Z.pos p <= k) by lia.
    repeat split; try assumption; try lia.
    assert (Hp := pow2_pos (Z.pos p) ltac:(lia)).
    replace (k - e) with ((k - (e + Z.pos p)) + Z.pos p) in Hlt by lia.
    rewrite Z.pow_add_r in Hlt by lia.
    nia.
  - rewrite shr_m_of_loc. repeat split; try assumption; lia.
Qed.

Lemma round_nearest_even_bound m l :
  m <= round_nearest_even m l <= m + 1.
Proof. unfold round_nearest_even. destruct l as [| []]; try destruct (Z.even m); lia. Qed.

Lemma fits_succ k m e : fits k m e -> fits (k + 1) (m + 1) e.
Proof.
  intros [[Hm Hlt] He]. repeat split; try lia.
  replace (k + 1 - e) with ((k - e) + 1) by lia.
  rewrite Z.pow_add_r by lia. change (2 ^ 1) with 2. lia.
Qed.

Lemma fits_weaken k k' m e : fits k m e -> k <= k' -> fits k' m e.
Proof.
  intros [[Hm Hlt] He] Hk. repeat split; try lia.
  apply Z.lt_le_trans with (2 ^ (k - e)); [assumption |].
  apply Z.pow_le_mono_r; lia.
Qed.

(** Rounding a mantissa that stays below [2^k] gives a finite float below
    [2^(k+1)], provided [k] is well inside the exponent range. *)
Lemma binary_round_aux_bounded k s m e l :
  fits k m e -> e <= 970 -> -1074 <= k <= 1022 ->
  bounded_by (k + 1) (binary_round_aux prec emax s m e l).
Proof.
  intros Hfit He Hk. unfold binary_round_aux.
  pose proof (shr_fexp_fits k m e l Hfit ltac:(lia)) as H1.
  destruct (shr_fexp prec emax m e l) as [mrs1 e1]. destruct H1 as [Hfit1 He1].
  pose proof (round_nearest_even_bound (shr_m mrs1) (loc_of_shr_record mrs1)) as Hr.
  set (m2 := round_nearest_even (shr_m mrs1) (loc_of_shr_record mrs1)) in *.
  assert (Hfit2 : fits (k + 1) m2 e1).
  { destruct (Z.eq_dec m2 (shr_m mrs1)) as [-> | Hne].
    - apply fits_weaken with k; [assumption | lia].
    - replace m2 with (shr_m mrs1 + 1) by lia. apply fits_succ. assumption. }
  pose proof (shr_fexp_fits (k + 1) m2 e1 loc_Exact Hfit2 ltac:(lia)) as H3.
  destruct (shr_fexp prec emax m2 e1 loc_Exact) as [mrs3 e3].
  destruct H3 as [[[Hm3 Hlt3] He3] Hle3].
  destruct (shr_m mrs3) as [| p | p] eqn:Hm; [exact I | | lia].
  assert (Hfin : (e3 <=? emax - prec) = true)
    by (apply Z.leb_le; unfold emax, prec; lia).
  rewrite Hfin. exact Hlt3.
Qed.

Lemma bounded_by_weaken k k' x : bounded_by k x -> k <= k' -> bounded_by k' x.
Proof.
  destruct x as [s | s | | s m e]; cbn [bounded_by]; intros H Hk; try assumption.
  destruct (Z.lt_ge_cases (k - e) 0) as [Hneg | Hpos].
  - rewrite Z.pow_neg_r in H by assumption. lia.
  - apply Z.lt_le_trans with (2 ^ (k - e)); [assumption |].
    apply Z.pow_le_mono_r; lia.
Qed.

Lemma bounded_by_finite k x : bounded_by k x -> is_finite x = true.
Proof. destruct x; cbn [bounded_by is_finite]; intros H; [reflexivity | destruct H .. | reflexivity]. Qed.

(** A positive mantissa below [2^j] forces [j] to be positive. *)
Lemma pow2_gt_pos m j : Z.pos m < 2 ^ j -> 1 <= j.
Proof.
  intros H. destruct (Z.lt_ge_cases j 1) as [Hlt | ]; [| assumption].
  destruct (Z.eq_dec j 0) as [-> | Hne]; [cbn in H; lia |].
  rewrite Z.pow_neg_r in H by lia. lia.
Qed.

Lemma bounded_by_fits k s m e :
  bounded_by k (S754_finite s m e) -> fits k (Z.pos m) e /\ e <= k - 1.
Proof.
  cbn [bounded_by]. intros H. pose proof (pow2_gt_pos _ _ H).
  unfold fits. lia.
Qed.

Lemma pow2_mul_lt a b i j :
  0 <= a < 2 ^ i -> 0 <= b < 2 ^ j -> 0 <= i -> 0 <= j -> a * b < 2 ^ (i + j).
Proof.
  intros Ha Hb Hi Hj. rewrite Z.pow_add_r by assumption.
  assert (0 < 2 ^ i) by (apply pow2_pos; assumption).
  assert (0 < 2 ^ j) by (apply pow2_pos; assumption).
  nia.
Qed.

Lemma fmul_bounded kx ky x y :
  bounded_by kx x -> bounded_by ky y -> -1074 <= kx + ky <= 970 ->
  bounded_by (kx + ky + 1) (fmul x y).
Proof.
  destruct x as [sx | sx | | sx mx ex]; cbn [bounded_by]; try (intros []; fail);
    destruct y as [sy | sy | | sy my ey]; cbn [bounded_by]; try (intros ? []; fail);
    intros Hx Hy Hk; try exact I.
  destruct (bounded_by_fits kx sx mx ex Hx) as [[[_ Hmx] _] Hex].
  destruct (bounded_by_fits ky sy my ey Hy) as [[[_ Hmy] _] Hey].
  unfold fmul, SFmul. apply binary_round_aux_bounded; try lia.
  repeat split; try lia.
  rewrite Pos2Z.inj_mul.
  replace (kx + ky - (ex + ey)) with ((kx - ex) + (ky - ey)) by lia.
  apply pow2_mul_lt; lia.
Qed.

Lemma iter_xO_pow m d : Z.pos (Pos.iter xO m d) = Z.pos m * 2 ^ Z.pos d.
Proof.
  induction d as [| d IH] using Pos.peano_ind.
  - cbn [Pos.iter]. change (2 ^ 1) with 2. lia.
  - rewrite Pos.iter_succ, Pos2Z.inj_xO, IH, Pos2Z.inj_succ, Z.pow_succ_r by lia. lia.
Qed.

(** Aligning a mantissa to a lower exponent scales it by the power of two
    between the exponents. *)
Lemma shl_align_spec m e e' :
  let '(mz, ez) := shl_align m e e' in
  ez = Z.min e e' /\ Z.pos mz = Z.pos m * 2 ^ (e - ez).
Proof.
  unfold shl_align. destruct (e' - e) as [| d | d] eqn:Hd.
  - split; [lia |]. replace (e - e) with 0 by lia. lia.
  - split; [lia |]. replace (e - e) with 0 by lia. lia.
  - split; [lia |]. rewrite iter_xO_pow. f_equal. f_equal. lia.
Qed.

Lemma binary_round_bounded k s m e :
  fits k (Z.pos m) e -> e <= 970 -> -1074 <= k <= 1022 ->
  bounded_by (k + 1) (binary_round prec emax s m e).
Proof.
  intros [[_ Hlt] He] He' Hk. unfold binary_round.
  pose proof (shl_align_spec m e (fexp prec emax (Z.pos (digits2_pos m) + e))) as Hal.
  destruct (shl_align m e _) as [mz ez]. destruct Hal as [Hez Hmz].
  apply binary_round_aux_bounded; try lia.
  repeat split; try lia.
  rewrite Hmz. replace (k - ez) with ((k - e) + (e - ez)) by lia.
  pose proof (pow2_gt_pos _ _ Hlt).
  rewrite Z.pow_add_r by lia.
  assert (0 < 2 ^ (e - ez)) by (apply pow2_pos; lia). nia.
Qed.

Lemma binary_normalize_bounded k n e :
  Z.abs n < 2 ^ (k - e) -> e <= k -> e <= 970 -> -1074 <= k <= 1022 ->
  bounded_by (k + 1) (binary_normalize prec emax n e false).
Proof.
  intros Hn He He' Hk. unfold binary_normalize.
  destruct n as [| p | p]; [exact I | |];
    apply binary_round_bounded; try lia; repeat split; lia.
Qed.

Lemma Z2F_bounded j n :
  Z.abs n < 2 ^ j -> 0 <= j <= 970 -> bounded_by (j + 1) (Z2F n).
Proof.
  intros Hn Hj. unfold Z2F. apply binary_normalize_bounded; try lia.
  rewrite Z.sub_0_r. assumption.
Qed.

Lemma of_int_bounded j n :
  Z.abs n < 2 ^ j -> 0 <= j <= 970 ->
  of_int n = Some (Z2F n) /\ bounded_by (j + 1) (Z2F n).
Proof.
  intros Hn Hj. pose proof (Z2F_bounded j n Hn Hj) as Hb.
  split; [| assumption]. unfold of_int.
  rewrite (bounded_by_finite _ _ Hb). reflexivity.
Qed.

Lemma aligned_lt k m e ez :
  Z.pos m < 2 ^ (k - e) -> ez <= e -> Z.pos m * 2 ^ (e - ez) < 2 ^ (k - ez).
Proof.
  intros Hlt Hez. pose proof (pow2_gt_pos _ _ Hlt).
  replace (k - ez) with ((k - e) + (e - ez)) by lia.
  rewrite Z.pow_add_r by lia.
  assert (0 < 2 ^ (e - ez)) by (apply pow2_pos; lia). nia.
Qed.

Lemma fst_shl_align m e ez :
  ez <= e -> Z.pos (fst (shl_align m e ez)) = Z.pos m * 2 ^ (e - ez).
Proof.
  intros Hez. pose proof (shl_align_spec m e ez) as H.
  destruct (shl_align m e ez) as [mz ez']. destruct H as [Hez' Hmz]. cbn [fst].
  rewrite Hmz, Hez'. f_equal. f_equal. lia.
Qed.

Lemma pow2_double j : 0 <= j -> 2 ^ (j + 1) = 2 * 2 ^ j.
Proof. intros. rewrite Z.pow_add_r by lia. change (2 ^ 1) with 2. lia. Qed.

Lemma fadd_bounded k x y :
  bounded_by k x -> bounded_by k y -> -1074 <= k <= 969 ->
  bounded_by (k + 2) (fadd x y).
Proof.
  intros Hx Hy Hk.
  destruct x as [sx | sx | | sx mx ex]; cbn [bounded_by] in Hx; try (destruct Hx; fail);
    destruct y as [sy | sy | | sy my ey]; cbn [bounded_by] in Hy; try (destruct Hy; fail).
  - unfold fadd, SFadd. destruct sx, sy; exact I.
  - apply bounded_by_weaken with k; [exact Hy | lia].
  - apply bounded_by_weaken with k; [exact Hx | lia].
  - unfold fadd, SFadd.
    pose proof (pow2_gt_pos _ _ Hx). pose proof (pow2_gt_pos _ _ Hy).
    set (ez := Z.min ex ey).
    pose proof (aligned_lt k mx ex ez Hx ltac:(lia)) as Ax.
    pose proof (aligned_lt k my ey ez Hy ltac:(lia)) as Ay.
    rewrite <- fst_shl_align in Ax, Ay by lia.
    replace (k + 2) with ((k + 1) + 1) by lia.
    apply binary_normalize_bounded; try lia.
    replace (k + 1 - ez) with ((k - ez) + 1) by lia.
    rewrite pow2_double by lia.
    destruct sx, sy; cbn [cond_Zopp]; lia.
Qed.

Lemma fsub_bounded k x y :
  bounded_by k x -> bounded_by k y -> -1074 <= k <= 969 ->
  bounded_by (k + 2) (fsub x y).
Proof.
  intros Hx Hy Hk.
  destruct x as [sx | sx | | sx mx ex]; cbn [bounded_by] in Hx; try (destruct Hx; fail);
    destruct y as [sy | sy | | sy my ey]; cbn [bounded_by] in Hy; try (destruct Hy; fail).
  - unfold fsub, SFsub. destruct sx, sy; exact I.
  - apply bounded_by_weaken with k; [exact Hy | lia].
  - apply bounded_by_weaken with k; [exact Hx | lia].
  - unfold fsub, SFsub.
    pose proof (pow2_gt_pos _ _ Hx). pose proof (pow2_gt_pos _ _ Hy).
    set (ez := Z.min ex ey).
    pose proof (aligned_lt k mx ex ez Hx ltac:(lia)) as Ax.
    pose proof (aligned_lt k my ey ez Hy ltac:(lia)) as Ay.
    rewrite <- fst_shl_align in Ax, Ay by lia.
    replace (k + 2) with ((k + 1) + 1) by lia.
    apply binary_normalize_bounded; try lia.
    replace (k + 1 - ez) with ((k - ez) + 1) by lia.
    rewrite pow2_double by lia.
    destruct sx, sy; cbn [cond_Zopp]; lia.
Qed.

(** Division by a finite constant [c = mc * 2^ec]. *)
Lemma fdiv_bounded k x sc mc ec :
  bounded_by k x -> -1074 <= k - ec <= 970 ->
  bounded_by (k - ec + 1) (SFdiv prec emax x (S754_finite sc mc ec)).
Proof.
  intros Hx Hk.
  destruct x as [sx | sx | | sx mx ex]; cbn [bounded_by] in Hx; try (destruct Hx; fail).
  - exact I.
  - pose proof (pow2_gt_pos _ _ Hx) as Hex.
    unfold SFdiv, SFdiv_core_binary.
    set (e' := Z.min (fexp prec emax (Zdigits2 (Z.pos mx) + ex - (Zdigits2 (Z.pos mc) + ec)))
                     (ex - ec)).
    set (m' := match ex - ec - e' with
               | 0 => Z.pos mx
               | Z.pos _ => Z.shiftl (Z.pos mx) (ex - ec - e')
               | Z.neg _ => 0
               end).
    assert (Hm' : m' = Z.pos mx * 2 ^ (ex - ec - e')).
    { subst m'. destruct (ex - ec - e') as [| p | p] eqn:Hs; [cbn; lia | | lia].
      rewrite Z.shiftl_mul_pow2 by lia. reflexivity. }
    assert (He' : e' <= ex - ec) by (subst e'; lia).
    assert (Hpow : 0 < 2 ^ (ex - ec - e')) by (apply pow2_pos; lia).
    assert (Hm'lt : 0 <= m' < 2 ^ (k - ec - e')).
    { rewrite Hm'. split; [lia |].
      replace (k - ec - e') with ((k - ex) + (ex - ec - e')) by lia.
      rewrite Z.pow_add_r by lia. nia. }
    pose proof (Z.div_eucl_eq m' (Z.pos mc) ltac:(lia)) as Heq.
    pose proof (Z.mod_pos_bound m' (Z.pos mc) ltac:(lia)) as Hmod.
    unfold Z.modulo in Hmod.
    destruct (Z.div_eucl m' (Z.pos mc)) as [q r].
    apply binary_round_aux_bounded; try lia.
    repeat split; try lia; try nia.
Qed.

Lemma truediv_nonzero x c :
  feq c (S754_zero false) = false -> truediv x c = Some (SFdiv prec emax x c).
Proof. unfold truediv. intros ->. reflexivity. Qed.

Lemma pow2_bounded k x :
  bounded_by k x -> -537 <= k <= 485 ->
  pow2 x = Some (fmul x x) /\ bounded_by (k + k + 1) (fmul x x).
Proof.
  intros Hx Hk. pose proof (fmul_bounded k k x x Hx Hx ltac:(lia)) as Hb.
  split; [| assumption]. unfold pow2.
  rewrite (bounded_by_finite _ _ Hb), andb_false_r. reflexivity.
Qed.

Lemma py_int_bounded k x :
  bounded_by k x -> 0 <= k ->
  exists n, py_int x = Some n /\ Z.abs n < 2 ^ k.
Proof.
  intros Hx Hk.
  destruct x as [sx | sx | | sx mx ex]; cbn [bounded_by] in Hx; try (destruct Hx; fail).
  - exists 0. split; [reflexivity |]. cbn [Z.abs]. apply pow2_pos. assumption.
  - pose proof (pow2_gt_pos _ _ Hx) as Hex.
    eexists. split; [reflexivity |].
    assert (Habs : forall b z, Z.abs (cond_Zopp b z) = Z.abs z)
      by (intros [] z; cbn [cond_Zopp]; lia).
    rewrite Habs.
    destruct ex as [| p | p].
    + rewrite Z.shiftl_0_r. rewrite Z.sub_0_r in Hx. lia.
    + rewrite Z.shiftl_mul_pow2 by lia.
      assert (0 < 2 ^ Z.pos p) by (apply pow2_pos; lia).
      assert (E : 2 ^ k = 2 ^ (k - Z.pos p) * 2 ^ Z.pos p)
        by (rewrite <- Z.pow_add_r by lia; f_equal; lia).
      rewrite E. nia.
    + rewrite Z.shiftr_div_pow2 by lia.
      assert (0 < 2 ^ Z.pos p) by (apply pow2_pos; lia).
      assert (Hdiv : 0 <= Z.pos mx / 2 ^ Z.pos p) by (apply Z.div_pos; lia).
      rewrite Z.abs_eq by assumption.
      apply Z.div_lt_upper_bound; [assumption |].
      replace (k - Z.neg p) with (Z.pos p + k) in Hx by lia.
      rewrite Z.pow_add_r in Hx by lia. exact Hx.
Qed.

Lemma truediv_const_bounded k x c sc mc ec :
  c = S754_finite sc mc ec ->
  bounded_by k x -> -1074 <= k - ec <= 970 ->
  truediv x c = Some (SFdiv prec emax x c) /\
  bounded_by (k - ec + 1) (SFdiv prec emax x c).
Proof.
  intros -> Hx Hk. split.
  - apply truediv_nonzero. destruct sc; reflexivity.
  - apply fdiv_bounded; assumption.
Qed.

(** ** Compensation engine: temperature *)

(** C3 (counterexample): for the raw code 0 and the nominal coefficients
    the sum [var1 + var2] is about -721299.86; [t_fine] is -721299, its
    truncation toward zero, while its floor is -721300. *)
Lemma compensate_temperature_is_not_floor :
  snd (compensate_temperature 0 (27504, 26435, -1000)) = -721299 /\
  option_map Qfloor (s <- fine_sum 0 27504 26435 (-1000) ;; F2Q s)
    = Some (-721300).
Proof. split; vm_compute; reflexivity. Qed.

(** C3 (amended): for every raw code below [2^32], unsigned 16-bit [T1]
    and signed 16-bit [T2], [T3], no step of [compensate_temperature]
    raises: with [var1 = (raw/16384 - T1/1024) * T2] and
    [var2 = ((raw/131072 - T1/8192)^2) * T3] computed in binary64,
    [t_fine] is the sum [var1 + var2] truncated toward zero (its floor
    when the sum is non-negative, its ceiling when it is negative), and
    the temperature is [t_fine / 5120.0]. *)
Theorem compensate_temperature_truncates raw T1 T2 T3 :
  0 <= raw < 2 ^ 32 ->
  0 <= T1 < 2 ^ 16 ->
  - 2 ^ 15 <= T2 < 2 ^ 15 ->
  - 2 ^ 15 <= T3 < 2 ^ 15 ->
  exists v1 v2 q,
    var1 raw T1 T2 = Some v1 /\
    var2 raw T1 T3 = Some v2 /\
    F2Q (fadd v1 v2) = Some q /\
    Qtrunc q = (if Qle_bool 0 q then Qfloor q else Qceiling q) /\
    compensate_temperature raw (T1, T2, T3) =
      (SFdiv prec emax (Z2F (Qtrunc q)) (Z2F 5120), Qtrunc q) /\
    is_finite (fst (compensate_temperature raw (T1, T2, T3))) = true.
Proof.
  intros Hraw HT1 HT2 HT3.
  destruct (of_int_bounded 32 raw ltac:(lia) ltac:(lia)) as [Eraw Braw].
  destruct (of_int_bounded 16 T1 ltac:(lia) ltac:(lia)) as [Et1 Bt1].
  destruct (of_int_bounded 16 T2 ltac:(change (2 ^ 16) with (2 * 2 ^ 15); lia) ltac:(lia))
    as [Et2 Bt2].
  destruct (of_int_bounded 16 T3 ltac:(change (2 ^ 16) with (2 * 2 ^ 15); lia) ltac:(lia))
    as [Et3 Bt3].
  cbn [Z.add] in Braw, Bt1, Bt2, Bt3.
  destruct (truediv_const_bounded 33 (Z2F raw) (Z2F 16384) false 4503599627370496 (-38)
              eq_refl Braw ltac:(lia)) as [Ea Ba].
  destruct (truediv_const_bounded 17 (Z2F T1) (Z2F 1024) false 4503599627370496 (-42)
              eq_refl Bt1 ltac:(lia)) as [Eb Bb].
  destruct (truediv_const_bounded 33 (Z2F raw) (Z2F 131072) false 4503599627370496 (-35)
              eq_refl Braw ltac:(lia)) as [Ec Bc].
  destruct (truediv_const_bounded 17 (Z2F T1) (Z2F 8192) false 4503599627370496 (-39)
              eq_refl Bt1 ltac:(lia)) as [Ed Bd].
  cbn [Z.add Z.sub Z.opp Z.pos_sub Pos.add Pos.succ Pos.pred_double] in Ba, Bb, Bc, Bd.
  set (a := SFdiv prec emax (Z2F raw) (Z2F 16384)) in *.
  set (b := SFdiv prec emax (Z2F T1) (Z2F 1024)) in *.
  set (c := SFdiv prec emax (Z2F raw) (Z2F 131072)) in *.
  set (d := SFdiv prec emax (Z2F T1) (Z2F 8192)) in *.
  pose proof (fsub_bounded 72 a b Ba (bounded_by_weaken _ 72 _ Bb ltac:(lia)) ltac:(lia))
    as Bab.
  pose proof (fmul_bounded _ _ _ _ Bab Bt2 ltac:(lia)) as Bv1.
  pose proof (fsub_bounded 69 c d Bc (bounded_by_weaken _ 69 _ Bd ltac:(lia)) ltac:(lia))
    as Bcd.
  destruct (pow2_bounded _ _ Bcd ltac:(lia)) as [Esq Bsq].
  pose proof (fmul_bounded _ _ _ _ Bsq Bt3 ltac:(lia)) as Bv2.
  cbn [Z.add Pos.add Pos.succ] in Bab, Bv1, Bcd, Bsq, Bv2.
  set (v1 := fmul (fsub a b) (Z2F T2)) in *.
  set (v2 := fmul (fmul (fsub c d) (fsub c d)) (Z2F T3)) in *.
  pose proof (fadd_bounded 161 v1 v2 (bounded_by_weaken _ 161 _ Bv1 ltac:(lia)) Bv2
                ltac:(lia)) as Bsum.
  cbn [Z.add Pos.add Pos.succ] in Bsum.
  destruct (py_int_bounded _ _ Bsum ltac:(lia)) as (t_fine & Eint & Bt).
  destruct (py_int_Qtrunc _ _ Eint) as (q & Eq & ->).
  destruct (of_int_bounded 163 (Qtrunc q) Bt ltac:(lia)) as [Etf Btf].
  destruct (truediv_const_bounded _ (Z2F (Qtrunc q)) (Z2F 5120) false 5629499534213120 (-40)
              eq_refl Btf ltac:(lia)) as [Etemp Btemp].
  assert (Hv1 : var1 raw T1 T2 = Some v1).
  { unfold var1. rewrite Eraw, Et1. cbn [bind]. rewrite Ea, Eb. cbn [bind].
    rewrite Et2. reflexivity. }
  assert (Hv2 : var2 raw T1 T3 = Some v2).
  { unfold var2. rewrite Eraw, Et1. cbn [bind]. rewrite Ec, Ed. cbn [bind].
    rewrite Esq. cbn [bind]. rewrite Et3. reflexivity. }
  assert (Hct : compensate_temperature raw (T1, T2, T3) =
                (SFdiv prec emax (Z2F (Qtrunc q)) (Z2F 5120), Qtrunc q)).
  { unfold compensate_temperature. rewrite Eraw, Et1. cbn [bind].
    rewrite Ea, Eb. cbn [bind]. rewrite Et2. cbn [bind].
    rewrite Ec, Ed. cbn [bind]. rewrite Esq. cbn [bind]. rewrite Et3. cbn [bind].
    fold v1 v2. rewrite Eint. cbn [bind]. rewrite Etf. cbn [bind].
    rewrite Etemp. reflexivity. }
  exists v1, v2, q. repeat split; try assumption.
  - apply Qtrunc_floor_ceiling.
  - rewrite Hct. cbn [fst]. exact (bounded_by_finite _ _ Btemp).
Qed.

Lemma compensate_temperature_example :
  compensate_temperature 519888 (27504, 26435, -1000)
    = (SFdiv prec emax (Z2F 128422) (Z2F 5120), 128422) /\
  compensate_temperature 0 (27504, 26435, -1000)
    = (SFdiv prec emax (Z2F (-721299)) (Z2F 5120), -721299).
Proof.
  split.
  - destruct (compensate_temperature_truncates 519888 27504 26435 (-1000)
                ltac:(lia) ltac:(lia) ltac:(lia) ltac:(lia))
      as (v1 & v2 & q & Hv1 & Hv2 & Hq & _ & Hct & _).
    rewrite Hct. vm_compute in Hv1, Hv2.
    injection Hv1 as <-. injection Hv2 as <-.
    vm_compute in Hq. injection Hq as <-. reflexivity.
  - destruct (compensate_temperature_truncates 0 27504 26435 (-1000)
                ltac:(lia) ltac:(lia) ltac:(lia) ltac:(lia))
      as (v1 & v2 & q & Hv1 & Hv2 & Hq & _ & Hct & _).
    rewrite Hct. vm_compute in Hv1, Hv2.
    injection Hv1 as <-. injection Hv2 as <-.
    vm_compute in Hq. injection Hq as <-. reflexivity.
Defined.


(** ** Signature function *)

(** The derived constants begin and end as the standard lists them. *)
Lemma sha256_constants :
  List.length K256 = 64%nat /\
  firstn 2 K256 = [0x428a2f98; 0x71374491] /\
  skipn 62 K256 = [0xbef9a3f7; 0xc67178f2] /\
  fst H256_init = (0x6a09e667, 0xbb67ae85, 0x3c6ef372, 0xa54ff53a,
                   0x510e527f, 0x9b05688c, 0x1f83d9ab).
Proof. repeat split. Qed.

Lemma string_append_assoc (a b c : string) :
  ((a ++ b) ++ c)%string = (a ++ (b ++ c))%string.
Proof. induction a as [| x a IH]; cbn [append]; [reflexivity | rewrite IH; reflexivity]. Qed.

Lemma length_upper (s : string) : String.length (upper s) = String.length s.
Proof. induction s as [| c s IH]; cbn [upper String.length]; congruence. Qed.

Lemma length_hexdigest (bs : list Z) :
  String.length (hexdigest bs) = (2 * List.length bs)%nat.
Proof.
  induction bs as [| b bs IH]; [reflexivity |].
  cbn [hexdigest String.length List.length]. rewrite IH. lia.
Qed.

Lemma length_sha256 (msg : list Z) : List.length (sha256 msg) = 32%nat.
Proof.
  unfold sha256.
  destruct (fold_left compress _ H256_init) as [[[[[[[a b] c] d] e] f] g] h].
  reflexivity.
Qed.

Lemma length_hmac_sha256 (key msg : list Z) : List.length (hmac_sha256 key msg) = 32%nat.
Proof. unfold hmac_sha256. apply length_sha256. Qed.

Lemma land_255_byte (x : Z) : is_byte (Z.land x 0xFF).
Proof.
  unfold is_byte. change 0xFF with (Z.ones 8). rewrite Z.land_ones by lia.
  apply Z.mod_pos_bound. reflexivity.
Qed.

Lemma sha256_bytes (msg : list Z) : Forall is_byte (sha256 msg).
Proof.
  unfold sha256.
  destruct (fold_left compress _ H256_init) as [[[[[[[a b] c] d] e] f] g] h].
  unfold state_bytes, word_bytes. cbn [app].
  repeat (apply Forall_cons; [apply land_255_byte |]). apply Forall_nil.
Qed.

Lemma upper_hex_digit (n : Z) :
  0 <= n < 16 ->
  In (upper_ascii (hex_digit n)) (list_ascii_of_string "0123456789ABCDEF").
Proof.
  intros Hn. rewrite <- (Z2Nat.id n) by lia.
  assert (Hk : (Z.to_nat n < 16)%nat) by lia.
  generalize dependent (Z.to_nat n). clear. intros k Hk.
  do 16 (destruct k as [| k]; [vm_compute; tauto |]). lia.
Qed.

Lemma upper_hexdigest (bs : list Z) :
  Forall is_byte bs -> uppercase_hex (upper (hexdigest bs)).
Proof.
  unfold uppercase_hex. induction 1 as [| b bs Hb _ IH]; [apply Forall_nil |].
  cbn [hexdigest upper list_ascii_of_string]. unfold is_byte in Hb.
  apply Forall_cons; [| apply Forall_cons; [| exact IH]]; apply upper_hex_digit.
  - rewrite Z.shiftr_div_pow2 by lia. change (2 ^ 4) with 16.
    split; [apply Z.div_pos; lia | apply Z.div_lt_upper_bound; lia].
  - change 0x0F with (Z.ones 4). rewrite Z.land_ones by lia.
    apply Z.mod_pos_bound. reflexivity.
Qed.

(** C7: the signature is a function of [(client_id, client_secret,
    timestamp, access_token)] alone, so two invocations on the same
    arguments give the same digest; it is the HMAC-SHA256, keyed by the
    secret, of [client_id + access_token + str(timestamp)] (the token
    left out when absent), hex-encoded and uppercased, and it is always
    64 uppercase hexadecimal characters long. *)
Theorem generate_signature_digest client_id client_secret timestamp access_token :
  (forall first second,
     first = generate_signature client_id client_secret timestamp access_token ->
     second = generate_signature client_id client_secret timestamp access_token ->
     first = second) /\
  generate_signature client_id client_secret timestamp access_token =
    upper (hexdigest
             (hmac_sha256 (encode client_secret)
                (encode (client_id ++ text access_token ++ str timestamp)%string))) /\
  generate_signature client_id client_secret timestamp None =
    upper (hexdigest
             (hmac_sha256 (encode client_secret)
                (encode (client_id ++ str timestamp)%string))) /\
  String.length (generate_signature client_id client_secret timestamp access_token)
    = 64%nat /\
  uppercase_hex (generate_signature client_id client_secret timestamp access_token) /\
  upper (generate_signature client_id client_secret timestamp access_token)
    = generate_signature client_id client_secret timestamp access_token.
Proof.
  split; [intros first second -> ->; reflexivity |].
  split.
  { unfold generate_signature.
    destruct access_token as [[| c tok] |]; cbn [truthy text].
    - reflexivity.
    - rewrite string_append_assoc. reflexivity.
    - reflexivity. }
  split; [reflexivity |].
  split.
  { unfold generate_signature.
    rewrite length_upper, length_hexdigest, length_hmac_sha256. reflexivity. }
  assert (Hup : uppercase_hex
                  (generate_signature client_id client_secret timestamp access_token)).
  { unfold generate_signature. apply upper_hexdigest.
    unfold hmac_sha256. apply sha256_bytes. }
  split; [exact Hup |].
  revert Hup. unfold uppercase_hex.
  generalize (generate_signature client_id client_secret timestamp access_token).
  induction s as [| c s IH]; [reflexivity |].
  cbn [list_ascii_of_string upper]. intros Hall.
  inversion Hall as [| ? ? Hc Hs]; subst.
  rewrite (IH Hs). f_equal.
  cbn [list_ascii_of_string In] in Hc.
  repeat (destruct Hc as [<- | Hc]; [reflexivity |]). destruct Hc.
Qed.

Lemma generate_signature_examples :
  generate_signature "your_client_id" "your_client_secret" 1700000000000 None
    = "0FA58CF4739CD27F2A3A1C3C4A0C1E924CAE87F2B6FD38FF485C9A1A01B8D5A6"%string /\
  generate_signature "your_client_id" "your_client_secret" 1700000000000 (Some "tok123"%string)
    = "92D5A52E91D8B6D01B48CAC078DC1E21EA4EEEF1BFF294C788A72BFBCA7A96FC"%string /\
  hexdigest (hmac_sha256 (encode "Jefe") (encode "what do ya want for nothing?"))
    = "5bdcc146bf60754e6a042426089575c75a003f089d2739839dec58b964ec3843"%string.
Proof.
  split; [| split].
  - rewrite (proj1 (proj2 (proj2 (generate_signature_digest
               "your_client_id" "your_client_secret" 1700000000000 None)))).
    vm_compute. reflexivity.
  - rewrite (proj1 (proj2 (generate_signature_digest
               "your_client_id" "your_client_secret" 1700000000000 (Some "tok123"%string)))).
    vm_compute. reflexivity.
  - vm_compute. reflexivity.
Defined.

(** * Further properties of the code *)

(** ** Register codec: faults, ranges and round trip *)

Lemma short_reply_index (data : list Z) (n i : nat) :
  (List.length data < n)%nat -> (n <= S i)%nat -> index data i = None.
Proof. intros Hlen Hi. unfold index. apply nth_error_None. lia. Qed.

(** X1: when the two-byte read faults, or answers fewer than two bytes,
    both decoders return 0, in either endianness: the failure is absorbed
    and cannot be told from a register that holds zero. *)
Theorem short_reads_decode_to_zero b address register le :
  short_reply (read_i2c_block_data b address register 2) 2 ->
  read_unsigned_short b address register le = 0 /\
  read_signed_short b address register le = 0 /\
  (forall b', read_i2c_block_data b' address register 2 = Some [0; 0] ->
     read_unsigned_short b' address register le
       = read_unsigned_short b address register le /\
     read_signed_short b' address register le
       = read_signed_short b address register le).
Proof.
  intros Hshort.
  assert (Hu : read_unsigned_short b address register le = 0).
  { unfold read_unsigned_short.
    destruct (read_i2c_block_data b address register 2) as [data |];
      cbn [bind try_except]; [| reflexivity].
    cbn [short_reply] in Hshort.
    destruct data as [| d0 [| d1 rest]]; cbn [index nth_error bind try_except];
      try reflexivity.
    cbn [List.length] in Hshort. lia. }
  assert (Hs : read_signed_short b address register le = 0).
  { unfold read_signed_short.
    destruct (read_i2c_block_data b address register 2) as [data |];
      cbn [bind try_except]; [| reflexivity].
    cbn [short_reply] in Hshort.
    destruct data as [| d0 [| d1 rest]]; cbn [index nth_error bind try_except];
      try reflexivity.
    cbn [List.length] in Hshort. lia. }
  split; [exact Hu |]. split; [exact Hs |].
  intros b' Hzero. split.
  - rewrite Hu. unfold read_unsigned_short. rewrite Hzero. destruct le; reflexivity.
  - rewrite Hs. unfold read_signed_short. rewrite Hzero. destruct le; reflexivity.
Qed.

Lemma short_reads_example :
  read_unsigned_short dead_bus BME280_ADDRESS BME280_REGISTER_DIG_T1 true = 0 /\
  read_signed_short (constant_bus [0x7F] 0) BME280_ADDRESS BME280_REGISTER_DIG_T1 false = 0.
Proof.
  split.
  - exact (proj1 (short_reads_decode_to_zero dead_bus BME280_ADDRESS
                    BME280_REGISTER_DIG_T1 true I)).
  - refine (proj1 (proj2 (short_reads_decode_to_zero (constant_bus [0x7F] 0)
                            BME280_ADDRESS BME280_REGISTER_DIG_T1 false _))).
    cbn. lia.
Defined.

Lemma read_unsigned_short_prefix b address register le d0 d1 rest :
  read_i2c_block_data b address register 2 = Some (d0 :: d1 :: rest) ->
  is_byte d0 -> is_byte d1 ->
  read_unsigned_short b address register le = unsigned16 le d0 d1.
Proof.
  unfold is_byte, read_unsigned_short, unsigned16. intros -> H0 H1.
  destruct le; cbn [bind try_except index nth_error].
  - rewrite Z.shiftl_mul_pow2 by lia. change (2 ^ 8) with 256. lia.
  - rewrite lor_shiftl_add by (change (2 ^ 8) with 256; lia).
    change (2 ^ 8) with 256. lia.
Qed.

Lemma read_signed_short_prefix b address register le d0 d1 rest :
  read_i2c_block_data b address register 2 = Some (d0 :: d1 :: rest) ->
  is_byte d0 -> is_byte d1 ->
  read_signed_short b address register le = signed16 le d0 d1.
Proof.
  intros Hread H0 H1.
  pose proof (read_unsigned_short_prefix b address register le d0 d1 rest Hread H0 H1) as Hu.
  unfold read_signed_short, signed16. unfold read_unsigned_short in Hu.
  rewrite Hread in *. cbn [bind try_except index nth_error] in *.
  assert (Hv : (if le then d0 + Z.shiftl d1 8 else Z.lor (Z.shiftl d0 8) d1)
               = unsigned16 le d0 d1) by (destruct le; exact Hu).
  rewrite Hv.
  destruct (Z.ltb_spec (unsigned16 le d0 d1) 32768);
    destruct (Z.leb_spec 32768 (unsigned16 le d0 d1)); lia.
Qed.

Ltac euclid := Z.to_euclidean_division_equations; lia.

(** X2: the unsigned decode of two bytes lies in [0, 65535] and loses
    nothing: the two bytes are recovered from it by division and
    remainder, in the order the endianness says; bytes after the second
    are ignored; and the signed decode of the same bytes differs from it
    by 0 or 65536. *)
Theorem read_unsigned_short_round_trip b address register le d0 d1 rest :
  read_i2c_block_data b address register 2 = Some (d0 :: d1 :: rest) ->
  is_byte d0 -> is_byte d1 ->
  let u := read_unsigned_short b address register le in
  0 <= u < 65536 /\
  (if le then u mod 256 = d0 /\ u / 256 = d1
   else u / 256 = d0 /\ u mod 256 = d1) /\
  (read_signed_short b address register le = u \/
   read_signed_short b address register le = u - 65536).
Proof.
  intros Hread H0 H1 u. subst u.
  rewrite (read_unsigned_short_prefix _ _ _ _ _ _ _ Hread H0 H1).
  rewrite (read_signed_short_prefix _ _ _ _ _ _ _ Hread H0 H1).
  unfold signed16, unsigned16, is_byte in *.
  split; [destruct le; lia |]. split.
  - destruct le; split; euclid.
  - destruct (32768 <=? _); [right | left]; reflexivity.
Qed.

Lemma read_unsigned_short_round_trip_example :
  read_unsigned_short (constant_bus [0x34; 0x12; 0xFF] 0) BME280_ADDRESS 0x88 true = 0x1234 /\
  read_unsigned_short (constant_bus [0x34; 0x12; 0xFF] 0) BME280_ADDRESS 0x88 false = 0x3412.
Proof.
  pose proof (read_unsigned_short_round_trip (constant_bus [0x34; 0x12; 0xFF] 0)
                BME280_ADDRESS 0x88 true 0x34 0x12 [0xFF] eq_refl
                ltac:(unfold is_byte; lia) ltac:(unfold is_byte; lia)) as Hle.
  pose proof (read_unsigned_short_round_trip (constant_bus [0x34; 0x12; 0xFF] 0)
                BME280_ADDRESS 0x88 false 0x34 0x12 [0xFF] eq_refl
                ltac:(unfold is_byte; lia) ltac:(unfold is_byte; lia)) as Hbe.
  cbv zeta in Hle, Hbe.
  destruct Hle as (Hr & [Hm Hd] & _). destruct Hbe as (Hr' & [Hd' Hm'] & _).
  split; euclid.
Defined.

(** ** Raw sample read: bit packing, sentinels, short replies *)

Lemma pack20 (a b c : Z) :
  is_byte a -> is_byte b -> is_byte c ->
  Z.lor (Z.lor (Z.shiftl a 12) (Z.shiftl b 4)) (Z.shiftr c 4)
    = 4096 * a + 16 * b + c / 16.
Proof.
  unfold is_byte. intros Ha Hb Hc.
  rewrite (Z.shiftl_mul_pow2 b 4) by lia. change (2 ^ 4) with 16.
  rewrite lor_shiftl_add by (change (2 ^ 12) with 4096; lia).
  change (2 ^ 12) with 4096.
  replace (a * 4096 + b * 16) with ((a * 256 + b) * 2 ^ 4)
    by (change (2 ^ 4) with 16; lia).
  rewrite <- Z.shiftl_mul_pow2 by lia.
  rewrite Z.shiftr_div_pow2 by lia. change (2 ^ 4) with 16.
  rewrite lor_shiftl_add by (change (2 ^ 4) with 16; euclid).
  change (2 ^ 4) with 16. lia.
Qed.

Lemma read_raw_data_bytes b address d0 d1 d2 d3 d4 d5 d6 d7 rest :
  read_i2c_block_data b address BME280_REGISTER_PRESS 8
    = Some (d0 :: d1 :: d2 :: d3 :: d4 :: d5 :: d6 :: d7 :: rest) ->
  Forall is_byte [d0; d1; d2; d3; d4; d5; d6; d7] ->
  read_raw_data b address
    = (4096 * d3 + 16 * d4 + d5 / 16,
       4096 * d0 + 16 * d1 + d2 / 16,
       256 * d6 + d7).
Proof.
  intros Hread Hbytes.
  repeat match goal with
         | H : Forall _ (_ :: _) |- _ => inversion H; subst; clear H
         end.
  unfold read_raw_data. rewrite Hread. cbn [bind try_except index nth_error].
  rewrite !pack20 by assumption.
  rewrite lor_shiftl_add by (unfold is_byte in *; change (2 ^ 8) with 256; lia).
  change (2 ^ 8) with 256. f_equal. lia.
Qed.

(** X3: a burst of eight bytes is unpacked into a 20-bit temperature
    code [4096*d3 + 16*d4 + d5/16], a 20-bit pressure code
    [4096*d0 + 16*d1 + d2/16] and a 16-bit humidity code [256*d6 + d7];
    the low nibbles of [d2] and [d5] and any byte after the eighth do
    not matter. *)
Theorem read_raw_data_unpacks b address d0 d1 d2 d3 d4 d5 d6 d7 rest :
  read_i2c_block_data b address BME280_REGISTER_PRESS 8
    = Some (d0 :: d1 :: d2 :: d3 :: d4 :: d5 :: d6 :: d7 :: rest) ->
  Forall is_byte [d0; d1; d2; d3; d4; d5; d6; d7] ->
  let '(temp_raw, press_raw, hum_raw) := read_raw_data b address in
  temp_raw = 4096 * d3 + 16 * d4 + d5 / 16 /\
  press_raw = 4096 * d0 + 16 * d1 + d2 / 16 /\
  hum_raw = 256 * d6 + d7 /\
  0 <= temp_raw < 2 ^ 20 /\ 0 <= press_raw < 2 ^ 20 /\ 0 <= hum_raw < 2 ^ 16 /\
  (forall b' d2' d5' rest',
     is_byte d2' -> is_byte d5' -> d2' / 16 = d2 / 16 -> d5' / 16 = d5 / 16 ->
     read_i2c_block_data b' address BME280_REGISTER_PRESS 8
       = Some (d0 :: d1 :: d2' :: d3 :: d4 :: d5' :: d6 :: d7 :: rest') ->
     read_raw_data b' address = (temp_raw, press_raw, hum_raw)).
Proof.
  intros Hread Hbytes.
  rewrite (read_raw_data_bytes _ _ _ _ _ _ _ _ _ _ _ Hread Hbytes).
  assert (Hall := Hbytes).
  repeat match goal with
         | H : Forall _ (_ :: _) |- _ => inversion H; subst; clear H
         end.
  unfold is_byte in *. change (2 ^ 20) with 1048576. change (2 ^ 16) with 65536.
  repeat split; try euclid.
  intros b' d2' d5' rest' H2' H5' E2 E5 Hread'.
  rewrite (read_raw_data_bytes _ _ _ _ _ _ _ _ _ _ _ Hread').
  - rewrite E2, E5. reflexivity.
  - repeat (apply Forall_cons; [unfold is_byte; assumption |]). apply Forall_nil.
Qed.

Lemma read_raw_data_unpacks_example :
  read_raw_data (constant_bus [0x50; 0x00; 0x0F; 0x7E; 0xED; 0x07; 0x6E; 0x10; 0xAA] 0)
    BME280_ADDRESS = (0x7EED0, 0x50000, 0x6E10).
Proof.
  pose proof (read_raw_data_unpacks
                (constant_bus [0x50; 0x00; 0x0F; 0x7E; 0xED; 0x07; 0x6E; 0x10; 0xAA] 0)
                BME280_ADDRESS 0x50 0x00 0x0F 0x7E 0xED 0x07 0x6E 0x10 [0xAA] eq_refl) as H.
  destruct (read_raw_data _ _) as [[t p] h].
  destruct H as (-> & -> & -> & _).
  - repeat (apply Forall_cons; [unfold is_byte; lia |]). apply Forall_nil.
  - reflexivity.
Defined.

(** X4: on a burst of bytes the sentinel codes are decoded from exactly
    these register contents: [temp_raw] is [0x80000] when the
    temperature bytes are [0x80, 0x00, 0x0_], and [0xFFFFF] when they are
    [0xFF, 0xFF, 0xF_]; [hum_raw] is [0x8000] for [0x80, 0x00] and
    [0xFFFF] for [0xFF, 0xFF]. *)
Theorem read_raw_data_sentinels b address d0 d1 d2 d3 d4 d5 d6 d7 rest :
  read_i2c_block_data b address BME280_REGISTER_PRESS 8
    = Some (d0 :: d1 :: d2 :: d3 :: d4 :: d5 :: d6 :: d7 :: rest) ->
  Forall is_byte [d0; d1; d2; d3; d4; d5; d6; d7] ->
  let '(temp_raw, _, hum_raw) := read_raw_data b address in
  (temp_raw = 0x80000 <-> d3 = 0x80 /\ d4 = 0 /\ d5 < 16) /\
  (temp_raw = 0xFFFFF <-> d3 = 0xFF /\ d4 = 0xFF /\ 0xF0 <= d5) /\
  (hum_raw = 0x8000 <-> d6 = 0x80 /\ d7 = 0) /\
  (hum_raw = 0xFFFF <-> d6 = 0xFF /\ d7 = 0xFF) /\
  (invalid_sample temp_raw hum_raw <->
   (d3 = 0x80 /\ d4 = 0 /\ d5 < 16) \/ (d3 = 0xFF /\ d4 = 0xFF /\ 0xF0 <= d5) \/
   (d6 = 0x80 /\ d7 = 0) \/ (d6 = 0xFF /\ d7 = 0xFF)).
Proof.
  intros Hread Hbytes.
  rewrite (read_raw_data_bytes _ _ _ _ _ _ _ _ _ _ _ Hread Hbytes).
  repeat match goal with
         | H : Forall _ (_ :: _) |- _ => inversion H; subst; clear H
         end.
  unfold is_byte, invalid_sample in *.
  repeat split; intros; try euclid.
Qed.

Lemma read_raw_data_sentinels_example :
  (let '(temp_raw, _, hum_raw) :=
     read_raw_data (constant_bus sentinel_burst 0) BME280_ADDRESS in
   invalid_sample temp_raw hum_raw) /\
  (let '(temp_raw, _, hum_raw) :=
     read_raw_data (constant_bus [0x50; 0x00; 0x00; 0x80; 0x00; 0x10; 0x6E; 0x10] 0)
       BME280_ADDRESS in
   ~ invalid_sample temp_raw hum_raw).
Proof.
  split.
  - pose proof (read_raw_data_sentinels (constant_bus sentinel_burst 0) BME280_ADDRESS
                  0x50 0x00 0x00 0x80 0x00 0x00 0x6E 0x10 [] eq_refl) as H.
    destruct (read_raw_data _ _) as [[t p] h].
    apply H.
    + repeat (apply Forall_cons; [unfold is_byte; lia |]). apply Forall_nil.
    + left. lia.
  - pose proof (read_raw_data_sentinels
                  (constant_bus [0x50; 0x00; 0x00; 0x80; 0x00; 0x10; 0x6E; 0x10] 0)
                  BME280_ADDRESS 0x50 0x00 0x00 0x80 0x00 0x10 0x6E 0x10 [] eq_refl) as H.
    destruct (read_raw_data _ _) as [[t p] h].
    intros Hinv. apply H in Hinv.
    + lia.
    + repeat (apply Forall_cons; [unfold is_byte; lia |]). apply Forall_nil.
Defined.

Lemma read_raw_data_short b address :
  short_reply (read_i2c_block_data b address BME280_REGISTER_PRESS 8) 8 ->
  read_raw_data b address = (0, 0, 0).
Proof.
  intros Hshort. unfold read_raw_data.
  destruct (read_i2c_block_data b address BME280_REGISTER_PRESS 8) as [data |];
    cbn [bind try_except]; [| reflexivity].
  cbn [short_reply] in Hshort.
  do 8 (destruct data as [| ? data];
        [cbn [index nth_error bind try_except]; reflexivity |]).
  cbn [List.length] in Hshort. lia.
Qed.

(** X5: a burst that comes back with fewer than eight bytes is treated
    like a fault: the raw triple is [(0, 0, 0)], which is not a sentinel,
    so the loop body does not skip the pass but publishes a reading. *)
Theorem read_raw_data_short_reply cfg calib w s :
  short_reply (read_i2c_block_data (bus w) BME280_ADDRESS BME280_REGISTER_PRESS 8) 8 ->
  read_raw_data (bus w) BME280_ADDRESS = (0, 0, 0) /\
  ~ invalid_sample 0 0 /\
  temperature (sensor_data (snd (loop_body cfg calib w s)))
    = Some (fst (compensate_temperature 0 (calib_T calib))).
Proof.
  intros Hshort. pose proof (read_raw_data_short _ _ Hshort) as Hraw.
  split; [exact Hraw |]. split; [unfold invalid_sample; lia |].
  unfold loop_body. rewrite Hraw.
  change (in_pair 0 524288 1048575 || in_pair 0 32768 65535) with false. cbv iota.
  destruct (compensate_temperature 0 (calib_T calib)) as [t t_fine]. cbn [fst].
  cbv beta iota delta [bindM update].
  destruct (push_if_due_outcome cfg w t (compensate_humidity 0 (calib_H calib) t_fine)
              (calculate_heat_index t (compensate_humidity 0 (calib_H calib) t_fine))
              (set_sensor_data
                 {| temperature := Some t;
                    humidity := Some (compensate_humidity 0 (calib_H calib) t_fine);
                    heat_index :=
                      Some (calculate_heat_index t
                              (compensate_humidity 0 (calib_H calib) t_fine)) |} s))
    as (s1 & Hrun & Hsd & _).
  rewrite Hrun. cbv beta iota delta [time_sleep emit update].
  cbn [snd sensor_data]. rewrite Hsd. reflexivity.
Qed.

Lemma read_raw_data_short_reply_example :
  read_raw_data (constant_bus [0x80; 0x00; 0x00; 0x80; 0x00; 0x00; 0x80] 0) BME280_ADDRESS
    = (0, 0, 0).
Proof.
  refine (proj1 (read_raw_data_short_reply demo_cfg default_calib
                   (cloud_down (constant_bus [0x80; 0x00; 0x00; 0x80; 0x00; 0x00; 0x80] 0))
                   initial_state _)).
  cbn. lia.
Defined.

(** ** Calibration loader: fallback, block faults, ranges *)

Lemma read_unsigned_short_range b address register le :
  byte_bus b -> 0 <= read_unsigned_short b address register le < 65536.
Proof.
  intros [_ Hblock].
  destruct (read_i2c_block_data b address register 2) as [data |] eqn:Hread.
  - destruct data as [| d0 [| d1 rest]].
    + unfold read_unsigned_short. rewrite Hread. cbn. lia.
    + unfold read_unsigned_short. rewrite Hread. cbn. lia.
    + pose proof (Hblock _ _ _ _ Hread) as Hall.
      inversion Hall as [| ? ? H0 Hall']; subst.
      inversion Hall' as [| ? ? H1 _]; subst.
      rewrite (read_unsigned_short_prefix _ _ _ _ _ _ _ Hread H0 H1).
      apply unsigned16_range; assumption.
  - unfold read_unsigned_short. rewrite Hread. cbn. lia.
Qed.

Lemma read_signed_short_range b address register le :
  byte_bus b -> -32768 <= read_signed_short b address register le < 32768.
Proof.
  intros [_ Hblock].
  destruct (read_i2c_block_data b address register 2) as [data |] eqn:Hread.
  - destruct data as [| d0 [| d1 rest]].
    + unfold read_signed_short. rewrite Hread. cbn. lia.
    + unfold read_signed_short. rewrite Hread. cbn. lia.
    + pose proof (Hblock _ _ _ _ Hread) as Hall.
      inversion Hall as [| ? ? H0 Hall']; subst.
      inversion Hall' as [| ? ? H1 _]; subst.
      rewrite (read_signed_short_prefix _ _ _ _ _ _ _ Hread H0 H1).
      pose proof (unsigned16_range le d0 d1 H0 H1).
      unfold signed16. destruct (32768 <=? _) eqn:E; [apply Z.leb_le in E | apply Z.leb_gt in E]; lia.
  - unfold read_signed_short. rewrite Hread. cbn. lia.
Qed.

(** What the loader returns when all six single-byte reads succeed. *)
Lemma read_calibration_data_loaded b address h1 h3 e4 e5 e6 raw6 :
  read_byte_data b address BME280_REGISTER_DIG_H1 = Some h1 ->
  read_byte_data b address (BME280_REGISTER_DIG_H2 + 2) = Some h3 ->
  read_byte_data b address (BME280_REGISTER_DIG_H2 + 3) = Some e4 ->
  read_byte_data b address (BME280_REGISTER_DIG_H2 + 4) = Some e5 ->
  read_byte_data b address (BME280_REGISTER_DIG_H2 + 5) = Some e6 ->
  read_byte_data b address (BME280_REGISTER_DIG_H2 + 6) = Some raw6 ->
  read_calibration_data b address =
    {| calib_T :=
         (read_unsigned_short b address BME280_REGISTER_DIG_T1 true,
          read_signed_short b address (BME280_REGISTER_DIG_T1 + 2) true,
          read_signed_short b address (BME280_REGISTER_DIG_T1 + 4) true);
       calib_H :=
         (h1, read_signed_short b address BME280_REGISTER_DIG_H2 true, h3,
          Z.lor (Z.shiftl e4 4) (Z.land e5 0xF),
          Z.lor (Z.shiftl e6 4) (Z.shiftr e5 4),
          if raw6 >? 127 then raw6 - 256 else raw6) |}.
Proof.
  intros R1 R3 R4 R5 R6 R7. unfold read_calibration_data.
  rewrite R1, R3, R4, R5, R6, R7. reflexivity.
Qed.

Lemma calibration_fallback b address :
  read_byte_data b address BME280_REGISTER_DIG_H1 = None \/
  read_byte_data b address (BME280_REGISTER_DIG_H2 + 2) = None \/
  read_byte_data b address (BME280_REGISTER_DIG_H2 + 3) = None \/
  read_byte_data b address (BME280_REGISTER_DIG_H2 + 4) = None \/
  read_byte_data b address (BME280_REGISTER_DIG_H2 + 5) = None \/
  read_byte_data b address (BME280_REGISTER_DIG_H2 + 6) = None ->
  read_calibration_data b address = default_calib.
Proof.
  intros Hfault. unfold read_calibration_data.
  destruct (read_byte_data b address BME280_REGISTER_DIG_H1); [| reflexivity].
  destruct (read_byte_data b address (BME280_REGISTER_DIG_H2 + 2)); [| reflexivity].
  destruct (read_byte_data b address (BME280_REGISTER_DIG_H2 + 3)); [| reflexivity].
  destruct (read_byte_data b address (BME280_REGISTER_DIG_H2 + 4)); [| reflexivity].
  destruct (read_byte_data b address (BME280_REGISTER_DIG_H2 + 5)); [| reflexivity].
  destruct (read_byte_data b address (BME280_REGISTER_DIG_H2 + 6)); [| reflexivity].
  repeat (destruct Hfault as [Hfault | Hfault]; [discriminate Hfault |]).
  discriminate Hfault.
Qed.

(** X6: the nominal coefficient set is returned, whole, as soon as one of
    the six single-byte reads (H1, H3, e4, e5, e6, H6) faults, whatever
    the other registers answered: loaded and nominal coefficients are
    never mixed, and the result does not depend on which read failed. *)
Theorem read_calibration_data_falls_back b address :
  read_byte_data b address BME280_REGISTER_DIG_H1 = None \/
  read_byte_data b address (BME280_REGISTER_DIG_H2 + 2) = None \/
  read_byte_data b address (BME280_REGISTER_DIG_H2 + 3) = None \/
  read_byte_data b address (BME280_REGISTER_DIG_H2 + 4) = None \/
  read_byte_data b address (BME280_REGISTER_DIG_H2 + 5) = None \/
  read_byte_data b address (BME280_REGISTER_DIG_H2 + 6) = None ->
  read_calibration_data b address = default_calib /\
  calib_T (read_calibration_data b address) = (27504, 26435, -1000) /\
  calib_H (read_calibration_data b address) = (75, 360, 0, 300, 50, 30).
Proof.
  intros Hfault. rewrite (calibration_fallback b address Hfault).
  repeat split.
Qed.

Lemma read_calibration_data_falls_back_example :
  read_calibration_data dead_bus BME280_ADDRESS = default_calib /\
  read_calibration_data
    (register_bus_except packed_regs 0xE7) BME280_ADDRESS = default_calib.
Proof.
  split.
  - refine (proj1 (read_calibration_data_falls_back dead_bus BME280_ADDRESS _)).
    left. reflexivity.
  - refine (proj1 (read_calibration_data_falls_back
                     (register_bus_except packed_regs 0xE7) BME280_ADDRESS _)).
    do 5 right. reflexivity.
Defined.

(** X7: read from a bus that answers in bytes, and also when it falls
    back, the coefficients are in range: [T1] in [0, 65535], [T2], [T3],
    [H2] in [-32768, 32767], [H1], [H3] bytes, [H4], [H5] in [0, 4095]
    and [H6] in [-128, 127]. *)
Theorem read_calibration_data_in_range b address :
  byte_bus b -> calib_in_range (read_calibration_data b address).
Proof.
  intros Hbus.
  destruct (read_byte_data b address BME280_REGISTER_DIG_H1) as [h1 |] eqn:R1;
    [| rewrite calibration_fallback by tauto; cbv; repeat split; discriminate].
  destruct (read_byte_data b address (BME280_REGISTER_DIG_H2 + 2)) as [h3 |] eqn:R3;
    [| rewrite calibration_fallback by tauto; cbv; repeat split; discriminate].
  destruct (read_byte_data b address (BME280_REGISTER_DIG_H2 + 3)) as [e4 |] eqn:R4;
    [| rewrite calibration_fallback by tauto; cbv; repeat split; discriminate].
  destruct (read_byte_data b address (BME280_REGISTER_DIG_H2 + 4)) as [e5 |] eqn:R5;
    [| rewrite calibration_fallback by tauto; cbv; repeat split; discriminate].
  destruct (read_byte_data b address (BME280_REGISTER_DIG_H2 + 5)) as [e6 |] eqn:R6;
    [| rewrite calibration_fallback by tauto; cbv; repeat split; discriminate].
  destruct (read_byte_data b address (BME280_REGISTER_DIG_H2 + 6)) as [raw6 |] eqn:R7;
    [| rewrite calibration_fallback by tauto; cbv; repeat split; discriminate].
  rewrite (read_calibration_data_loaded _ _ _ _ _ _ _ _ R1 R3 R4 R5 R6 R7).
  unfold calib_in_range. cbn [calib_T calib_H].
  pose proof (read_unsigned_short_range b address BME280_REGISTER_DIG_T1 true Hbus).
  pose proof (read_signed_short_range b address (BME280_REGISTER_DIG_T1 + 2) true Hbus).
  pose proof (read_signed_short_range b address (BME280_REGISTER_DIG_T1 + 4) true Hbus).
  pose proof (read_signed_short_range b address BME280_REGISTER_DIG_H2 true Hbus).
  destruct Hbus as [Hbyte _].
  pose proof (Hbyte _ _ _ R1) as B1. pose proof (Hbyte _ _ _ R3) as B3.
  pose proof (Hbyte _ _ _ R4) as B4. pose proof (Hbyte _ _ _ R5) as B5.
  pose proof (Hbyte _ _ _ R6) as B6. pose proof (Hbyte _ _ _ R7) as B7.
  unfold is_byte in *.
  assert (Hland : Z.land e5 0xF = e5 mod 16)
    by (change 0xF with (Z.ones 4); rewrite Z.land_ones by lia; reflexivity).
  rewrite Hland, (Z.shiftr_div_pow2 e5 4) by lia. change (2 ^ 4) with 16.
  rewrite !lor_shiftl_add by (change (2 ^ 4) with 16; euclid).
  change (2 ^ 4) with 16.
  destruct (Z.gtb_spec raw6 127); repeat split; try lia; try euclid.
Qed.

Lemma read_calibration_data_in_range_example :
  calib_in_range (read_calibration_data (register_bus packed_regs) BME280_ADDRESS) /\
  calib_in_range (read_calibration_data dead_bus BME280_ADDRESS).
Proof.
  split; apply read_calibration_data_in_range.
  - split.
    + intros a r x H. injection H as <-. unfold packed_regs, is_byte.
      repeat match goal with |- context [if ?c then _ else _] => destruct c end; lia.
    + intros a r n data H. injection H as <-.
      apply Forall_forall. intros x Hx. apply in_map_iff in Hx.
      destruct Hx as (i & <- & _). unfold packed_regs, is_byte.
      repeat match goal with |- context [if ?c then _ else _] => destruct c end; lia.
  - split; intros; discriminate.
Defined.

(** ** Temperature of a sampled code: no fallback on real register data *)

(** On the ranges the decoders produce, every step of
    [compensate_temperature] succeeds. *)
Lemma compensate_temperature_computes raw T1 T2 T3 :
  0 <= raw < 2 ^ 32 ->
  0 <= T1 < 2 ^ 16 ->
  - 2 ^ 15 <= T2 < 2 ^ 15 ->
  - 2 ^ 15 <= T3 < 2 ^ 15 ->
  exists s q,
    fine_sum raw T1 T2 T3 = Some s /\
    F2Q s = Some q /\
    Z.abs (Qtrunc q) < 2 ^ 163 /\
    compensate_temperature raw (T1, T2, T3) =
      (SFdiv prec emax (Z2F (Qtrunc q)) (Z2F 5120), Qtrunc q) /\
    bounded_by 205 (SFdiv prec emax (Z2F (Qtrunc q)) (Z2F 5120)).
Proof.
  intros Hraw HT1 HT2 HT3.
  destruct (of_int_bounded 32 raw ltac:(lia) ltac:(lia)) as [Eraw Braw].
  destruct (of_int_bounded 16 T1 ltac:(lia) ltac:(lia)) as [Et1 Bt1].
  destruct (of_int_bounded 16 T2 ltac:(change (2 ^ 16) with (2 * 2 ^ 15); lia) ltac:(lia))
    as [Et2 Bt2].
  destruct (of_int_bounded 16 T3 ltac:(change (2 ^ 16) with (2 * 2 ^ 15); lia) ltac:(lia))
    as [Et3 Bt3].
  cbn [Z.add] in Braw, Bt1, Bt2, Bt3.
  destruct (truediv_const_bounded 33 (Z2F raw) (Z2F 16384) false 4503599627370496 (-38)
              eq_refl Braw ltac:(lia)) as [Ea Ba].
  destruct (truediv_const_bounded 17 (Z2F T1) (Z2F 1024) false 4503599627370496 (-42)
              eq_refl Bt1 ltac:(lia)) as [Eb Bb].
  destruct (truediv_const_bounded 33 (Z2F raw) (Z2F 131072) false 4503599627370496 (-35)
              eq_refl Braw ltac:(lia)) as [Ec Bc].
  destruct (truediv_const_bounded 17 (Z2F T1) (Z2F 8192) false 4503599627370496 (-39)
              eq_refl Bt1 ltac:(lia)) as [Ed Bd].
  cbn [Z.add Z.sub Z.opp Z.pos_sub Pos.add Pos.succ Pos.pred_double] in Ba, Bb, Bc, Bd.
  set (a := SFdiv prec emax (Z2F raw) (Z2F 16384)) in *.
  set (b := SFdiv prec emax (Z2F T1) (Z2F 1024)) in *.
  set (c := SFdiv prec emax (Z2F raw) (Z2F 131072)) in *.
  set (d := SFdiv prec emax (Z2F T1) (Z2F 8192)) in *.
  pose proof (fsub_bounded 72 a b Ba (bounded_by_weaken _ 72 _ Bb ltac:(lia)) ltac:(lia))
    as Bab.
  pose proof (fmul_bounded _ _ _ _ Bab Bt2 ltac:(lia)) as Bv1.
  pose proof (fsub_bounded 69 c d Bc (bounded_by_weaken _ 69 _ Bd ltac:(lia)) ltac:(lia))
    as Bcd.
  destruct (pow2_bounded _ _ Bcd ltac:(lia)) as [Esq Bsq].
  pose proof (fmul_bounded _ _ _ _ Bsq Bt3 ltac:(lia)) as Bv2.
  cbn [Z.add Pos.add Pos.succ] in Bab, Bv1, Bcd, Bsq, Bv2.
  set (v1 := fmul (fsub a b) (Z2F T2)) in *.
  set (v2 := fmul (fmul (fsub c d) (fsub c d)) (Z2F T3)) in *.
  pose proof (fadd_bounded 161 v1 v2 (bounded_by_weaken _ 161 _ Bv1 ltac:(lia)) Bv2
                ltac:(lia)) as Bsum.
  cbn [Z.add Pos.add Pos.succ] in Bsum.
  destruct (py_int_bounded _ _ Bsum ltac:(lia)) as (t_fine & Eint & Bt).
  destruct (py_int_Qtrunc _ _ Eint) as (q & Eq & ->).
  destruct (of_int_bounded 163 (Qtrunc q) Bt ltac:(lia)) as [Etf Btf].
  destruct (truediv_const_bounded _ (Z2F (Qtrunc q)) (Z2F 5120) false 5629499534213120 (-40)
              eq_refl Btf ltac:(lia)) as [Etemp Btemp].
  exists (fadd v1 v2), q. repeat split; try assumption.
  - unfold fine_sum, var1, var2. rewrite Eraw, Et1. cbn [bind].
    rewrite Ea, Eb. cbn [bind]. rewrite Et2. cbn [bind].
    rewrite Ec, Ed. cbn [bind]. rewrite Esq. cbn [bind]. rewrite Et3. reflexivity.
  - unfold compensate_temperature. rewrite Eraw, Et1. cbn [bind].
    rewrite Ea, Eb. cbn [bind]. rewrite Et2. cbn [bind].
    rewrite Ec, Ed. cbn [bind]. rewrite Esq. cbn [bind]. rewrite Et3. cbn [bind].
    fold v1 v2. rewrite Eint. cbn [bind]. rewrite Etf. cbn [bind].
    rewrite Etemp. reflexivity.
Qed.

Lemma read_raw_data_range b address :
  byte_bus b ->
  0 <= fst (fst (read_raw_data b address)) < 2 ^ 20 /\
  0 <= snd (fst (read_raw_data b address)) < 2 ^ 20 /\
  0 <= snd (read_raw_data b address) < 2 ^ 16.
Proof.
  intros [_ Hblock].
  destruct (read_i2c_block_data b address BME280_REGISTER_PRESS 8) as [data |] eqn:Hread.
  - destruct (Nat.lt_ge_cases (List.length data) 8) as [Hlen | Hlen].
    + rewrite read_raw_data_short by (rewrite Hread; exact Hlen). cbn. lia.
    + pose proof (Hblock _ _ _ _ Hread) as Hall.
      do 8 (destruct data as [| ? data]; [cbn [List.length] in Hlen; lia |]).
      rewrite (read_raw_data_bytes _ _ _ _ _ _ _ _ _ _ _ Hread).
      * repeat match goal with
               | H : Forall _ (_ :: _) |- _ => inversion H; subst; clear H
               end.
        unfold is_byte in *. cbn [fst snd].
        change (2 ^ 20) with 1048576. change (2 ^ 16) with 65536.
        repeat split; euclid.
      * repeat match goal with
               | H : Forall _ (_ :: _) |- _ => inversion H; subst; clear H
               end.
        repeat (apply Forall_cons; [assumption |]). apply Forall_nil.
  - rewrite read_raw_data_short by (rewrite Hread; exact I). cbn. lia.
Qed.

Lemma calib_T_range b address :
  byte_bus b ->
  let '(t1, t2, t3) := calib_T (read_calibration_data b address) in
  0 <= t1 < 65536 /\ -32768 <= t2 < 32768 /\ -32768 <= t3 < 32768.
Proof.
  intros Hbus.
  destruct (read_byte_data b address BME280_REGISTER_DIG_H1) as [h1 |] eqn:R1;
    [| rewrite calibration_fallback by tauto; cbn; lia].
  destruct (read_byte_data b address (BME280_REGISTER_DIG_H2 + 2)) as [h3 |] eqn:R3;
    [| rewrite calibration_fallback by tauto; cbn; lia].
  destruct (read_byte_data b address (BME280_REGISTER_DIG_H2 + 3)) as [e4 |] eqn:R4;
    [| rewrite calibration_fallback by tauto; cbn; lia].
  destruct (read_byte_data b address (BME280_REGISTER_DIG_H2 + 4)) as [e5 |] eqn:R5;
    [| rewrite calibration_fallback by tauto; cbn; lia].
  destruct (read_byte_data b address (BME280_REGISTER_DIG_H2 + 5)) as [e6 |] eqn:R6;
    [| rewrite calibration_fallback by tauto; cbn; lia].
  destruct (read_byte_data b address (BME280_REGISTER_DIG_H2 + 6)) as [raw6 |] eqn:R7;
    [| rewrite calibration_fallback by tauto; cbn; lia].
  rewrite (read_calibration_data_loaded _ _ _ _ _ _ _ _ R1 R3 R4 R5 R6 R7).
  cbn [calib_T].
  pose proof (read_unsigned_short_range b address BME280_REGISTER_DIG_T1 true Hbus).
  pose proof (read_signed_short_range b address (BME280_REGISTER_DIG_T1 + 2) true Hbus).
  pose proof (read_signed_short_range b address (BME280_REGISTER_DIG_T1 + 4) true Hbus).
  lia.
Qed.

(** X8: with coefficients loaded from a bus that answers in bytes
    (nominal ones included) and a raw code decoded from such a bus,
    [compensate_temperature] never takes its except path: [t_fine] is the
    binary64 sum [var1 + var2] truncated toward zero, the temperature is
    the finite float [t_fine / 5120.0], and the pair is never the
    fallback [(25.0, 0)]. *)
Theorem sampled_temperature_never_falls_back b0 b address address' :
  byte_bus b0 -> byte_bus b ->
  let T := calib_T (read_calibration_data b0 address) in
  let temp_raw := fst (fst (read_raw_data b address')) in
  exists s q,
    fine_sum temp_raw (fst (fst T)) (snd (fst T)) (snd T) = Some s /\
    F2Q s = Some q /\
    compensate_temperature temp_raw T =
      (SFdiv prec emax (Z2F (Qtrunc q)) (Z2F 5120), Qtrunc q) /\
    is_finite (fst (compensate_temperature temp_raw T)) = true /\
    compensate_temperature temp_raw T <> (Z2F 25, 0).
Proof.
  intros Hb0 Hb T temp_raw.
  pose proof (calib_T_range b0 address Hb0) as HT. fold T in HT.
  destruct T as [[t1 t2] t3]. cbn [fst snd].
  pose proof (read_raw_data_range b address' Hb) as (Hraw & _). fold temp_raw in Hraw.
  destruct (compensate_temperature_computes temp_raw t1 t2 t3)
    as (s & q & Hs & Hq & Hbt & Hct & Hbd);
    try (change (2 ^ 32) with 4294967296; change (2 ^ 20) with 1048576 in Hraw;
         change (2 ^ 16) with 65536; change (2 ^ 15) with 32768; lia).
  exists s, q. rewrite Hct. cbn [fst]. repeat split; try assumption.
  - exact (bounded_by_finite _ _ Hbd).
  - intros Heq. injection Heq as Htemp Hzero.
    rewrite Hzero in Htemp. vm_compute in Htemp. discriminate Htemp.
Qed.

Lemma sampled_temperature_example :
  compensate_temperature
    (fst (fst (read_raw_data (constant_bus [0x50; 0x00; 0x00; 0x7E; 0xED; 0x00; 0x6E; 0x10] 0)
                 BME280_ADDRESS)))
    (calib_T (read_calibration_data dead_bus BME280_ADDRESS))
  = (SFdiv prec emax (Z2F 128422) (Z2F 5120), 128422).
Proof.
  destruct (sampled_temperature_never_falls_back dead_bus
              (constant_bus [0x50; 0x00; 0x00; 0x7E; 0xED; 0x00; 0x6E; 0x10] 0)
              BME280_ADDRESS BME280_ADDRESS)
    as (s & q & Hs & Hq & Hct & _).
  - split; intros; discriminate.
  - split.
    + intros a r x H. injection H as <-. unfold is_byte. lia.
    + intros a r n data H. injection H as <-.
      repeat (apply Forall_cons; [unfold is_byte; lia |]). apply Forall_nil.
  - rewrite Hct. vm_compute in Hs. injection Hs as <-.
    vm_compute in Hq. injection Hq as <-. reflexivity.
Defined.

Lemma fmul_zero_r x s :
  is_finite x = true -> exists s', fmul x (S754_zero s) = S754_zero s'.
Proof.
  destruct x; cbn [is_finite]; intros H; try discriminate H; eexists; reflexivity.
Qed.

Lemma fsub_zero_r_finite x :
  is_finite x = true -> is_finite (fsub x (S754_zero false)) = true.
Proof. destruct x as [[] | | |]; cbn [is_finite]; intros H; try discriminate H; reflexivity. Qed.

(** With all three temperature coefficients zero, every raw code gives
    [t_fine = 0] and the temperature [0.0]. *)
Lemma compensate_temperature_zero_coefficients raw :
  0 <= raw < 2 ^ 32 ->
  compensate_temperature raw (0, 0, 0) = (S754_zero false, 0).
Proof.
  intros Hraw.
  destruct (of_int_bounded 32 raw ltac:(lia) ltac:(lia)) as [Eraw Braw].
  cbn [Z.add] in Braw.
  destruct (truediv_const_bounded 33 (Z2F raw) (Z2F 16384) false 4503599627370496 (-38)
              eq_refl Braw ltac:(lia)) as [Ea Ba].
  destruct (truediv_const_bounded 33 (Z2F raw) (Z2F 131072) false 4503599627370496 (-35)
              eq_refl Braw ltac:(lia)) as [Ec Bc].
  cbn [Z.add Z.sub Z.opp Z.pos_sub Pos.add Pos.succ Pos.pred_double] in Ba, Bc.
  set (a := SFdiv prec emax (Z2F raw) (Z2F 16384)) in *.
  set (c := SFdiv prec emax (Z2F raw) (Z2F 131072)) in *.
  assert (E0 : of_int 0 = Some (S754_zero false)) by reflexivity.
  assert (Eb : truediv (S754_zero false) (Z2F 1024) = Some (S754_zero false)) by reflexivity.
  assert (Ed : truediv (S754_zero false) (Z2F 8192) = Some (S754_zero false)) by reflexivity.
  pose proof (fsub_bounded 69 c (S754_zero false) Bc I ltac:(lia)) as Bcd.
  destruct (pow2_bounded _ _ Bcd ltac:(lia)) as [Esq Bsq].
  destruct (fmul_zero_r (fsub a (S754_zero false)) false
              (fsub_zero_r_finite a (bounded_by_finite _ _ Ba))) as [s1 Ev1].
  destruct (fmul_zero_r _ false (bounded_by_finite _ _ Bsq)) as [s2 Ev2].
  unfold compensate_temperature. rewrite Eraw, !E0. cbn [bind].
  rewrite Ea, Eb. cbn [bind]. rewrite Ec, Ed. cbn [bind]. rewrite Esq. cbn [bind].
  rewrite Ev1, Ev2. destruct s1, s2; reflexivity.
Qed.

(** X9: a fault on the two-byte reads is not a calibration failure.  If
    the six single-byte reads succeed while the block reads of T1, T2
    and T3 fault, the loader keeps the humidity bytes it read and
    returns the temperature triple [(0, 0, 0)] in place of the nominal
    one; with it every raw code compensates to [t_fine = 0] and the
    temperature [0.0]. *)
Theorem block_faults_zero_the_temperature b address h1 h3 e4 e5 e6 raw6 :
  read_byte_data b address BME280_REGISTER_DIG_H1 = Some h1 ->
  read_byte_data b address (BME280_REGISTER_DIG_H2 + 2) = Some h3 ->
  read_byte_data b address (BME280_REGISTER_DIG_H2 + 3) = Some e4 ->
  read_byte_data b address (BME280_REGISTER_DIG_H2 + 4) = Some e5 ->
  read_byte_data b address (BME280_REGISTER_DIG_H2 + 5) = Some e6 ->
  read_byte_data b address (BME280_REGISTER_DIG_H2 + 6) = Some raw6 ->
  read_i2c_block_data b address BME280_REGISTER_DIG_T1 2 = None ->
  read_i2c_block_data b address (BME280_REGISTER_DIG_T1 + 2) 2 = None ->
  read_i2c_block_data b address (BME280_REGISTER_DIG_T1 + 4) 2 = None ->
  calib_T (read_calibration_data b address) = (0, 0, 0) /\
  calib_T (read_calibration_data b address) <> calib_T default_calib /\
  (forall raw, 0 <= raw < 2 ^ 32 ->
     compensate_temperature raw (calib_T (read_calibration_data b address))
       = (S754_zero false, 0)).
Proof.
  intros R1 R3 R4 R5 R6 R7 F1 F2 F3.
  assert (HT : calib_T (read_calibration_data b address) = (0, 0, 0)).
  { rewrite (read_calibration_data_loaded _ _ _ _ _ _ _ _ R1 R3 R4 R5 R6 R7).
    cbn [calib_T]. unfold read_unsigned_short, read_signed_short.
    rewrite F1, F2, F3. reflexivity. }
  rewrite HT. split; [reflexivity |]. split; [discriminate |].
  apply compensate_temperature_zero_coefficients.
Qed.

Lemma block_faults_example :
  calib_T (read_calibration_data (byte_only_bus 0x40) BME280_ADDRESS) = (0, 0, 0) /\
  compensate_temperature 519888
    (calib_T (read_calibration_data (byte_only_bus 0x40) BME280_ADDRESS))
    = (S754_zero false, 0).
Proof.
  destruct (block_faults_zero_the_temperature (byte_only_bus 0x40) BME280_ADDRESS
              0x40 0x40 0x40 0x40 0x40 0x40
              eq_refl eq_refl eq_refl eq_refl eq_refl eq_refl eq_refl eq_refl eq_refl)
    as (HT & _ & Hzero).
  split; [exact HT |]. apply Hzero. lia.
Defined.

(** ** Token manager: what success and failure leave behind *)

(** Every way [get_tuya_token] can end, with the state it leaves. *)
Lemma get_tuya_token_detail cfg w s ok s1 :
  get_tuya_token cfg w s = (ok, s1) ->
  (py_int (fmul (clock w (ticks s)) (Z2F 1000)) = None /\
   ok = false /\ s1 = tick s) \/
  (exists t_ms,
     py_int (fmul (clock w (ticks s)) (Z2F 1000)) = Some t_ms /\
     trace s1 = trace s ++ [HttpGet (token_request cfg t_ms)] /\
     sensor_data s1 = sensor_data s /\
     last_tuya_update s1 = last_tuya_update s /\
     ((ok = false /\
       TUYA_ACCESS_TOKEN s1 = TUYA_ACCESS_TOKEN s /\
       TUYA_TOKEN_EXPIRY s1 = TUYA_TOKEN_EXPIRY s /\
       ticks s1 = S (ticks s) /\
       forall body tok,
         http_get w (token_request cfg t_ms) = Response 200 (Some body) ->
         tb_success body = true -> tb_access_token body = Some tok -> False) \/
      (exists body tok,
         http_get w (token_request cfg t_ms) = Response 200 (Some body) /\
         tb_success body = true /\ tb_access_token body = Some tok /\
         TUYA_ACCESS_TOKEN s1 = Some tok /\
         ticks s1 = S (S (ticks s)) /\
         ((ok = false /\
           TUYA_TOKEN_EXPIRY s1 = TUYA_TOKEN_EXPIRY s /\
           (tb_expire_time body = None \/
            exists lifetime,
              tb_expire_time body = Some lifetime /\ of_int lifetime = None)) \/
          (exists lifetime,
             ok = true /\
             tb_expire_time body = Some lifetime /\
             of_int lifetime = Some (Z2F lifetime) /\
             TUYA_TOKEN_EXPIRY s1 =
               fsub (fadd (clock w (S (ticks s))) (Z2F lifetime)) (Z2F 60)))))).
Proof.
  unfold get_tuya_token.
  destruct (py_int (fmul (clock w (ticks s)) (Z2F 1000))) as [t_ms |] eqn:Hms.
  - monad_cbv. rewrite Hms. monad_cbv. fold (token_request cfg t_ms).
    destruct (http_get w (token_request cfg t_ms)) as [| status body] eqn:Hget;
      monad_cbv.
    + intros E; injection E as <- <-. right. exists t_ms.
      cbn [trace sensor_data last_tuya_update TUYA_ACCESS_TOKEN TUYA_TOKEN_EXPIRY ticks].
      repeat split. left. repeat split. intros; congruence.
    + destruct (status =? 200) eqn:Hst; monad_cbv.
      * apply Z.eqb_eq in Hst. subst status.
        destruct body as [body |]; monad_cbv.
        -- destruct (tb_success body) eqn:Hsucc; monad_cbv.
           ++ destruct (tb_access_token body) as [tok |] eqn:Htok; monad_cbv.
              ** destruct (tb_expire_time body) as [lifetime |] eqn:Hexp; monad_cbv.
                 --- destruct (of_int lifetime) as [lf |] eqn:Hof; monad_cbv.
                     +++ intros E; injection E as <- <-. right. exists t_ms.
                         cbn [trace sensor_data last_tuya_update TUYA_ACCESS_TOKEN
                              TUYA_TOKEN_EXPIRY ticks].
                         repeat split. right. exists body, tok. repeat split; try assumption.
                         right. exists lifetime.
                         assert (lf = Z2F lifetime).
                         { unfold of_int in Hof. destruct (is_finite (Z2F lifetime));
                             congruence. }
                         subst lf. repeat split; assumption.
                     +++ intros E; injection E as <- <-. right. exists t_ms.
                         cbn [trace sensor_data last_tuya_update TUYA_ACCESS_TOKEN
                              TUYA_TOKEN_EXPIRY ticks].
                         repeat split. right. exists body, tok. repeat split; try assumption.
                         left. repeat split. right. exists lifetime. split; assumption.
                 --- intros E; injection E as <- <-. right. exists t_ms.
                     cbn [trace sensor_data last_tuya_update TUYA_ACCESS_TOKEN
                          TUYA_TOKEN_EXPIRY ticks].
                     repeat split. right. exists body, tok. repeat split; try assumption.
                     left. repeat split. left. assumption.
              ** intros E; injection E as <- <-. right. exists t_ms.
                 cbn [trace sensor_data last_tuya_update TUYA_ACCESS_TOKEN
                      TUYA_TOKEN_EXPIRY ticks].
                 repeat split. left. repeat split.
                 intros body' tok' Hb _ Ht. rewrite Hget in Hb. injection Hb as <-. congruence.
           ++ intros E; injection E as <- <-. right. exists t_ms.
              cbn [trace sensor_data last_tuya_update TUYA_ACCESS_TOKEN
                   TUYA_TOKEN_EXPIRY ticks].
              repeat split. left. repeat split.
              intros body' tok' Hb Hs _. rewrite Hget in Hb. injection Hb as <-. congruence.
        -- intros E; injection E as <- <-. right. exists t_ms.
           cbn [trace sensor_data last_tuya_update TUYA_ACCESS_TOKEN
                TUYA_TOKEN_EXPIRY ticks].
           repeat split. left. repeat split. intros; congruence.
      * intros E; injection E as <- <-. right. exists t_ms.
        cbn [trace sensor_data last_tuya_update TUYA_ACCESS_TOKEN
             TUYA_TOKEN_EXPIRY ticks].
        repeat split. left. repeat split.
        intros body' tok' Hb _ _. rewrite Hget in Hb. injection Hb as Hs _. rewrite Hs in Hst. discriminate.
  - monad_cbv. rewrite Hms. monad_cbv.
    intros E; injection E as <- <-. left. repeat split.
Qed.

(** X10: [get_tuya_token] reports success only when the cloud answered
    its GET, signed without a token for the millisecond time [t_ms] the
    header [t] carries, with status 200, a true success flag, a token
    and a lifetime.  The token is then stored, with an expiry 60 seconds
    short of the lifetime counted from a second reading of the clock,
    taken after the answer; the reading and the time of the last push
    are left alone. *)
Theorem get_tuya_token_success cfg w s s1 :
  get_tuya_token cfg w s = (true, s1) ->
  exists t_ms body tok lifetime,
    py_int (fmul (clock w (ticks s)) (Z2F 1000)) = Some t_ms /\
    http_get w (token_request cfg t_ms) = Response 200 (Some body) /\
    tb_success body = true /\
    tb_access_token body = Some tok /\
    tb_expire_time body = Some lifetime /\
    TUYA_ACCESS_TOKEN s1 = Some tok /\
    TUYA_TOKEN_EXPIRY s1
      = fsub (fadd (clock w (S (ticks s))) (Z2F lifetime)) (Z2F 60) /\
    ticks s1 = S (S (ticks s)) /\
    trace s1 = trace s ++ [HttpGet (token_request cfg t_ms)] /\
    sensor_data s1 = sensor_data s /\
    last_tuya_update s1 = last_tuya_update s.
Proof.
  intros Hget.
  destruct (get_tuya_token_detail _ _ _ _ _ Hget)
    as [(_ & Hok & _) | (t_ms & Hms & Htr & Hsd & Hlast & Hcases)];
    [discriminate Hok |].
  destruct Hcases as [(Hok & _) | (body & tok & Hrep & Hsucc & Htok & Hset & Hticks & Hend)];
    [discriminate Hok |].
  destruct Hend as [(Hok & _) | (lifetime & _ & Hexp & _ & Hexpiry)];
    [discriminate Hok |].
  exists t_ms, body, tok, lifetime. repeat split; assumption.
Qed.

Lemma get_tuya_token_success_example :
  TUYA_ACCESS_TOKEN (snd (get_tuya_token demo_cfg (cloud_up dead_bus) initial_state))
    = Some "tok"%string /\
  option_map Qred
    (F2Q (TUYA_TOKEN_EXPIRY (snd (get_tuya_token demo_cfg (cloud_up dead_bus) initial_state))))
    = Some (inject_Z (1700000001 + 7200 - 60)).
Proof.
  destruct (get_tuya_token demo_cfg (cloud_up dead_bus) initial_state) as [ok s1] eqn:Hrun.
  assert (Hok : ok = true) by (vm_compute in Hrun; congruence).
  subst ok.
  destruct (get_tuya_token_success _ _ _ _ Hrun)
    as (t_ms & body & tok & lifetime & _ & Hrep & _ & Htok & Hexp & Hset & Hexpiry & _).
  cbn [snd]. cbn [cloud_up http_get] in Hrep. injection Hrep as <-.
  cbn [tb_access_token tb_expire_time] in Htok, Hexp.
  injection Htok as <-. injection Hexp as <-.
  split; [exact Hset |]. rewrite Hexpiry. vm_compute. reflexivity.
Defined.

(** X11: a failed [get_tuya_token] never moves the expiry, the reading
    or the time of the last push, and it leaves the held token alone
    unless the answer was a 200 with a true success flag and a token but
    no usable [expire_time]: then the new token has already been stored,
    under the old expiry, although the call reports failure. *)
Theorem get_tuya_token_failure cfg w s s1 :
  get_tuya_token cfg w s = (false, s1) ->
  TUYA_TOKEN_EXPIRY s1 = TUYA_TOKEN_EXPIRY s /\
  sensor_data s1 = sensor_data s /\
  last_tuya_update s1 = last_tuya_update s /\
  (TUYA_ACCESS_TOKEN s1 = TUYA_ACCESS_TOKEN s \/
   exists t_ms body tok,
     http_get w (token_request cfg t_ms) = Response 200 (Some body) /\
     tb_success body = true /\
     tb_access_token body = Some tok /\
     (tb_expire_time body = None \/
      exists lifetime, tb_expire_time body = Some lifetime /\ of_int lifetime = None) /\
     TUYA_ACCESS_TOKEN s1 = Some tok).
Proof.
  intros Hget.
  destruct (get_tuya_token_detail _ _ _ _ _ Hget)
    as [(_ & _ & ->) | (t_ms & Hms & Htr & Hsd & Hlast & Hcases)].
  - repeat split. left. reflexivity.
  - destruct Hcases as [(_ & Htok & Hexp & _) |
                        (body & tok & Hrep & Hsucc & Htok & Hset & Hticks & Hend)].
    + repeat split; try assumption. left. assumption.
    + destruct Hend as [(_ & Hexp & Hwhy) | (lifetime & Hok & _)]; [| discriminate Hok].
      repeat split; try assumption.
      right. exists t_ms, body, tok. repeat split; assumption.
Qed.

Lemma get_tuya_token_failure_example :
  fst (get_tuya_token demo_cfg (cloud_no_expiry dead_bus) expired_state) = false /\
  TUYA_ACCESS_TOKEN (snd (get_tuya_token demo_cfg (cloud_no_expiry dead_bus) expired_state))
    = Some "tok"%string /\
  TUYA_TOKEN_EXPIRY (snd (get_tuya_token demo_cfg (cloud_no_expiry dead_bus) expired_state))
    = Z2F 1600000000 /\
  TUYA_ACCESS_TOKEN (snd (get_tuya_token demo_cfg (cloud_down dead_bus) expired_state))
    = Some "old"%string.
Proof.
  destruct (get_tuya_token demo_cfg (cloud_no_expiry dead_bus) expired_state)
    as [ok s1] eqn:Hrun.
  assert (Hok : ok = false) by (vm_compute in Hrun; congruence).
  subst ok. cbn [fst snd].
  destruct (get_tuya_token_failure _ _ _ _ Hrun) as (Hexp & _ & _ & _).
  split; [reflexivity |]. split; [| split].
  - vm_compute in Hrun. injection Hrun as <-. reflexivity.
  - rewrite Hexp. reflexivity.
  - vm_compute. reflexivity.
Defined.

(** ** Cloud sync: what is sent, and when success is reported *)

(** Every way the push attempt can end. *)
Lemma push_attempt_detail cfg w t h hi s sent s' :
  catch (push_attempt cfg w t h hi) false s = (sent, s') ->
  TUYA_ACCESS_TOKEN s' = TUYA_ACCESS_TOKEN s /\
  TUYA_TOKEN_EXPIRY s' = TUYA_TOKEN_EXPIRY s /\
  sensor_data s' = sensor_data s /\
  last_tuya_update s' = last_tuya_update s /\
  ticks s' = S (ticks s) /\
  ((sent = false /\ trace s' = trace s /\
    (py_int (fmul (clock w (ticks s)) (Z2F 1000)) = None \/
     py_int (fmul t (Z2F 10)) = None \/
     py_int (fmul h (Z2F 10)) = None \/
     py_int (fmul hi (Z2F 10)) = None)) \/
   (exists t_ms vt vh vi,
      py_int (fmul (clock w (ticks s)) (Z2F 1000)) = Some t_ms /\
      py_int (fmul t (Z2F 10)) = Some vt /\
      py_int (fmul h (Z2F 10)) = Some vh /\
      py_int (fmul hi (Z2F 10)) = Some vi /\
      trace s' =
        trace s ++ [HttpPost (push_request cfg t_ms (TUYA_ACCESS_TOKEN s) vt vh vi)] /\
      sent = acknowledged
               (http_post w (push_request cfg t_ms (TUYA_ACCESS_TOKEN s) vt vh vi)))).
Proof.
  unfold push_attempt.
  destruct (py_int (fmul (clock w (ticks s)) (Z2F 1000))) as [t_ms |] eqn:Hms;
    [| monad_cbv; rewrite Hms; monad_cbv; intros E; injection E as <- <-;
       repeat split; left; repeat split; tauto].
  destruct (py_int (fmul t (Z2F 10))) as [vt |] eqn:Ht;
    [| monad_cbv; rewrite Hms; monad_cbv; intros E; injection E as <- <-;
       repeat split; left; repeat split; tauto].
  destruct (py_int (fmul h (Z2F 10))) as [vh |] eqn:Hh;
    [| monad_cbv; rewrite Hms; monad_cbv; intros E; injection E as <- <-;
       repeat split; left; repeat split; tauto].
  destruct (py_int (fmul hi (Z2F 10))) as [vi |] eqn:Hhi;
    [| monad_cbv; rewrite Hms; monad_cbv; intros E; injection E as <- <-;
       repeat split; left; repeat split; tauto].
  monad_cbv. rewrite Hms. monad_cbv.
  fold (push_request cfg t_ms (TUYA_ACCESS_TOKEN s) vt vh vi).
  destruct (http_post w (push_request cfg t_ms (TUYA_ACCESS_TOKEN s) vt vh vi))
    as [| status body] eqn:Hpost; monad_cbv.
  - intros E; injection E as <- <-. repeat split. right.
    exists t_ms, vt, vh, vi. rewrite Hpost. repeat split.
  - destruct (status =? 200) eqn:Hst; monad_cbv.
    + destruct body as [[|] |]; monad_cbv;
        intros E; injection E as <- <-; repeat split; right;
        exists t_ms, vt, vh, vi; rewrite Hpost; cbn [acknowledged]; rewrite ?Hst;
        repeat split.
    + intros E; injection E as <- <-. repeat split. right.
      exists t_ms, vt, vh, vi. rewrite Hpost. cbn [acknowledged]. rewrite Hst.
      destruct body as [[|] |]; repeat split.
Qed.

(** Every way [send_to_tuya] can end, in terms of its two halves. *)
Lemma send_to_tuya_halves cfg w t h hi s :
  (stale w s = true /\
   fst (get_tuya_token cfg w (refresh_point s)) = false /\
   send_to_tuya cfg w t h hi s = (false, snd (get_tuya_token cfg w (refresh_point s)))) \/
  (exists s0,
     ((stale w s = true /\
       get_tuya_token cfg w (refresh_point s) = (true, s0)) \/
      (stale w s = false /\ s0 = tick s)) /\
     send_to_tuya cfg w t h hi s = catch (push_attempt cfg w t h hi) false s0).
Proof.
  destruct (stale w s) eqn:Hstale.
  - rewrite (send_to_tuya_when_stale _ _ _ _ _ _ Hstale).
    destruct (get_tuya_token cfg w (refresh_point s)) as [[|] s0] eqn:Hget.
    + right. exists s0. split; [left; split; reflexivity | reflexivity].
    + left. repeat split.
  - right. exists (tick s). split; [right; split; reflexivity |].
    apply send_to_tuya_when_fresh. assumption.
Qed.

(** Every way [send_to_tuya] can end: the requests it sent, what it
    returned and what it left in the globals. *)
Lemma send_to_tuya_detail cfg w t h hi s sent s' :
  send_to_tuya cfg w t h hi s = (sent, s') ->
  exists refresh,
    (refresh = [] \/ exists g, refresh = [HttpGet g]) /\
    (stale w s = false -> refresh = [] /\
       TUYA_ACCESS_TOKEN s' = TUYA_ACCESS_TOKEN s /\
       TUYA_TOKEN_EXPIRY s' = TUYA_TOKEN_EXPIRY s /\
       ticks s' = S (S (ticks s))) /\
    sensor_data s' = sensor_data s /\
    last_tuya_update s' = last_tuya_update s /\
    ((sent = false /\ trace s' = trace s ++ refresh) \/
     (exists t_ms vt vh vi,
        py_int (fmul (clock w (pred (ticks s'))) (Z2F 1000)) = Some t_ms /\
        py_int (fmul t (Z2F 10)) = Some vt /\
        py_int (fmul h (Z2F 10)) = Some vh /\
        py_int (fmul hi (Z2F 10)) = Some vi /\
        trace s' =
          trace s ++ refresh ++
          [HttpPost (push_request cfg t_ms (TUYA_ACCESS_TOKEN s') vt vh vi)] /\
        sent = acknowledged
                 (http_post w (push_request cfg t_ms (TUYA_ACCESS_TOKEN s') vt vh vi)))).
Proof.
  intros Hsend.
  destruct (send_to_tuya_halves cfg w t h hi s)
    as [(Hstale & Hfail & Heq) | (s0 & Hstart & Heq)].
  - rewrite Heq in Hsend. injection Hsend as <- <-.
    destruct (get_tuya_token cfg w (refresh_point s)) as [ok s1] eqn:Hget.
    cbn [fst snd] in *. subst ok.
    destruct (get_tuya_token_outcome _ _ _ _ _ Hget)
      as (refresh & Htr & Hshape & _ & Hsd & Hlast).
    destruct (refresh_point_frame s) as (Ftr & Fsd & Flast).
    exists refresh. split; [exact Hshape |]. split; [congruence |].
    split; [congruence |]. split; [congruence |].
    left. split; [reflexivity | congruence].
  - rewrite Heq in Hsend.
    destruct (push_attempt_detail _ _ _ _ _ _ _ _ Hsend)
      as (Ptok & Pexp & Psd & Plast & Pticks & Pcases).
    assert (Hpre : exists refresh,
               (refresh = [] \/ exists g, refresh = [HttpGet g]) /\
               trace s0 = trace s ++ refresh /\
               sensor_data s0 = sensor_data s /\
               last_tuya_update s0 = last_tuya_update s /\
               (stale w s = false -> refresh = [] /\
                  TUYA_ACCESS_TOKEN s0 = TUYA_ACCESS_TOKEN s /\
                  TUYA_TOKEN_EXPIRY s0 = TUYA_TOKEN_EXPIRY s /\
                  ticks s0 = S (ticks s))).
    { destruct Hstart as [(Hstale & Hget) | (Hstale & ->)].
      - destruct (get_tuya_token_outcome _ _ _ _ _ Hget)
          as (refresh & Htr & Hshape & _ & Hsd & Hlast).
        destruct (refresh_point_frame s) as (Ftr & Fsd & Flast).
        exists refresh. repeat split; try congruence.
      - exists []. rewrite app_nil_r. repeat split. left. reflexivity. }
    destruct Hpre as (refresh & Hshape & Htr0 & Hsd0 & Hlast0 & Hfresh).
    exists refresh. split; [exact Hshape |]. split.
    { intros Hst. destruct (Hfresh Hst) as (-> & Htok & Hexp & Hticks).
      repeat split; congruence. }
    split; [congruence |]. split; [congruence |].
    destruct Pcases as [(-> & Ptr & _) | (t_ms & vt & vh & vi & Hms & Ht & Hh & Hhi & Ptr & Hack)].
    + left. split; [reflexivity | congruence].
    + right. exists t_ms, vt, vh, vi.
      rewrite Pticks. cbn [pred]. rewrite Ptok.
      repeat split; try assumption.
      rewrite Ptr, Htr0, <- app_assoc. reflexivity.
Qed.

(** X12: with a valid token held (non-empty, not yet expired on the
    clock), [send_to_tuya] does not refresh: it sends no GET, leaves token
    and expiry as they are, reads the clock exactly twice and sends at
    most one POST. *)
Theorem send_to_tuya_with_valid_token cfg w t h hi s :
  stale w s = false ->
  let s' := snd (send_to_tuya cfg w t h hi s) in
  gets (events_of (send_to_tuya cfg w t h hi) s) = 0%nat /\
  (posts (events_of (send_to_tuya cfg w t h hi) s) <= 1)%nat /\
  TUYA_ACCESS_TOKEN s' = TUYA_ACCESS_TOKEN s /\
  TUYA_TOKEN_EXPIRY s' = TUYA_TOKEN_EXPIRY s /\
  ticks s' = S (S (ticks s)).
Proof.
  intros Hstale s'. subst s'.
  destruct (send_to_tuya cfg w t h hi s) as [sent s'] eqn:Hsend.
  destruct (send_to_tuya_detail _ _ _ _ _ _ _ _ Hsend)
    as (refresh & _ & Hfresh & _ & _ & Hcases).
  destruct (Hfresh Hstale) as (-> & Htok & Hexp & Hticks).
  cbn [snd].
  assert (Hev : exists evs, events_of (send_to_tuya cfg w t h hi) s = evs /\
                  (evs = [] \/ exists r, evs = [HttpPost r])).
  { destruct Hcases as [(_ & Htr) | (t_ms & vt & vh & vi & _ & _ & _ & _ & Htr & _)].
    - exists []. split; [| left; reflexivity].
      apply events_of_app. rewrite Hsend. exact Htr.
    - eexists. split; [| right; eexists; reflexivity].
      apply events_of_app. rewrite Hsend. exact Htr. }
  destruct Hev as (evs & -> & [-> | [r ->]]); repeat split; try assumption; cbn; lia.
Qed.

Lemma send_to_tuya_with_valid_token_example :
  map is_post (events_of (send_to_tuya demo_cfg (cloud_up dead_bus)
                            (Z2F 25) (Z2F 50) (Z2F 25)) fresh_state) = [true] /\
  TUYA_ACCESS_TOKEN (snd (send_to_tuya demo_cfg (cloud_up dead_bus)
                            (Z2F 25) (Z2F 50) (Z2F 25) fresh_state)) = Some "tok"%string.
Proof.
  pose proof (send_to_tuya_with_valid_token demo_cfg (cloud_up dead_bus)
                (Z2F 25) (Z2F 50) (Z2F 25) fresh_state eq_refl) as H.
  cbv zeta in H. destruct H as (_ & _ & Htok & _).
  split; [vm_compute; reflexivity | rewrite Htok; reflexivity].
Defined.

(** X13: [send_to_tuya] returns [True] exactly when it sent a POST that
    the cloud answered with status 200 and a true success flag; a fault,
    another status, an undecodable body or a false flag all give
    [False]. *)
Theorem send_to_tuya_true_iff_acknowledged cfg w t h hi s :
  fst (send_to_tuya cfg w t h hi s) = true <->
  exists r,
    emits (send_to_tuya cfg w t h hi) s (HttpPost r) /\
    acknowledged (http_post w r) = true.
Proof.
  destruct (send_to_tuya cfg w t h hi s) as [sent s'] eqn:Hsend.
  destruct (send_to_tuya_detail _ _ _ _ _ _ _ _ Hsend)
    as (refresh & Hshape & _ & _ & _ & Hcases).
  unfold emits. rewrite Hsend. cbn [fst snd]. split.
  - intros ->.
    destruct Hcases as [(Hfalse & _) | (t_ms & vt & vh & vi & _ & _ & _ & _ & Htr & Hack)];
      [discriminate Hfalse |].
    eexists. split; [exists refresh, []; exact Htr | symmetry; exact Hack].
  - intros (r & (before & after & Hemit) & Hack).
    destruct Hcases as [(_ & Htr) | (t_ms & vt & vh & vi & _ & _ & _ & _ & Htr & Hsent)].
    + rewrite Htr in Hemit. apply app_inv_head in Hemit.
      assert (Hin : In (HttpPost r) refresh)
        by (rewrite Hemit; apply in_or_app; right; left; reflexivity).
      destruct Hshape as [-> | [g ->]]; [destruct Hin |].
      destruct Hin as [Hin | []]. discriminate Hin.
    + rewrite Htr in Hemit. apply app_inv_head in Hemit.
      assert (Hin : In (HttpPost r)
                      (refresh ++ [HttpPost (push_request cfg t_ms (TUYA_ACCESS_TOKEN s')
                                               vt vh vi)]))
        by (rewrite Hemit; apply in_or_app; right; left; reflexivity).
      apply in_app_or in Hin. destruct Hin as [Hin | [Hin | []]].
      * destruct Hshape as [-> | [g ->]]; [destruct Hin |].
        destruct Hin as [Hin | []]. discriminate Hin.
      * injection Hin as <-. rewrite Hsent. exact Hack.
Qed.

(** X14: every POST that [send_to_tuya] sends goes to the commands URL of
    the configured device and carries, in this order, the client id, the
    token held when the call returns, the signing method, the millisecond
    time [t_ms] in decimal and the signature of exactly that client id,
    token and [t_ms] under the client secret. *)
Theorem pushed_request_is_signed cfg w t h hi s r :
  emits (send_to_tuya cfg w t h hi) s (HttpPost r) ->
  let token := TUYA_ACCESS_TOKEN (snd (send_to_tuya cfg w t h hi s)) in
  exists t_ms,
    req_url r
      = (TUYA_ENDPOINT ++ "/v1.0/devices/" ++ TUYA_DEVICE_ID cfg ++ "/commands")%string /\
    req_headers r =
      [("client_id", TUYA_CLIENT_ID cfg);
       ("access_token", text token);
       ("sign_method", "HMAC-SHA256");
       ("t", str t_ms);
       ("sign",
        generate_signature (TUYA_CLIENT_ID cfg) (TUYA_CLIENT_SECRET cfg) t_ms token)]%string.
Proof.
  intros (before & after & Hemit) token. subst token.
  destruct (send_to_tuya cfg w t h hi s) as [sent s'] eqn:Hsend.
  destruct (send_to_tuya_detail _ _ _ _ _ _ _ _ Hsend)
    as (refresh & Hshape & _ & _ & _ & Hcases).
  cbn [snd] in *.
  assert (Hin : In (HttpPost r) (before ++ HttpPost r :: after))
    by (apply in_or_app; right; left; reflexivity).
  destruct Hcases as [(_ & Htr) | (t_ms & vt & vh & vi & _ & _ & _ & _ & Htr & _)];
    rewrite Htr in Hemit; apply app_inv_head in Hemit; rewrite <- Hemit in Hin.
  - destruct Hshape as [-> | [g ->]]; [destruct Hin |].
    destruct Hin as [Hin | []]. discriminate Hin.
  - apply in_app_or in Hin. destruct Hin as [Hin | [Hin | []]].
    + destruct Hshape as [-> | [g ->]]; [destruct Hin |].
      destruct Hin as [Hin | []]. discriminate Hin.
    + injection Hin as <-. exists t_ms. split; reflexivity.
Qed.

Lemma send_to_tuya_push_emitted :
  exists r,
    emits (send_to_tuya demo_cfg (cloud_up dead_bus) (Z2F 25) (Z2F 50) (Z2F 25))
      initial_state (HttpPost r).
Proof. eexists. unfold emits. eexists [_]. exists []. vm_compute. reflexivity. Defined.

Lemma send_to_tuya_true_example :
  fst (send_to_tuya demo_cfg (cloud_up dead_bus) (Z2F 25) (Z2F 50) (Z2F 25)
         initial_state) = true.
Proof.
  apply (proj2 (send_to_tuya_true_iff_acknowledged demo_cfg (cloud_up dead_bus)
                  (Z2F 25) (Z2F 50) (Z2F 25) initial_state)).
  destruct send_to_tuya_push_emitted as [r Hr]. exists r. split; [exact Hr | reflexivity].
Defined.

Lemma pushed_request_is_signed_example :
  exists r,
    emits (send_to_tuya demo_cfg (cloud_up dead_bus) (Z2F 25) (Z2F 50) (Z2F 25))
      initial_state (HttpPost r) /\
    nth_error (req_headers r) 1 = Some ("access_token", "tok")%string.
Proof.
  destruct send_to_tuya_push_emitted as [r Hr]. exists r. split; [exact Hr |].
  destruct (pushed_request_is_signed _ _ _ _ _ _ _ Hr) as (t_ms & _ & Hh).
  rewrite Hh. cbn [nth_error]. vm_compute. reflexivity.
Defined.

Lemma py_int_times_ten_non_finite x :
  is_finite x = false -> py_int (fmul x (Z2F 10)) = None.
Proof. destruct x; cbn [is_finite]; intros H; try discriminate H; reflexivity. Qed.

(** X15: a reading with a NaN or infinite metric is never pushed:
    [int(metric * 10)] raises, so [send_to_tuya] returns [False] without
    sending a POST (a token refresh may already have gone out), and the
    globals other than the token are left alone. *)
Theorem non_finite_metric_is_not_pushed cfg w t h hi s :
  is_finite t && is_finite h && is_finite hi = false ->
  fst (send_to_tuya cfg w t h hi s) = false /\
  posts (events_of (send_to_tuya cfg w t h hi) s) = 0%nat /\
  sensor_data (snd (send_to_tuya cfg w t h hi s)) = sensor_data s /\
  last_tuya_update (snd (send_to_tuya cfg w t h hi s)) = last_tuya_update s.
Proof.
  intros Hnf.
  destruct (send_to_tuya cfg w t h hi s) as [sent s'] eqn:Hsend.
  destruct (send_to_tuya_detail _ _ _ _ _ _ _ _ Hsend)
    as (refresh & Hshape & _ & Hsd & Hlast & Hcases).
  cbn [fst snd].
  destruct Hcases as [(-> & Htr) | (t_ms & vt & vh & vi & _ & Ht & Hh & Hhi & _)].
  - repeat split; try assumption.
    rewrite (events_of_app (send_to_tuya cfg w t h hi) s refresh)
      by (rewrite Hsend; exact Htr).
    destruct Hshape as [-> | [g ->]]; reflexivity.
  - exfalso.
    destruct (is_finite t) eqn:Ft;
      [| rewrite (py_int_times_ten_non_finite _ Ft) in Ht; discriminate Ht].
    destruct (is_finite h) eqn:Fh;
      [| rewrite (py_int_times_ten_non_finite _ Fh) in Hh; discriminate Hh].
    destruct (is_finite hi) eqn:Fhi;
      [| rewrite (py_int_times_ten_non_finite _ Fhi) in Hhi; discriminate Hhi].
    discriminate Hnf.
Qed.

Lemma non_finite_metric_example :
  fst (send_to_tuya demo_cfg (cloud_up dead_bus) (Z2F 25) S754_nan (Z2F 25)
         fresh_state) = false /\
  events_of (send_to_tuya demo_cfg (cloud_up dead_bus) (Z2F 25) S754_nan (Z2F 25))
    fresh_state = [].
Proof.
  destruct (non_finite_metric_is_not_pushed demo_cfg (cloud_up dead_bus)
              (Z2F 25) S754_nan (Z2F 25) fresh_state eq_refl) as (Hf & _).
  split; [exact Hf | vm_compute; reflexivity].
Defined.

(** ** Acquisition loop: throttle, invariant, request budget *)

(** X16: the periodic push never raises, and it moves [last_tuya_update]
    only when the push was due and [send_to_tuya] sent a POST the cloud
    acknowledged: then to the clock reading taken before the push began,
    not to the time of the acknowledgement.  When fewer than 300 seconds
    have elapsed (or the difference is NaN) it only reads the clock. *)
Theorem last_update_moves_only_on_acknowledged_push cfg w t h hi s :
  let now := clock w (ticks s) in
  let due := fle (Z2F tuya_update_interval) (fsub now (last_tuya_update s)) in
  let s' := snd (push_if_due cfg w t h hi s) in
  fst (push_if_due cfg w t h hi s) = Some tt /\
  sensor_data s' = sensor_data s /\
  (due = false -> s' = tick s) /\
  (last_tuya_update s' = last_tuya_update s \/
   (due = true /\
    last_tuya_update s' = now /\
    exists r,
      emits (send_to_tuya cfg w t h hi) (tick s) (HttpPost r) /\
      acknowledged (http_post w r) = true)).
Proof.
  intros now due s'. subst now due s'.
  destruct (push_if_due_outcome cfg w t h hi s) as (s' & Hrun & Hsd & Hcases).
  rewrite Hrun. cbn [fst snd]. split; [reflexivity |]. split; [exact Hsd |].
  destruct Hcases as [(-> & Hnot) | (Hdue & ->)].
  - split; [reflexivity |]. left. reflexivity.
  - split; [rewrite Hdue; discriminate |].
    destruct (send_to_tuya cfg w t h hi (tick s)) as [sent s1] eqn:Hsend.
    destruct (send_to_tuya_detail _ _ _ _ _ _ _ _ Hsend)
      as (refresh & Hshape & _ & _ & Hlast & Hcases).
    cbn [fst snd]. destruct sent.
    + right. split; [exact Hdue |]. split; [reflexivity |].
      destruct Hcases as [(Hfalse & _) | (t_ms & vt & vh & vi & _ & _ & _ & _ & Htr & Hack)];
        [discriminate Hfalse |].
      eexists. split; [| symmetry; exact Hack].
      unfold emits. rewrite Hsend. cbn [snd]. exists refresh, []. exact Htr.
    + left. exact Hlast.
Qed.

Lemma compensate_humidity_in_percent raw_hum calib_H t_fine :
  percent (compensate_humidity raw_hum calib_H t_fine).
Proof.
  destruct calib_H as [[[[[dig_H1 dig_H2] dig_H3] dig_H4] dig_H5] dig_H6].
  unfold compensate_humidity.
  destruct (of_int t_fine) as [tf |]; cbn [bind try_except];
    [| apply percent_fifty].
  destruct (negb (feq (fsub tf (Z2F 76800)) (S754_zero false)));
    [| apply percent_zero].
  step_binds; first [apply clamp_percent | apply percent_fifty].
Qed.

Lemma heat_index_pass_through t h :
  flt t (Z2F 26) = true -> calculate_heat_index t h = t.
Proof. intros Hlt. unfold calculate_heat_index. rewrite Hlt. reflexivity. Qed.

(** One pass through the loop body: it never raises, and either skips
    with a one-second sleep or publishes a well-formed reading, pushes if
    due and sleeps two seconds. *)
Lemma loop_body_outcome cfg calib w s :
  exists s' evs,
    loop_body cfg calib w s = (Some tt, s') /\
    trace s' = trace s ++ evs /\
    ((evs = [Sleep 1000] /\ sensor_data s' = sensor_data s /\
      last_tuya_update s' = last_tuya_update s) \/
     (exists http t h hi,
        evs = http ++ [Sleep 2000] /\
        (gets http <= 1)%nat /\ (posts http <= 1)%nat /\
        sensor_data s' =
          {| temperature := Some t; humidity := Some h; heat_index := Some hi |} /\
        percent h /\ (flt t (Z2F 26) = true -> hi = t))).
Proof.
  unfold loop_body.
  destruct (read_raw_data (bus w) BME280_ADDRESS) as [[temp_raw press_raw] hum_raw].
  destruct (in_pair temp_raw 524288 1048575 || in_pair hum_raw 32768 65535).
  - eexists. exists [Sleep 1000]. split; [reflexivity |]. split; [reflexivity |].
    left. repeat split.
  - destruct (compensate_temperature temp_raw (calib_T calib)) as [t t_fine].
    set (h := compensate_humidity hum_raw (calib_H calib) t_fine).
    set (hi := calculate_heat_index t h).
    cbv beta iota delta [bindM update].
    destruct (push_if_due_outcome cfg w t h hi
                (set_sensor_data
                   {| temperature := Some t; humidity := Some h; heat_index := Some hi |} s))
      as (s1 & Hrun & Hsd & Hcases).
    rewrite Hrun. cbv beta iota delta [time_sleep emit update].
    assert (Hev : exists http, trace s1 = trace s ++ http /\
                    (gets http <= 1)%nat /\ (posts http <= 1)%nat).
    { destruct Hcases as [[-> _] | [_ ->]].
      - exists []. rewrite app_nil_r. repeat split; cbn; lia.
      - destruct (send_to_tuya cfg w t h hi _) as [sent s2] eqn:Hsend.
        destruct (send_to_tuya_outcome _ _ _ _ _ _ _ _ Hsend)
          as (refresh & push & Htr & Hr & Hp & _).
        exists (refresh ++ push). cbn [fst snd].
        split; [destruct sent; cbn [set_last_tuya_update trace]; exact Htr |].
        unfold gets, posts. rewrite !filter_app, !length_app.
        destruct Hr as [-> | [g ->]];
          destruct Hp as [-> | (r & ? & ? & ? & -> & _)]; cbn; lia. }
    destruct Hev as (http & Htr & Hg & Hp).
    eexists. exists (http ++ [Sleep 2000]). split; [reflexivity |].
    cbn [trace sensor_data]. split; [rewrite Htr, app_assoc; reflexivity |].
    right. exists http, t, h, hi.
    split; [reflexivity |]. split; [exact Hg |]. split; [exact Hp |].
    split; [rewrite Hsd; reflexivity |].
    split; [apply compensate_humidity_in_percent |].
    intros Hlt. apply heat_index_pass_through. assumption.
Qed.

Lemma sampling_outcome cfg calib cycles : forall s,
  exists s' evs,
    sampling cfg calib cycles s = (Some tt, s') /\
    (reading_ok (sensor_data s) -> reading_ok (sensor_data s')) /\
    trace s' = trace s ++ evs /\
    (gets evs <= List.length cycles)%nat /\
    (posts evs <= List.length cycles)%nat.
Proof.
  induction cycles as [| w rest IH]; intros s.
  - exists s, []. rewrite app_nil_r. repeat split; try tauto; cbn; lia.
  - cbn [sampling]. unfold bindM at 1.
    destruct (loop_body_outcome cfg calib w s) as (s1 & evs1 & Hrun & Htr1 & Hcases).
    rewrite Hrun.
    assert (Hok1 : reading_ok (sensor_data s) -> reading_ok (sensor_data s1)).
    { intros Hok.
      destruct Hcases as [(_ & -> & _) | (http & t & h & hi & _ & _ & _ & -> & Hp & Hhi)].
      - exact Hok.
      - cbn. split; assumption. }
    assert (Hcount : (gets evs1 <= 1)%nat /\ (posts evs1 <= 1)%nat).
    { destruct Hcases as [(-> & _) | (http & t & h & hi & -> & Hg & Hp & _)].
      - cbn. lia.
      - unfold gets, posts in *. rewrite !filter_app, !length_app. cbn. lia. }
    destruct (IH s1) as (s' & evs & Hrest & Hok' & Htr & Hg & Hp).
    exists s', (evs1 ++ evs). split; [exact Hrest |]. split; [tauto |].
    split; [rewrite Htr, Htr1, app_assoc; reflexivity |].
    unfold gets, posts in *. rewrite !filter_app, !length_app. cbn [List.length]. lia.
Qed.

(** X17: the loop keeps the dictionary well formed.  From a state whose
    dictionary is all-[None] or a full reading with the humidity in
    [0.0, 100.0] and the heat index equal to every temperature below
    [26.0], any number of passes ends, without raising, in such a state
    again. *)
Theorem sampling_keeps_reading_well_formed cfg calib cycles s :
  reading_ok (sensor_data s) ->
  fst (sampling cfg calib cycles s) = Some tt /\
  reading_ok (sensor_data (snd (sampling cfg calib cycles s))).
Proof.
  intros Hok.
  destruct (sampling_outcome cfg calib cycles s) as (s' & evs & Hrun & Hok' & _).
  rewrite Hrun. split; [reflexivity | exact (Hok' Hok)].
Qed.

Lemma sampling_keeps_reading_example :
  reading_ok
    (sensor_data
       (snd (sampling demo_cfg default_calib
               [cloud_up (constant_bus sentinel_burst 0); cloud_down dead_bus;
                cloud_up (constant_bus sentinel_burst 0)]
               initial_state))) /\
  temperature
    (sensor_data
       (snd (sampling demo_cfg default_calib
               [cloud_up (constant_bus sentinel_burst 0); cloud_down dead_bus;
                cloud_up (constant_bus sentinel_burst 0)]
               initial_state))) <> None.
Proof.
  split.
  - apply (sampling_keeps_reading_well_formed demo_cfg default_calib
             [cloud_up (constant_bus sentinel_burst 0); cloud_down dead_bus;
              cloud_up (constant_bus sentinel_burst 0)] initial_state).
    exact I.
  - vm_compute. discriminate.
Defined.

(** X18: the loop sends at most one token request and at most one push
    per pass: over any number of passes, from any state, the GETs and
    the POSTs each number no more than the passes. *)
Theorem sampling_request_budget cfg calib cycles s :
  (gets (events_of (sampling cfg calib cycles) s) <= List.length cycles)%nat /\
  (posts (events_of (sampling cfg calib cycles) s) <= List.length cycles)%nat.
Proof.
  destruct (sampling_outcome cfg calib cycles s)
    as (s' & evs & Hrun & _ & Htr & Hg & Hp).
  rewrite (events_of_app (sampling cfg calib cycles) s evs)
    by (rewrite Hrun; exact Htr).
  split; assumption.
Qed.

Lemma sampling_request_budget_example :
  (gets (events_of (sampling demo_cfg default_calib
                      [cloud_up dead_bus; cloud_up dead_bus]) initial_state) <= 2)%nat /\
  map is_post (events_of (sampling demo_cfg default_calib
                            [cloud_up dead_bus; cloud_up dead_bus]) initial_state)
    = [false; true; false; false].
Proof.
  split.
  - apply (sampling_request_budget demo_cfg default_calib
             [cloud_up dead_bus; cloud_up dead_bus] initial_state).
  - vm_compute. reflexivity.
Defined.

(** ** Sensor initialisation and the acquisition thread *)

Lemma skipn_own_length {A : Type} (l r : list A) :
  skipn (List.length l) (l ++ r) = r.
Proof.
  rewrite skipn_app, skipn_all, Nat.sub_diag. reflexivity.
Qed.

Ltac init_fails :=
  cbn [fst snd trace sensor_data last_tuya_update TUYA_ACCESS_TOKEN];
  rewrite <- ?app_assoc, ?skipn_own_length, ?skipn_all;
  repeat split;
  intros Hc; exfalso; apply (Hc 96%Z); reflexivity.

(** Every way [bme280_init] can end. *)
Lemma bme280_init_outcome b address s :
  (read_byte_data b address BME280_REGISTER_CHIPID = Some 0x60 /\
   writes_succeed b address /\
   bme280_init b address s =
     (true, snd (time_sleep 500 (snd (time_sleep 100 (snd (time_sleep 500 s))))))) \/
  (~ (read_byte_data b address BME280_REGISTER_CHIPID = Some 0x60 /\
      writes_succeed b address) /\
   fst (bme280_init b address s) = false /\
   sensor_data (snd (bme280_init b address s)) = sensor_data s /\
   last_tuya_update (snd (bme280_init b address s)) = last_tuya_update s /\
   TUYA_ACCESS_TOKEN (snd (bme280_init b address s)) = TUYA_ACCESS_TOKEN s /\
   gets (events_of (bme280_init b address) s) = 0%nat /\
   posts (events_of (bme280_init b address) s) = 0%nat /\
   ((forall c, read_byte_data b address BME280_REGISTER_CHIPID = Some c -> c <> 0x60) ->
    bme280_init b address s = (false, s))).
Proof.
  unfold bme280_init, writes_succeed, events_of.
  destruct (read_byte_data b address BME280_REGISTER_CHIPID) as [c |] eqn:Hid;
    [| right; monad_cbv; split; [intros [H _]; discriminate H |];
       rewrite ?skipn_all; repeat split].
  destruct (Z.eqb_spec c 0x60) as [-> | Hne];
    [| right; monad_cbv; rewrite (proj2 (Z.eqb_neq c 96) Hne); cbn [negb];
       split; [intros [H _]; congruence |]; rewrite ?skipn_all; repeat split].
  monad_cbv. cbn [Z.eqb Pos.eqb negb].
  destruct (write_byte_data b address 224 182) as [[] |] eqn:W1; monad_cbv.
  2:{ right. split; [intros (_ & H & _); discriminate H |]. init_fails. }
  destruct (write_byte_data b address BME280_REGISTER_CTRL_HUM 1) as [[] |] eqn:W2;
    monad_cbv.
  2:{ right. split; [intros (_ & _ & H & _); discriminate H |]. init_fails. }
  destruct (write_byte_data b address BME280_REGISTER_CTRL_MEAS 35) as [[] |] eqn:W3;
    monad_cbv.
  2:{ right. split; [intros (_ & _ & _ & H & _); discriminate H |]. init_fails. }
  destruct (write_byte_data b address BME280_REGISTER_CONFIG 0) as [[] |] eqn:W4;
    monad_cbv.
  2:{ right. split; [intros (_ & _ & _ & _ & H); discriminate H |]. init_fails. }
  left. repeat split.
Qed.

Lemma init_sleeps_trace s :
  trace (snd (time_sleep 500 (snd (time_sleep 100 (snd (time_sleep 500 s))))))
    = trace s ++ [Sleep 500; Sleep 100; Sleep 500].
Proof.
  unfold time_sleep, emit, update. cbn [snd trace].
  rewrite <- !app_assoc. reflexivity.
Qed.

(** X19: [bme280_init] returns [True] exactly when the chip-identity
    register reads [0x60] and the four configuration writes go through;
    it then has slept 0.5 s, 0.1 s and 0.5 s, in this order.  Whatever
    it returns, it leaves the published reading, the push time and the
    token alone, and a chip that answers another identity is left
    untouched: nothing is slept. *)
Theorem bme280_init_succeeds_iff b address s :
  (fst (bme280_init b address s) = true <-> sensor_ready b address) /\
  (sensor_ready b address ->
   events_of (bme280_init b address) s = [Sleep 500; Sleep 100; Sleep 500]) /\
  (forall c, read_byte_data b address BME280_REGISTER_CHIPID = Some c ->
             c <> 0x60%Z -> bme280_init b address s = (false, s)) /\
  sensor_data (snd (bme280_init b address s)) = sensor_data s /\
  last_tuya_update (snd (bme280_init b address s)) = last_tuya_update s /\
  TUYA_ACCESS_TOKEN (snd (bme280_init b address s)) = TUYA_ACCESS_TOKEN s.
Proof.
  unfold sensor_ready.
  destruct (bme280_init_outcome b address s)
    as [(Hid & Hw & Hrun) | (Hno & Hf & Hsd & Hlast & Htok & _ & _ & Hsame)].
  - rewrite Hrun. cbn [fst]. split; [tauto |].
    split.
    { intros _. apply events_of_app. rewrite Hrun. apply init_sleeps_trace. }
    split; [intros c Hc Hne; congruence |].
    repeat split.
  - split; [split; [rewrite Hf; discriminate | tauto] |].
    split; [tauto |].
    split; [intros c Hc Hne; apply Hsame; intros c' Hc'; congruence |].
    repeat split; assumption.
Qed.

Lemma bme280_init_succeeds_example :
  events_of (bme280_init (chip_bus 0x60) BME280_ADDRESS) initial_state
    = [Sleep 500; Sleep 100; Sleep 500] /\
  bme280_init (chip_bus 0x58) BME280_ADDRESS initial_state = (false, initial_state).
Proof.
  split.
  - apply (proj1 (proj2 (bme280_init_succeeds_iff
                           (chip_bus 0x60) BME280_ADDRESS initial_state))).
    unfold sensor_ready, writes_succeed. repeat split.
  - apply (proj1 (proj2 (proj2 (bme280_init_succeeds_iff
                                  (chip_bus 0x58) BME280_ADDRESS initial_state)))
             0x58%Z); [reflexivity | discriminate].
Defined.

(** X20: when the sensor does not initialise, the acquisition thread
    blanks the published reading and ends: whatever the later passes
    would have met, it contacts the cloud not once and leaves the push
    time where it was. *)
Theorem update_sensor_data_without_sensor cfg w0 cycles s :
  ~ sensor_ready (bus w0) BME280_ADDRESS ->
  sensor_data (snd (update_sensor_data cfg w0 cycles s)) = unavailable /\
  gets (events_of (update_sensor_data cfg w0 cycles) s) = 0%nat /\
  posts (events_of (update_sensor_data cfg w0 cycles) s) = 0%nat /\
  last_tuya_update (snd (update_sensor_data cfg w0 cycles s)) = last_tuya_update s.
Proof.
  intros Hno. unfold sensor_ready in Hno.
  destruct (bme280_init_outcome (bus w0) BME280_ADDRESS s)
    as [(Hid & Hw & _) | (_ & Hf & _ & Hlast & _ & Hg & Hp & _)]; [tauto |].
  unfold events_of in *. unfold update_sensor_data, bindM, call.
  destruct (bme280_init (bus w0) BME280_ADDRESS s) as [ok s1].
  cbn [fst snd] in *. subst ok. cbn [negb]. unfold update.
  cbn [snd set_sensor_data sensor_data trace last_tuya_update].
  repeat split; assumption.
Qed.

Lemma update_sensor_data_without_sensor_example :
  sensor_data
    (snd (update_sensor_data demo_cfg (cloud_up (chip_bus 0x58))
            [cloud_up (constant_bus sentinel_burst 0)] initial_state))
    = unavailable /\
  events_of (update_sensor_data demo_cfg (cloud_up (chip_bus 0x58))
               [cloud_up (constant_bus sentinel_burst 0)]) initial_state = [].
Proof.
  split.
  - apply (update_sensor_data_without_sensor demo_cfg (cloud_up (chip_bus 0x58))
             [cloud_up (constant_bus sentinel_burst 0)] initial_state).
    intros [Hid _]. discriminate Hid.
  - vm_compute. reflexivity.
Defined.

(** X21: once the sensor has initialised, the thread is the sampling
    loop run with the coefficients read from the bus: the three
    initialisation sleeps come first, the passes follow, the exception
    handler is never reached, and a well-formed reading stays well
    formed. *)
Theorem update_sensor_data_with_sensor cfg w0 cycles s :
  sensor_ready (bus w0) BME280_ADDRESS ->
  let s0 := snd (bme280_init (bus w0) BME280_ADDRESS s) in
  let calib := read_calibration_data (bus w0) BME280_ADDRESS in
  fst (sampling cfg calib cycles s0) = Some tt /\
  update_sensor_data cfg w0 cycles s = (tt, snd (sampling cfg calib cycles s0)) /\
  events_of (update_sensor_data cfg w0 cycles) s
    = [Sleep 500; Sleep 100; Sleep 500] ++ events_of (sampling cfg calib cycles) s0 /\
  (reading_ok (sensor_data s) ->
   reading_ok (sensor_data (snd (update_sensor_data cfg w0 cycles s)))).
Proof.
  intros Hready s0 calib. unfold sensor_ready in Hready.
  destruct (bme280_init_outcome (bus w0) BME280_ADDRESS s)
    as [(_ & _ & Hrun) | (Hno & _)]; [| tauto].
  destruct (sampling_outcome cfg calib cycles s0) as (s' & evs & Hs & Hok & Htr & _).
  assert (Hupd : update_sensor_data cfg w0 cycles s = (tt, s')).
  { assert (Hs0 : bme280_init (bus w0) BME280_ADDRESS s = (true, s0))
      by (subst s0; rewrite Hrun; reflexivity).
    unfold update_sensor_data, bindM, call. fold calib.
    rewrite Hs0. cbn [negb]. rewrite Hs. reflexivity. }
  assert (Htr0 : trace s0 = trace s ++ [Sleep 500; Sleep 100; Sleep 500]).
  { subst s0. rewrite Hrun. apply init_sleeps_trace. }
  assert (Hsd0 : sensor_data s0 = sensor_data s).
  { subst s0. rewrite Hrun. reflexivity. }
  rewrite Hs, Hupd. cbn [fst snd].
  split; [reflexivity |]. split; [reflexivity |].
  split.
  - rewrite (events_of_app (sampling cfg calib cycles) s0 evs)
      by (rewrite Hs; exact Htr).
    apply events_of_app. rewrite Hupd. cbn [snd].
    rewrite Htr, Htr0, <- app_assoc. reflexivity.
  - rewrite <- Hsd0. exact Hok.
Qed.

Lemma update_sensor_data_with_sensor_example :
  map is_post
    (events_of (update_sensor_data demo_cfg (cloud_up (chip_bus 0x60))
                  [cloud_up dead_bus]) initial_state)
    = [false; false; false; false; true; false] /\
  reading_ok
    (sensor_data
       (snd (update_sensor_data demo_cfg (cloud_up (chip_bus 0x60))
               [cloud_up dead_bus] initial_state))).
Proof.
  split.
  - vm_compute. reflexivity.
  - apply (update_sensor_data_with_sensor demo_cfg (cloud_up (chip_bus 0x60))
             [cloud_up dead_bus] initial_state).
    + unfold sensor_ready, writes_succeed. repeat split.
    + exact I.
Defined.
